(** * CashFlow Manager: authentication core of [main.py]

    A shallow embedding of the request-governance and authentication code of
    [src/main.py] (input validators, rate limiter, local token service,
    external identity verifier, auth endpoints) together with the properties
    established about it.

    Conventions.
    - Time is an integer number of microseconds since the epoch ([Z]); this
      is the resolution of [datetime] and finer than what the code compares
      with [time.time()].
    - Python [str] values that are only compared or searched are Rocq
      [string]s; a password, whose characters are classified one by one, is
      a list of Unicode code points.
    - Handlers run in a state-and-exception monad over a [world] holding the
      process-wide objects of the module (rate limiter, JWKS cache, the
      database behind the pool) and the environment (clock, entropy, HTTP
      peer). *)

From Stdlib Require Import ZArith NArith List Bool String Ascii Lia DecimalString.
Import ListNotations.
Local Open Scope string_scope.
Local Open Scope Z_scope.

(* ================================================================== *)
(** * Python strings *)
(* ================================================================== *)

Module Py.

(** A Unicode code point. *)
Definition codepoint := N.

(** A Python [str] seen as its sequence of code points; [len] is [length]. *)
Definition str := list codepoint.

(** An ASCII/Latin-1 literal as a Python [str]. *)
Fixpoint lit (s : string) : str :=
  match s with
  | EmptyString => []
  | String a s' => N_of_ascii a :: lit s'
  end.

(** The part of the Unicode character database that [str.isupper],
    [str.islower] and [str.isdigit] consult outside ASCII. *)
Record unicode_db := {
  uc_isupper : codepoint -> bool;
  uc_islower : codepoint -> bool;
  uc_isdigit : codepoint -> bool
}.

(** The database restricted to ASCII: nothing outside ASCII is classified. *)
Definition ascii_only : unicode_db :=
  {| uc_isupper := fun _ => false;
     uc_islower := fun _ => false;
     uc_isdigit := fun _ => false |}.

Definition is_ascii (c : codepoint) : bool := (c <? 128)%N.

Definition between (lo hi c : codepoint) : bool := ((lo <=? c) && (c <=? hi))%N.

(** [c.isupper()] for a one-character string [c]. *)
Definition isupper (ucd : unicode_db) (c : codepoint) : bool :=
  if is_ascii c then between 65%N 90%N c else uc_isupper ucd c.

(** [c.islower()]. *)
Definition islower (ucd : unicode_db) (c : codepoint) : bool :=
  if is_ascii c then between 97%N 122%N c else uc_islower ucd c.

(** [c.isdigit()]. *)
Definition isdigit (ucd : unicode_db) (c : codepoint) : bool :=
  if is_ascii c then between 48%N 57%N c else uc_isdigit ucd c.

(** [c in s] for a one-character [c]. *)
Definition char_in (c : codepoint) (s : str) : bool := existsb (N.eqb c) s.

(** [any(p(c) for c in s)]. *)
Definition any (p : codepoint -> bool) (s : str) : bool := existsb p s.

(** [sub in s] on byte strings: [sub] occurs as a contiguous substring. *)
Fixpoint contains (sub s : string) : bool :=
  prefix sub s ||
  match s with
  | EmptyString => false
  | String _ s' => contains sub s'
  end.

End Py.

(* ================================================================== *)
(** * Input validation *)
(* ================================================================== *)

Definition MIN_PASSWORD_LENGTH : Z := 12.
Definition MAX_PASSWORD_LENGTH : Z := 128.

(** The literal ['!@#$%^&*()_+-=[]{}|;:,.<>?'] of [validate_password_strength]. *)
Definition SPECIAL_CHARACTERS : Py.str := Py.lit "!@#$%^&*()_+-=[]{}|;:,.<>?".

Definition MSG_TOO_SHORT : string := "Password must be at least 12 characters long".
Definition MSG_TOO_LONG : string := "Password must be less than 128 characters".
Definition MSG_COMPLEXITY : string :=
  "Password must contain uppercase, lowercase, digit, and special character".
Definition MSG_STRONG : string := "Password is strong".

Section Validators.

Variable ucd : Py.unicode_db.

Definition has_upper (password : Py.str) : bool := Py.any (Py.isupper ucd) password.
Definition has_lower (password : Py.str) : bool := Py.any (Py.islower ucd) password.
Definition has_digit (password : Py.str) : bool := Py.any (Py.isdigit ucd) password.
Definition has_special (password : Py.str) : bool :=
  Py.any (fun c => Py.char_in c SPECIAL_CHARACTERS) password.

(** [validate_password_strength(password) -> tuple[bool, str]]. *)
Definition validate_password_strength (password : Py.str) : bool * string :=
  if Z.of_nat (List.length password) <? MIN_PASSWORD_LENGTH then (false, MSG_TOO_SHORT)
  else if Z.of_nat (List.length password) >? MAX_PASSWORD_LENGTH then (false, MSG_TOO_LONG)
  else if negb (has_upper password && has_lower password
                && has_digit password && has_special password)
       then (false, MSG_COMPLEXITY)
       else (true, MSG_STRONG).

End Validators.

(** What the specification calls a strong password, as a proposition. *)
Definition strong_password (ucd : Py.unicode_db) (s : Py.str) : Prop :=
  12 <= Z.of_nat (List.length s) <= 128
  /\ (exists c, In c s /\ Py.isupper ucd c = true)
  /\ (exists c, In c s /\ Py.islower ucd c = true)
  /\ (exists c, In c s /\ Py.isdigit ucd c = true)
  /\ (exists c, In c s /\ In c SPECIAL_CHARACTERS).

(* ================================================================== *)
(** * Exceptions and HTTP responses *)
(* ================================================================== *)

(** [str(n)] for an integer, as used by the f-strings of the module. *)
Definition str_of_Z (n : Z) : string := NilZero.string_of_int (Z.to_int n).

(** The [detail] argument of an [HTTPException]: a string, or the dictionary
    [{error, message, retry_after}] built by the rate-limit dependency. *)
Inductive detail :=
| DetailStr (s : string)
| DetailRateLimit (error message : string) (retry_after : Z).

(** The exceptions that the modelled code and its libraries raise. *)
Inductive exn :=
| HTTPException (status_code : Z) (d : detail)
| ExpiredSignatureError (msg : string)
| InvalidSignatureError (msg : string)
| DecodeError (msg : string)
| InvalidAlgorithmError (msg : string)
| InvalidKeyError (msg : string)
| AttributeError (msg : string)
| KeyError (msg : string)
| TypeError (msg : string)
| InterfaceError (msg : string).

(** Exception classes, for [except] clauses. *)
Inductive exn_class :=
| CException
| CHTTPException
| CPyJWTError
| CInvalidTokenError
| CDecodeError
| CInvalidSignatureError
| CExpiredSignatureError
| CInvalidAlgorithmError
| CInvalidKeyError
| CAttributeError
| CKeyError
| CTypeError
| CInterfaceError.

Definition class_of (e : exn) : exn_class :=
  match e with
  | HTTPException _ _ => CHTTPException
  | ExpiredSignatureError _ => CExpiredSignatureError
  | InvalidSignatureError _ => CInvalidSignatureError
  | DecodeError _ => CDecodeError
  | InvalidAlgorithmError _ => CInvalidAlgorithmError
  | InvalidKeyError _ => CInvalidKeyError
  | AttributeError _ => CAttributeError
  | KeyError _ => CKeyError
  | TypeError _ => CTypeError
  | InterfaceError _ => CInterfaceError
  end.

(** The direct base class; [Exception] is the root of everything raised here.
    The PyJWT part follows [jwt/exceptions.py]. *)
Definition base_class (c : exn_class) : option exn_class :=
  match c with
  | CException => None
  | CInvalidTokenError => Some CPyJWTError
  | CDecodeError => Some CInvalidTokenError
  | CInvalidSignatureError => Some CDecodeError
  | CExpiredSignatureError => Some CInvalidTokenError
  | CInvalidAlgorithmError => Some CInvalidTokenError
  | CInvalidKeyError => Some CPyJWTError
  | _ => Some CException
  end.

Definition exn_class_eqb (a b : exn_class) : bool :=
  match a, b with
  | CException, CException | CHTTPException, CHTTPException
  | CPyJWTError, CPyJWTError | CInvalidTokenError, CInvalidTokenError
  | CDecodeError, CDecodeError | CInvalidSignatureError, CInvalidSignatureError
  | CExpiredSignatureError, CExpiredSignatureError
  | CInvalidAlgorithmError, CInvalidAlgorithmError
  | CInvalidKeyError, CInvalidKeyError | CAttributeError, CAttributeError
  | CKeyError, CKeyError | CTypeError, CTypeError
  | CInterfaceError, CInterfaceError => true
  | _, _ => false
  end.

(** [issubclass(c, target)], walking at most the depth of the hierarchy. *)
Fixpoint issubclass_fuel (fuel : nat) (c target : exn_class) : bool :=
  exn_class_eqb c target ||
  match fuel with
  | O => false
  | S fuel' =>
      match base_class c with
      | Some b => issubclass_fuel fuel' b target
      | None => false
      end
  end.

Definition issubclass (c target : exn_class) : bool := issubclass_fuel 5 c target.

(** [isinstance(e, target)]: does [except target] catch [e]. *)
Definition isinstance (e : exn) (target : exn_class) : bool :=
  issubclass (class_of e) target.

(** [str(e)].  Starlette's [HTTPException.__str__] gives ["<status>: <detail>"];
    the other exceptions print their message. *)
Definition exn_str (e : exn) : string :=
  match e with
  | HTTPException sc (DetailStr s) => str_of_Z sc ++ ": " ++ s
  | HTTPException sc (DetailRateLimit err _ _) => str_of_Z sc ++ ": " ++ err
  | ExpiredSignatureError m | InvalidSignatureError m | DecodeError m
  | InvalidAlgorithmError m | InvalidKeyError m | AttributeError m
  | KeyError m | TypeError m | InterfaceError m => m
  end.

(** Result of running a piece of Python: a value or a raised exception. *)
Inductive outcome (A : Type) :=
| Return (a : A)
| Raise (e : exn).
Arguments Return {A} a.
Arguments Raise {A} e.

(** What the framework sends back for a handler's outcome: the handler's
    value, the status and detail of an [HTTPException], and a bare 500 for
    any other exception that escapes the handler. *)
Inductive response (A : Type) :=
| Success (body : A)
| Failure (status_code : Z) (d : detail).
Arguments Success {A} body.
Arguments Failure {A} status_code d.

Definition respond {A} (o : outcome A) : response A :=
  match o with
  | Return a => Success a
  | Raise (HTTPException sc d) => Failure sc d
  | Raise _ => Failure 500 (DetailStr "Internal Server Error")
  end.

Definition status_of {A} (r : response A) : Z :=
  match r with
  | Success _ => 200
  | Failure sc _ => sc
  end.

Definition HTTP_400_BAD_REQUEST : Z := 400.
Definition HTTP_401_UNAUTHORIZED : Z := 401.
Definition HTTP_403_FORBIDDEN : Z := 403.
Definition HTTP_429_TOO_MANY_REQUESTS : Z := 429.
Definition HTTP_500_INTERNAL_SERVER_ERROR : Z := 500.

(* ================================================================== *)
(** * Tokens, digests and the PyJWT interface *)
(* ================================================================== *)

Definition US_PER_SECOND : Z := 1000000.

(** Microseconds in [s] seconds. *)
Definition seconds (s : Z) : Z := s * US_PER_SECOND.
Definition minutes (m : Z) : Z := seconds (m * 60).
Definition days (d : Z) : Z := seconds (d * 86400).

Module PyJWT.

(** Key material handed to [jwt.encode] / [jwt.decode]: a shared secret or
    the public half of an asymmetric key pair, named by the pair. *)
Inductive key :=
| Secret (s : string)
| PublicKey (kty : string) (pair : N).

(** Signatures are symbolic: a signature records who produced it. *)
Inductive signature :=
| SignedWithSecret (s : string)
| SignedWithPrivate (pair : N)
| NoValidSignature.

Record header := { alg : option string; kid : option string }.

(** The claims the module reads; [exp] is in whole seconds, as encoded. *)
Record claims := {
  sub : option string;
  exp : option Z;
  type : option string;
  email : option string
}.

(** A bearer string, identified with what [jwt] parses out of it. *)
Inductive token :=
| Malformed (raw : string)
| Jwt (h : header) (c : claims) (sg : signature).

(** Exception classes the [jwt] package exports, by attribute name
    ([jwt/__init__.py]). *)
Definition exported_exceptions : list (string * exn_class) :=
  [ ("DecodeError", CDecodeError);
    ("ExpiredSignatureError", CExpiredSignatureError);
    ("InvalidAlgorithmError", CInvalidAlgorithmError);
    ("InvalidKeyError", CInvalidKeyError);
    ("InvalidSignatureError", CInvalidSignatureError);
    ("InvalidTokenError", CInvalidTokenError);
    ("PyJWTError", CPyJWTError) ].

Fixpoint lookup (name : string) (l : list (string * exn_class)) : option exn_class :=
  match l with
  | [] => None
  | (n, c) :: l' => if String.eqb n name then Some c else lookup name l'
  end.

(** Evaluating the expression [jwt.<name>]. *)
Definition getattr (name : string) : outcome exn_class :=
  match lookup name exported_exceptions with
  | Some c => Return c
  | None => Raise (AttributeError ("module 'jwt' has no attribute '" ++ name ++ "'"))
  end.

(** Is [a] one of the HMAC algorithms. *)
Definition is_hmac (a : string) : bool :=
  String.eqb a "HS256" || String.eqb a "HS384" || String.eqb a "HS512".

(** Does signature [sg] verify under [k] with algorithm [a]. *)
Definition signature_ok (a : string) (k : key) (sg : signature) : bool :=
  match k, sg with
  | Secret s, SignedWithSecret s' => is_hmac a && String.eqb s s'
  | PublicKey _ p, SignedWithPrivate p' => negb (is_hmac a) && N.eqb p p'
  | _, _ => false
  end.

Definition mem (a : string) (l : list (option string)) : bool :=
  existsb (fun o => match o with Some b => String.eqb a b | None => false end) l.

(** [jwt.get_unverified_header(token)]. *)
Definition get_unverified_header (t : token) : outcome header :=
  match t with
  | Malformed _ => Raise (DecodeError "Not enough segments")
  | Jwt h _ _ => Return h
  end.

(** The checks of [jwt.decode] that precede claim validation: parse, allowed
    algorithm, signature. *)
Definition check_signature (t : token) (k : key) (algorithms : list (option string))
  : outcome claims :=
  match t with
  | Malformed _ => Raise (DecodeError "Not enough segments")
  | Jwt h c sg =>
      match alg h with
      | None => Raise (InvalidAlgorithmError "Algorithm not specified")
      | Some a =>
          if negb (mem a algorithms)
          then Raise (InvalidAlgorithmError "The specified alg value is not allowed")
          else if signature_ok a k sg then Return c
          else Raise (InvalidSignatureError "Signature verification failed")
      end
  end.

(** Claim validation at time [now] (microseconds): only [exp] matters here
    (audience checking is off or inapplicable). *)
Definition validate_claims (c : claims) (now : Z) : outcome claims :=
  match exp c with
  | Some e => if seconds e <=? now
              then Raise (ExpiredSignatureError "Signature has expired")
              else Return c
  | None => Return c
  end.

(** [jwt.encode(payload, key, algorithm="HS256")] for a payload whose [exp]
    is a [datetime] (microseconds [exp_us]): the claim is stored in whole
    seconds. *)
Definition encode_hs256 (sub_ : string) (exp_us : Z) (type_ : string) (secret : string)
  : token :=
  Jwt {| alg := Some "HS256"; kid := None |}
      {| sub := Some sub_; exp := Some (exp_us / US_PER_SECOND);
         type := Some type_; email := None |}
      (SignedWithSecret secret).

End PyJWT.

(** [hashlib.sha256(token.encode()).hexdigest()], symbolically. *)
Inductive digest := SHA256 (t : PyJWT.token).

Definition hash_token (t : PyJWT.token) : digest := SHA256 t.

(** A passlib bcrypt hash, symbolically: salt and hashed password. *)
Inductive password_digest := Bcrypt (salt : string) (password : Py.str).

Fixpoint str_eqb (a b : Py.str) : bool :=
  match a, b with
  | [], [] => true
  | x :: a', y :: b' => N.eqb x y && str_eqb a' b'
  | _, _ => false
  end.

(** [verify_password(plain_password, hashed_password)]. *)
Definition verify_password (plain_password : Py.str) (hashed_password : password_digest)
  : bool :=
  match hashed_password with
  | Bcrypt _ p => str_eqb plain_password p
  end.

(* ================================================================== *)
(** * Storage rows, process state and the handler monad *)
(* ================================================================== *)

(** A row of [users].  Timestamps are microsecond counts standing for the
    ISO strings the code stores. *)
Record user_row := {
  user_id : string;
  u_email : string;
  password_hash : password_digest;
  full_name : string;
  business_name : option string;
  is_active : Z;
  is_verified : Z;
  created_at : Z;
  updated_at : Z;
  last_login_at : option Z
}.

(** A row of [auth_sessions]. *)
Record session_row := {
  session_id : string;
  s_user_id : string;
  access_token_hash : digest;
  refresh_token_hash : digest;
  expires_at : Z;
  s_created_at : Z;
  ip_address : string
}.

Record database := {
  users : list user_row;
  auth_sessions : list session_row
}.

(** Parameter style of a statement text: psycopg2 binds [%s]; a [?] is not a
    placeholder for it. *)
Inductive paramstyle := Format | Qmark.

(** The statements the auth endpoints execute, with their bound values. *)
Inductive sql :=
| SelectEmailWhereEmail (email : string)
| SelectUserWhereEmail (email : string)
| SelectActiveUserWhereId (uid : option string)
| InsertUser (row : user_row)
| InsertSession (style : paramstyle) (row : session_row)
| UpdateLastLogin (ts : Z) (uid : string)
| UpdateProfile (assignments : list (string * string)) (ts : Z) (uid : string)
| UpdatePasswordHash (h : password_digest) (ts : Z) (uid : string)
| DeleteSessionsWhereUser (uid : string).

(** One call of [cursor.execute]: the statement, and whether the driver ran
    it on the server or refused it by raising. *)
Inductive execution :=
| Executed (s : sql)
| Refused (s : sql).

(** One [logger.info("AUDIT: ...")] record. *)
Record audit_entry := {
  a_timestamp : Z;
  a_event_type : string;
  a_user_id : option string;
  a_ip_address : string;
  a_details : list (string * string)
}.

(** [os.getenv] configuration and the host's time zone. *)
Record environment := {
  SECRET_KEY : string;
  ACCESS_TOKEN_EXPIRE_MINUTES : Z;
  REFRESH_TOKEN_EXPIRE_DAYS : Z;
  (** local time minus UTC, in microseconds *)
  utc_offset : Z
}.

(** The defaults of the module, on a host running in UTC. *)
Definition default_environment : environment :=
  {| SECRET_KEY := "your-secret-key-change-in-production";
     ACCESS_TOKEN_EXPIRE_MINUTES := 30;
     REFRESH_TOKEN_EXPIRE_DAYS := 7;
     utc_offset := 0 |}.

Definition ALGORITHM : string := "HS256".

(** [class RateLimiter]: the two [defaultdict(list)] tables, keyed by IP. *)
Record RateLimiter := {
  requests : string -> list (Z * string);
  failed_attempts : string -> list Z
}.

(** An entry of a JWKS document. *)
Record jwk := {
  jwk_kid : option string;
  jwk_kty : option string;
  jwk_pair : N
}.

(** A JWKS document [{"keys": [...]}]. *)
Record jwks := { keys : list jwk }.

(** Everything a handler can read or change.
    - [clock n] is the UTC time of the [n]-th clock reading of the process,
      [clock_reads] the number of readings so far;
    - [entropy] likewise feeds [secrets] and the bcrypt salt;
    - [jwks_http n] is the answer to the [n]-th GET of the JWKS URL, [None]
      for any failure (timeout, connection error, non-2xx status);
    - [db] is the committed database, [txn] the view of the connection in
      use (its uncommitted writes included), [cursor_open] whether the
      cursor bound to the handler's [cursor] variable is still open,
      [result_set] what its last statement returned;
    - [sql_log] lists the calls of [cursor.execute], [audit_log] the audit
      records, both oldest first. *)
Record world := {
  env : environment;
  clock : nat -> Z;
  clock_reads : nat;
  entropy : nat -> string;
  entropy_reads : nat;
  jwks_http : nat -> option jwks;
  http_requests : nat;
  _jwks_cache : option jwks;
  _jwks_cache_time : option Z;
  rate_limiter : RateLimiter;
  db : database;
  txn : database;
  cursor_open : bool;
  result_set : list user_row;
  sql_log : list execution;
  audit_log : list audit_entry
}.

(** A clock that never runs backwards. *)
Definition monotone (c : nat -> Z) : Prop := forall n, c n <= c (S n).

Definition set_clock_reads (n : nat) (w : world) : world :=
  {| env := env w; clock := clock w; clock_reads := n;
     entropy := entropy w; entropy_reads := entropy_reads w;
     jwks_http := jwks_http w; http_requests := http_requests w;
     _jwks_cache := _jwks_cache w; _jwks_cache_time := _jwks_cache_time w;
     rate_limiter := rate_limiter w; db := db w; txn := txn w;
     cursor_open := cursor_open w; result_set := result_set w;
     sql_log := sql_log w; audit_log := audit_log w |}.

Definition set_entropy_reads (n : nat) (w : world) : world :=
  {| env := env w; clock := clock w; clock_reads := clock_reads w;
     entropy := entropy w; entropy_reads := n;
     jwks_http := jwks_http w; http_requests := http_requests w;
     _jwks_cache := _jwks_cache w; _jwks_cache_time := _jwks_cache_time w;
     rate_limiter := rate_limiter w; db := db w; txn := txn w;
     cursor_open := cursor_open w; result_set := result_set w;
     sql_log := sql_log w; audit_log := audit_log w |}.

Definition set_http_requests (n : nat) (w : world) : world :=
  {| env := env w; clock := clock w; clock_reads := clock_reads w;
     entropy := entropy w; entropy_reads := entropy_reads w;
     jwks_http := jwks_http w; http_requests := n;
     _jwks_cache := _jwks_cache w; _jwks_cache_time := _jwks_cache_time w;
     rate_limiter := rate_limiter w; db := db w; txn := txn w;
     cursor_open := cursor_open w; result_set := result_set w;
     sql_log := sql_log w; audit_log := audit_log w |}.

Definition set_jwks_cache (c : option jwks) (t : option Z) (w : world) : world :=
  {| env := env w; clock := clock w; clock_reads := clock_reads w;
     entropy := entropy w; entropy_reads := entropy_reads w;
     jwks_http := jwks_http w; http_requests := http_requests w;
     _jwks_cache := c; _jwks_cache_time := t;
     rate_limiter := rate_limiter w; db := db w; txn := txn w;
     cursor_open := cursor_open w; result_set := result_set w;
     sql_log := sql_log w; audit_log := audit_log w |}.

Definition set_rate_limiter (r : RateLimiter) (w : world) : world :=
  {| env := env w; clock := clock w; clock_reads := clock_reads w;
     entropy := entropy w; entropy_reads := entropy_reads w;
     jwks_http := jwks_http w; http_requests := http_requests w;
     _jwks_cache := _jwks_cache w; _jwks_cache_time := _jwks_cache_time w;
     rate_limiter := r; db := db w; txn := txn w;
     cursor_open := cursor_open w; result_set := result_set w;
     sql_log := sql_log w; audit_log := audit_log w |}.

Definition set_db (d : database) (w : world) : world :=
  {| env := env w; clock := clock w; clock_reads := clock_reads w;
     entropy := entropy w; entropy_reads := entropy_reads w;
     jwks_http := jwks_http w; http_requests := http_requests w;
     _jwks_cache := _jwks_cache w; _jwks_cache_time := _jwks_cache_time w;
     rate_limiter := rate_limiter w; db := d; txn := txn w;
     cursor_open := cursor_open w; result_set := result_set w;
     sql_log := sql_log w; audit_log := audit_log w |}.

Definition set_txn (d : database) (w : world) : world :=
  {| env := env w; clock := clock w; clock_reads := clock_reads w;
     entropy := entropy w; entropy_reads := entropy_reads w;
     jwks_http := jwks_http w; http_requests := http_requests w;
     _jwks_cache := _jwks_cache w; _jwks_cache_time := _jwks_cache_time w;
     rate_limiter := rate_limiter w; db := db w; txn := d;
     cursor_open := cursor_open w; result_set := result_set w;
     sql_log := sql_log w; audit_log := audit_log w |}.

Definition set_cursor_open (b : bool) (w : world) : world :=
  {| env := env w; clock := clock w; clock_reads := clock_reads w;
     entropy := entropy w; entropy_reads := entropy_reads w;
     jwks_http := jwks_http w; http_requests := http_requests w;
     _jwks_cache := _jwks_cache w; _jwks_cache_time := _jwks_cache_time w;
     rate_limiter := rate_limiter w; db := db w; txn := txn w;
     cursor_open := b; result_set := result_set w;
     sql_log := sql_log w; audit_log := audit_log w |}.

Definition set_result_set (r : list user_row) (w : world) : world :=
  {| env := env w; clock := clock w; clock_reads := clock_reads w;
     entropy := entropy w; entropy_reads := entropy_reads w;
     jwks_http := jwks_http w; http_requests := http_requests w;
     _jwks_cache := _jwks_cache w; _jwks_cache_time := _jwks_cache_time w;
     rate_limiter := rate_limiter w; db := db w; txn := txn w;
     cursor_open := cursor_open w; result_set := r;
     sql_log := sql_log w; audit_log := audit_log w |}.

Definition set_sql_log (l : list execution) (w : world) : world :=
  {| env := env w; clock := clock w; clock_reads := clock_reads w;
     entropy := entropy w; entropy_reads := entropy_reads w;
     jwks_http := jwks_http w; http_requests := http_requests w;
     _jwks_cache := _jwks_cache w; _jwks_cache_time := _jwks_cache_time w;
     rate_limiter := rate_limiter w; db := db w; txn := txn w;
     cursor_open := cursor_open w; result_set := result_set w;
     sql_log := l; audit_log := audit_log w |}.

Definition set_audit_log (l : list audit_entry) (w : world) : world :=
  {| env := env w; clock := clock w; clock_reads := clock_reads w;
     entropy := entropy w; entropy_reads := entropy_reads w;
     jwks_http := jwks_http w; http_requests := http_requests w;
     _jwks_cache := _jwks_cache w; _jwks_cache_time := _jwks_cache_time w;
     rate_limiter := rate_limiter w; db := db w; txn := txn w;
     cursor_open := cursor_open w; result_set := result_set w;
     sql_log := sql_log w; audit_log := l |}.

(** The handler monad: state passing with exceptions. *)
Definition M (A : Type) : Type := world -> outcome A * world.

Definition ret {A} (a : A) : M A := fun w => (Return a, w).

Definition bind {A B} (m : M A) (f : A -> M B) : M B :=
  fun w =>
    match m w with
    | (Return a, w') => f a w'
    | (Raise e, w') => (Raise e, w')
    end.

Definition raise {A} (e : exn) : M A := fun w => (Raise e, w).

(** Lift a library call that either returns or raises. *)
Definition lift {A} (o : outcome A) : M A := fun w => (o, w).

Definition get {A} (f : world -> A) : M A := fun w => (Return (f w), w).

Definition modify (f : world -> world) : M unit := fun w => (Return tt, f w).

Declare Scope py_scope.
Delimit Scope py_scope with py.
Notation "x <- m ;; k" := (bind m (fun x => k))
  (at level 61, m at next level, right associativity) : py_scope.
Notation "m ;; k" := (bind m (fun _ => k))
  (at level 61, right associativity) : py_scope.
Local Open Scope py_scope.

(** One [except <class expression>: <body>] clause.  The class expression is
    evaluated when the clause is reached and may itself raise. *)
Record except_clause (A : Type) := {
  clause_class : outcome exn_class;
  clause_body : exn -> M A
}.
Arguments clause_class {A} _.
Arguments clause_body {A} _ _.

(** Dispatch of a raised [e] over the clauses of a [try] statement, in
    order; an exception raised while evaluating a class expression replaces
    [e]; with no matching clause [e] propagates. *)
Fixpoint dispatch {A} (e : exn) (clauses : list (except_clause A)) : M A :=
  match clauses with
  | [] => raise e
  | c :: rest =>
      match clause_class c with
      | Raise e' => raise e'
      | Return cls => if isinstance e cls then clause_body c e else dispatch e rest
      end
  end.

(** [try: body  except ...: ...]. *)
Definition try_except {A} (body : M A) (clauses : list (except_clause A)) : M A :=
  fun w =>
    match body w with
    | (Return a, w') => (Return a, w')
    | (Raise e, w') => dispatch e clauses w'
    end.

(** [try: body  finally: cleanup], also the exit of a [with] block. *)
Definition try_finally {A} (body : M A) (cleanup : world -> world) : M A :=
  fun w =>
    match body w with
    | (o, w') => (o, cleanup w')
    end.

(* ================================================================== *)
(** * Environment: clock, entropy, database driver *)
(* ================================================================== *)

(** One reading of the system clock, in UTC. *)
Definition read_clock : M Z :=
  fun w => (Return (clock w (clock_reads w)), set_clock_reads (S (clock_reads w)) w).

(** [time.time()]. *)
Definition time_time : M Z := read_clock.

(** [datetime.utcnow()]. *)
Definition datetime_utcnow : M Z := read_clock.

(** [datetime.now()]: naive local time. *)
Definition datetime_now : M Z :=
  t <- read_clock ;;
  off <- get (fun w => utc_offset (env w)) ;;
  ret (t + off).

(** [secrets.token_urlsafe(nbytes)]. *)
Definition secrets_token_urlsafe (nbytes : Z) : M string :=
  fun w => (Return (entropy w (entropy_reads w)),
            set_entropy_reads (S (entropy_reads w)) w).

(** [hash_password(password)]: bcrypt with a fresh salt. *)
Definition hash_password (password : Py.str) : M password_digest :=
  salt <- secrets_token_urlsafe 16 ;;
  ret (Bcrypt salt password).

Definition opt_string_eqb (a b : option string) : bool :=
  match a, b with
  | Some x, Some y => String.eqb x y
  | None, None => true
  | _, _ => false
  end.

Definition set_profile_field (kv : string * string) (u : user_row) : user_row :=
  let (k, v) := kv in
  {| user_id := user_id u; u_email := u_email u; password_hash := password_hash u;
     full_name := if String.eqb k "full_name" then v else full_name u;
     business_name := if String.eqb k "business_name" then Some v else business_name u;
     is_active := is_active u; is_verified := is_verified u;
     created_at := created_at u; updated_at := updated_at u;
     last_login_at := last_login_at u |}.

Definition set_updated_at (ts : Z) (u : user_row) : user_row :=
  {| user_id := user_id u; u_email := u_email u; password_hash := password_hash u;
     full_name := full_name u; business_name := business_name u;
     is_active := is_active u; is_verified := is_verified u;
     created_at := created_at u; updated_at := ts;
     last_login_at := last_login_at u |}.

Definition set_password_hash (h : password_digest) (u : user_row) : user_row :=
  {| user_id := user_id u; u_email := u_email u; password_hash := h;
     full_name := full_name u; business_name := business_name u;
     is_active := is_active u; is_verified := is_verified u;
     created_at := created_at u; updated_at := updated_at u;
     last_login_at := last_login_at u |}.

Definition set_last_login_at (ts : Z) (u : user_row) : user_row :=
  {| user_id := user_id u; u_email := u_email u; password_hash := password_hash u;
     full_name := full_name u; business_name := business_name u;
     is_active := is_active u; is_verified := is_verified u;
     created_at := created_at u; updated_at := updated_at u;
     last_login_at := Some ts |}.

(** Apply [f] to the rows whose [user_id] is [uid]. *)
Definition update_where_id (uid : string) (f : user_row -> user_row) (l : list user_row)
  : list user_row :=
  map (fun u => if String.eqb (user_id u) uid then f u else u) l.

(** The effect of a statement on the connection's view and the rows it
    returns. *)
Definition run_sql (s : sql) (d : database) : database * list user_row :=
  match s with
  | SelectEmailWhereEmail e | SelectUserWhereEmail e =>
      (d, filter (fun u => String.eqb (u_email u) e) (users d))
  | SelectActiveUserWhereId None => (d, [])
  | SelectActiveUserWhereId (Some uid) =>
      (d, filter (fun u => String.eqb (user_id u) uid && (is_active u =? 1)) (users d))
  | InsertUser row =>
      ({| users := users d ++ [row]; auth_sessions := auth_sessions d |}, [])
  | InsertSession _ row =>
      ({| users := users d; auth_sessions := auth_sessions d ++ [row] |}, [])
  | UpdateLastLogin ts uid =>
      ({| users := update_where_id uid (set_last_login_at ts) (users d);
          auth_sessions := auth_sessions d |}, [])
  | UpdateProfile assignments ts uid =>
      ({| users := update_where_id uid
                     (fun u => set_updated_at ts (fold_left (fun u kv => set_profile_field kv u)
                                                            assignments u))
                     (users d);
          auth_sessions := auth_sessions d |}, [])
  | UpdatePasswordHash h ts uid =>
      ({| users := update_where_id uid (fun u => set_updated_at ts (set_password_hash h u))
                     (users d);
          auth_sessions := auth_sessions d |}, [])
  | DeleteSessionsWhereUser uid =>
      ({| users := users d;
          auth_sessions := filter (fun s => negb (String.eqb (s_user_id s) uid))
                             (auth_sessions d) |}, [])
  end.

(** Does the statement text carry [?] where psycopg2 expects [%s]. *)
Definition uses_qmark (s : sql) : bool :=
  match s with
  | InsertSession Qmark _ => true
  | _ => false
  end.

(** [cursor.execute(query, params)].  A closed cursor refuses every
    operation; arguments that the statement text has no [%s] for make the
    driver's formatting fail. *)
Definition cursor_execute (s : sql) : M unit :=
  fun w =>
    if negb (cursor_open w)
    then (Raise (InterfaceError "cursor already closed"),
          set_sql_log (sql_log w ++ [Refused s]) w)
    else if uses_qmark s
    then (Raise (TypeError "not all arguments converted during string formatting"),
          set_sql_log (sql_log w ++ [Refused s]) w)
    else let (d', rows) := run_sql s (txn w) in
         (Return tt,
          set_sql_log (sql_log w ++ [Executed s]) (set_result_set rows (set_txn d' w))).

(** [cursor.fetchone()]. *)
Definition cursor_fetchone : M (option user_row) :=
  fun w =>
    if negb (cursor_open w)
    then (Raise (InterfaceError "cursor already closed"), w)
    else match result_set w with
         | [] => (Return None, w)
         | r :: rest => (Return (Some r), set_result_set rest w)
         end.

(** [with conn.cursor(...) as cursor: body]: the cursor is closed when the
    block is left, whichever way. *)
Definition with_cursor {A} (body : M A) : M A :=
  fun w => try_finally body (set_cursor_open false)
             (set_cursor_open true (set_result_set [] w)).

Definition rollback (w : world) : world := set_txn (db w) w.

(** [db_pool.putconn(connection)]: a connection handed back in the middle
    of a transaction is rolled back by the pool. *)
Definition putconn (w : world) : world := set_txn (db w) w.

(** [with get_db_connection() as conn: body]. *)
Definition with_db_connection {A} (body : M A) : M A :=
  fun w =>
    match body (set_txn (db w) w) with
    | (Return a, w') => (Return a, putconn w')
    | (Raise e, w') => (Raise e, putconn (rollback w'))
    end.

(** [conn.commit()]. *)
Definition conn_commit : M unit := modify (fun w => set_db (txn w) w).

(* ================================================================== *)
(** * Audit logging *)
(* ================================================================== *)

(** [AuditLogger.log_event]. *)
Definition log_event (event_type : string) (uid : option string)
    (details : list (string * string)) (ip : string) : M unit :=
  ts <- datetime_now ;;
  modify (fun w => set_audit_log
                     (audit_log w ++ [ {| a_timestamp := ts; a_event_type := event_type;
                                          a_user_id := uid; a_ip_address := ip;
                                          a_details := details |} ]) w).

Definition log_auth_success (uid ip : string) : M unit :=
  log_event "AUTH_SUCCESS" (Some uid) [("action", "login")] ip.

Definition log_auth_failure (email ip reason : string) : M unit :=
  log_event "AUTH_FAILURE" None [("email", email); ("reason", reason)] ip.

Definition log_password_change (uid ip : string) : M unit :=
  log_event "PASSWORD_CHANGE" (Some uid) [("action", "password_changed")] ip.

Definition log_suspicious_activity (uid : option string) (activity ip : string) : M unit :=
  log_event "SUSPICIOUS_ACTIVITY" uid [("activity", activity)] ip.

(* ================================================================== *)
(** * Rate limiting *)
(* ================================================================== *)

(** The keys of [RateLimiter.limits]. *)
Inductive limit_key := default | transactions | summary | auth_login | auth_register.

Record limit := { l_requests : Z; l_window : Z }.

(** [self.limits]. *)
Definition limits (k : limit_key) : limit :=
  match k with
  | default => {| l_requests := 100; l_window := 60 |}
  | transactions => {| l_requests := 100; l_window := 60 |}
  | summary => {| l_requests := 50; l_window := 60 |}
  | auth_login => {| l_requests := 5; l_window := 300 |}
  | auth_register => {| l_requests := 3; l_window := 3600 |}
  end.

(** The [if 'login' in endpoint ... elif ...] chain of [check_rate_limit]. *)
Definition classify (endpoint : string) : limit_key :=
  if Py.contains "login" endpoint then auth_login
  else if Py.contains "register" endpoint then auth_register
  else if Py.contains "transactions" endpoint then transactions
  else if Py.contains "summary" endpoint then summary
  else default.

(** [d[ip] = v] on a table keyed by IP. *)
Definition store {A} (ip : string) (v : A) (d : string -> A) : string -> A :=
  fun k => if String.eqb k ip then v else d k.

(** Is the entry stamped [timestamp] younger than [window] seconds at
    [current_time]: [current_time - timestamp < window]. *)
Definition within (current_time window timestamp : Z) : bool :=
  current_time - timestamp <? seconds window.

Definition set_requests (ip : string) (l : list (Z * string)) (w : world) : world :=
  set_rate_limiter {| requests := store ip l (requests (rate_limiter w));
                      failed_attempts := failed_attempts (rate_limiter w) |} w.

Definition set_failed_attempts (ip : string) (l : list Z) (w : world) : world :=
  set_rate_limiter {| requests := requests (rate_limiter w);
                      failed_attempts := store ip l (failed_attempts (rate_limiter w)) |} w.

(** [RateLimiter._clean_old_requests(ip, window)]. *)
Definition RateLimiter__clean_old_requests (ip : string) (window : Z) : M unit :=
  current_time <- time_time ;;
  modify (fun w => set_requests ip
                     (filter (fun te => within current_time window (fst te))
                             (requests (rate_limiter w) ip)) w).

(** [RateLimiter.check_failed_attempts(ip, max_attempts=10, window=3600)]. *)
Definition RateLimiter_check_failed_attempts (ip : string) (max_attempts window : Z)
  : M bool :=
  current_time <- time_time ;;
  modify (fun w => set_failed_attempts ip
                     (filter (within current_time window)
                             (failed_attempts (rate_limiter w) ip)) w) ;;
  kept <- get (fun w => failed_attempts (rate_limiter w) ip) ;;
  ret (Z.of_nat (List.length kept) <? max_attempts).

(** [RateLimiter.record_failed_attempt(ip)]. *)
Definition RateLimiter_record_failed_attempt (ip : string) : M unit :=
  t <- time_time ;;
  modify (fun w => set_failed_attempts ip (failed_attempts (rate_limiter w) ip ++ [t]) w).

(** [RateLimiter.check_rate_limit(ip, endpoint)], returning
    [(allowed, remaining, window)]. *)
Definition RateLimiter_check_rate_limit (ip endpoint : string) : M (bool * Z * Z) :=
  let limit_key := classify endpoint in
  let config := limits limit_key in
  let window := l_window config in
  let max_requests := l_requests config in
  RateLimiter__clean_old_requests ip window ;;
  current_time <- time_time ;;
  kept <- get (fun w => requests (rate_limiter w) ip) ;;
  let recent_requests :=
    Z.of_nat (List.length (filter (fun te => within current_time window (fst te)) kept)) in
  if recent_requests >=? max_requests
  then ret (false, max_requests, window)
  else
    modify (fun w => set_requests ip
                       (requests (rate_limiter w) ip ++ [(current_time, endpoint)]) w) ;;
    ret (true, max_requests - recent_requests - 1, window).

(** The part of a [Request] the code reads. *)
Record Request := {
  client_host : string;
  url_path : string
}.

Definition rate_limit_detail (window : Z) : detail :=
  DetailRateLimit "Rate limit exceeded"
    ("Too many requests. Please try again in " ++ str_of_Z window ++ " seconds.")
    window.

(** The dependency [check_rate_limit(request)]. *)
Definition check_rate_limit (request : Request) : M bool :=
  let client_ip := client_host request in
  let endpoint := url_path request in
  r <- RateLimiter_check_rate_limit client_ip endpoint ;;
  let '(allowed, remaining, window) := r in
  if negb allowed
  then raise (HTTPException 429 (rate_limit_detail window))
  else ret true.

(* ================================================================== *)
(** * Local token service *)
(* ================================================================== *)

(** [create_access_token(user_id)]. *)
Definition create_access_token (uid : string) : M PyJWT.token :=
  now <- datetime_utcnow ;;
  e <- get env ;;
  let expire := now + minutes (ACCESS_TOKEN_EXPIRE_MINUTES e) in
  ret (PyJWT.encode_hs256 uid expire "access" (SECRET_KEY e)).

(** [create_refresh_token(user_id)]. *)
Definition create_refresh_token (uid : string) : M PyJWT.token :=
  now <- datetime_utcnow ;;
  e <- get env ;;
  let expire := now + days (REFRESH_TOKEN_EXPIRE_DAYS e) in
  ret (PyJWT.encode_hs256 uid expire "refresh" (SECRET_KEY e)).

(** [jwt.decode(token, key, algorithms=...)]: signature first, then the
    claims against the current time. *)
Definition jwt_decode (token : PyJWT.token) (k : PyJWT.key)
    (algorithms : list (option string)) : M PyJWT.claims :=
  c <- lift (PyJWT.check_signature token k algorithms) ;;
  now <- read_clock ;;
  lift (PyJWT.validate_claims c now).

(** [verify_token(token, token_type="access")]. *)
Definition verify_token (token : PyJWT.token) (token_type : string)
  : M (option PyJWT.claims) :=
  try_except
    (key <- get (fun w => SECRET_KEY (env w)) ;;
     payload <- jwt_decode token (PyJWT.Secret key) [Some ALGORITHM] ;;
     if negb (opt_string_eqb (PyJWT.type payload) (Some token_type))
     then ret None
     else ret (Some payload))
    [ {| clause_class := PyJWT.getattr "ExpiredSignatureError";
         clause_body := fun _ => ret None |};
      {| clause_class := PyJWT.getattr "JWTError";
         clause_body := fun _ => ret None |} ].

(** The dependency [get_current_user(credentials)]; [token] is
    [credentials.credentials]. *)
Definition get_current_user (token : PyJWT.token) : M user_row :=
  payload <- verify_token token "access" ;;
  match payload with
  | None => raise (HTTPException HTTP_401_UNAUTHORIZED (DetailStr "Invalid or expired token"))
  | Some p =>
      let uid := PyJWT.sub p in
      with_db_connection
        (user <- with_cursor
                   (cursor_execute (SelectActiveUserWhereId uid) ;;
                    cursor_fetchone) ;;
         match user with
         | None => raise (HTTPException HTTP_401_UNAUTHORIZED
                            (DetailStr "User not found or inactive"))
         | Some u => ret u
         end)
  end.

(* ================================================================== *)
(** * External identity verifier *)
(* ================================================================== *)

(** Truth value of a cached timestamp ([None] and [0.0] are falsy). *)
Definition truthy_time (t : option Z) : option Z :=
  match t with
  | Some v => if v =? 0 then None else Some v
  | None => None
  end.

(** [requests.get(SUPABASE_JWKS_URL, ...)] followed by [raise_for_status()]
    and [.json()]: the document, or [None] when any of the three raises. *)
Definition http_get_jwks : M (option jwks) :=
  fun w => (Return (jwks_http w (http_requests w)),
            set_http_requests (S (http_requests w)) w).

(** [get_jwks()]. *)
Definition get_jwks : M (option jwks) :=
  cache <- get _jwks_cache ;;
  cache_time <- get (fun w => truthy_time (_jwks_cache_time w)) ;;
  fresh <- match cache, cache_time with
           | Some _, Some t => now <- time_time ;; ret (now - t <? seconds 3600)
           | _, _ => ret false
           end ;;
  if fresh then ret cache
  else
    response <- http_get_jwks ;;
    match response with
    | Some doc =>
        now <- time_time ;;
        modify (set_jwks_cache (Some doc) (Some now)) ;;
        ret (Some doc)
    | None => ret None
    end.

(** The loop [for key in jwks.get('keys', []): if key.get('kid') == kid]. *)
Definition find_key (kid : option string) (l : list jwk) : option jwk :=
  find (fun k => opt_string_eqb (jwk_kid k) kid) l.

Definition str_of_option (o : option string) : string :=
  match o with
  | Some s => s
  | None => "None"
  end.

(** The value [verify_supabase_token] returns. *)
Record identity := {
  id_user_id : string;
  id_email : option string
}.

(** The dependency [verify_supabase_token(credentials)]. *)
Definition verify_supabase_token (token : PyJWT.token) : M identity :=
  try_except
    (unverified_header <- lift (PyJWT.get_unverified_header token) ;;
     let kid := PyJWT.kid unverified_header in
     let alg := PyJWT.alg unverified_header in
     jwks_doc <- get_jwks ;;
     match jwks_doc with
     | None => raise (HTTPException HTTP_500_INTERNAL_SERVER_ERROR
                        (DetailStr "Unable to fetch JWKS"))
     | Some doc =>
         match find_key kid (keys doc) with
         | None => raise (HTTPException HTTP_401_UNAUTHORIZED
                            (DetailStr "Signing key not found in JWKS"))
         | Some key_data =>
             let kty := jwk_kty key_data in
             signing_key <-
               (if opt_string_eqb kty (Some "RSA")
                then ret (PyJWT.PublicKey "RSA" (jwk_pair key_data))
                else if opt_string_eqb kty (Some "EC")
                then ret (PyJWT.PublicKey "EC" (jwk_pair key_data))
                else raise (HTTPException HTTP_401_UNAUTHORIZED
                              (DetailStr ("Unsupported key type: " ++ str_of_option kty)))) ;;
             payload <- jwt_decode token signing_key [alg] ;;
             match PyJWT.sub payload with
             | None => raise (KeyError "'sub'")
             | Some s => ret {| id_user_id := s; id_email := PyJWT.email payload |}
             end
         end
     end)
    [ {| clause_class := PyJWT.getattr "ExpiredSignatureError";
         clause_body := fun _ =>
           raise (HTTPException HTTP_401_UNAUTHORIZED (DetailStr "Token has expired")) |};
      {| clause_class := Return CException;
         clause_body := fun e =>
           raise (HTTPException HTTP_401_UNAUTHORIZED
                    (DetailStr ("Invalid token: " ++ exn_str e))) |} ].

(* ================================================================== *)
(** * Auth endpoints *)
(* ================================================================== *)

(** The validated body of [POST /auth/register]. *)
Record UserRegister := {
  r_email : string;
  r_password : Py.str;
  r_full_name : string;
  r_business_name : option string
}.

(** The body of [POST /auth/login]. *)
Record UserLogin := {
  l_email : string;
  l_password : Py.str
}.

(** The body of [POST /auth/change-password]. *)
Record PasswordChange := {
  current_password : Py.str;
  new_password : Py.str
}.

(** The ["user"] object of a token response. *)
Record user_summary := {
  p_user_id : string;
  p_email : string;
  p_full_name : string
}.

Record TokenResponse := {
  access_token : PyJWT.token;
  refresh_token : PyJWT.token;
  token_type : string;
  user : user_summary
}.

Record UserProfile := {
  up_user_id : string;
  up_email : string;
  up_full_name : string;
  up_business_name : option string;
  up_is_verified : bool;
  up_created_at : Z
}.

Definition refresh_lifetime : M Z :=
  get (fun w => days (REFRESH_TOKEN_EXPIRE_DAYS (env w))).

(** [register_user(user_data, request)]. *)
Definition register_user (user_data : UserRegister) (request : Request) : M TokenResponse :=
  with_db_connection
    (created <-
       with_cursor
         (cursor_execute (SelectEmailWhereEmail (r_email user_data)) ;;
          existing <- cursor_fetchone ;;
          match existing with
          | Some _ => raise (HTTPException HTTP_400_BAD_REQUEST
                               (DetailStr "Email already registered"))
          | None =>
              uid <- secrets_token_urlsafe 16 ;;
              pw_hash <- hash_password (r_password user_data) ;;
              now <- datetime_now ;;
              cursor_execute
                (InsertUser {| user_id := uid; u_email := r_email user_data;
                               password_hash := pw_hash;
                               full_name := r_full_name user_data;
                               business_name := r_business_name user_data;
                               is_active := 1; is_verified := 1;
                               created_at := now; updated_at := now;
                               last_login_at := None |}) ;;
              ret (uid, now)
          end) ;;
     let (uid, now) := (created : string * Z) in
     access <- create_access_token uid ;;
     refresh <- create_refresh_token uid ;;
     sid <- secrets_token_urlsafe 32 ;;
     utcnow <- datetime_utcnow ;;
     lifetime <- refresh_lifetime ;;
     let expires := utcnow + lifetime in
     cursor_execute
       (InsertSession Qmark
          {| session_id := sid; s_user_id := uid;
             access_token_hash := hash_token access;
             refresh_token_hash := hash_token refresh;
             expires_at := expires; s_created_at := now;
             ip_address := client_host request |}) ;;
     conn_commit ;;
     ret {| access_token := access; refresh_token := refresh; token_type := "bearer";
            user := {| p_user_id := uid; p_email := r_email user_data;
                       p_full_name := r_full_name user_data |} |}).

(** [login_user(credentials, request)]. *)
Definition login_user (credentials : UserLogin) (request : Request) : M TokenResponse :=
  let client_ip := client_host request in
  ok <- RateLimiter_check_failed_attempts client_ip 10 3600 ;;
  (if negb ok
   then log_suspicious_activity None "Too many failed login attempts" client_ip ;;
        raise (HTTPException HTTP_429_TOO_MANY_REQUESTS
                 (DetailStr "Too many failed login attempts. Please try again later."))
   else ret tt) ;;
  with_db_connection
    (found <- with_cursor
                (cursor_execute (SelectUserWhereEmail (l_email credentials)) ;;
                 cursor_fetchone) ;;
     match found with
     | None =>
         RateLimiter_record_failed_attempt client_ip ;;
         log_auth_failure (l_email credentials) client_ip "Invalid credentials" ;;
         raise (HTTPException HTTP_401_UNAUTHORIZED (DetailStr "Invalid email or password"))
     | Some u =>
         if negb (verify_password (l_password credentials) (password_hash u))
         then
           RateLimiter_record_failed_attempt client_ip ;;
           log_auth_failure (l_email credentials) client_ip "Invalid credentials" ;;
           raise (HTTPException HTTP_401_UNAUTHORIZED (DetailStr "Invalid email or password"))
         else if is_active u =? 0
         then
           log_auth_failure (l_email credentials) client_ip "Account disabled" ;;
           raise (HTTPException HTTP_403_FORBIDDEN (DetailStr "Account has been disabled"))
         else
           log_auth_success (user_id u) client_ip ;;
           login_ts <- datetime_now ;;
           cursor_execute (UpdateLastLogin login_ts (user_id u)) ;;
           access <- create_access_token (user_id u) ;;
           refresh <- create_refresh_token (user_id u) ;;
           sid <- secrets_token_urlsafe 32 ;;
           utcnow <- datetime_utcnow ;;
           lifetime <- refresh_lifetime ;;
           let expires := utcnow + lifetime in
           now <- datetime_now ;;
           cursor_execute
             (InsertSession Format
                {| session_id := sid; s_user_id := user_id u;
                   access_token_hash := hash_token access;
                   refresh_token_hash := hash_token refresh;
                   expires_at := expires; s_created_at := now;
                   ip_address := client_host request |}) ;;
           conn_commit ;;
           ret {| access_token := access; refresh_token := refresh; token_type := "bearer";
                  user := {| p_user_id := user_id u; p_email := u_email u;
                             p_full_name := full_name u |} |}
     end).

(** [logout_user(current_user)]. *)
Definition logout_user (current_user : user_row) : M string :=
  with_db_connection
    (with_cursor
       (cursor_execute (DeleteSessionsWhereUser (user_id current_user)) ;;
        conn_commit)) ;;
  ret "Successfully logged out".

(** [get_current_user_profile(current_user)]. *)
Definition get_current_user_profile (current_user : user_row) : M UserProfile :=
  ret {| up_user_id := user_id current_user;
         up_email := u_email current_user;
         up_full_name := full_name current_user;
         up_business_name := business_name current_user;
         up_is_verified := negb (is_verified current_user =? 0);
         up_created_at := created_at current_user |}.

Definition allowed_fields : list string := ["full_name"; "business_name"].

(** [update_user_profile(updates, current_user)]. *)
Definition update_user_profile (updates : list (string * string)) (current_user : user_row)
  : M string :=
  let update_data :=
    filter (fun kv => existsb (String.eqb (fst kv)) allowed_fields) updates in
  match update_data with
  | [] => raise (HTTPException HTTP_400_BAD_REQUEST (DetailStr "No valid fields to update"))
  | _ =>
      with_db_connection
        (with_cursor
           (ts <- datetime_now ;;
            cursor_execute (UpdateProfile update_data ts (user_id current_user)) ;;
            conn_commit)) ;;
      ret "Profile updated successfully"
  end.

(** [change_password(password_data, current_user)]. *)
Definition change_password (password_data : PasswordChange) (current_user : user_row)
  : M string :=
  with_db_connection
    (with_cursor
       (if negb (verify_password (current_password password_data)
                   (password_hash current_user))
        then raise (HTTPException HTTP_400_BAD_REQUEST
                      (DetailStr "Current password is incorrect"))
        else ret tt) ;;
     new_hash <- hash_password (new_password password_data) ;;
     ts <- datetime_now ;;
     cursor_execute (UpdatePasswordHash new_hash ts (user_id current_user)) ;;
     cursor_execute (DeleteSessionsWhereUser (user_id current_user)) ;;
     conn_commit) ;;
  ret "Password changed successfully. Please login again.".

(** ** Routes: dependencies first, then the handler *)

Definition POST_auth_register (request : Request) (body : UserRegister) : M TokenResponse :=
  check_rate_limit request ;; register_user body request.

Definition POST_auth_login (request : Request) (body : UserLogin) : M TokenResponse :=
  check_rate_limit request ;; login_user body request.

Definition POST_auth_logout (bearer : PyJWT.token) : M string :=
  current_user <- get_current_user bearer ;; logout_user current_user.

Definition GET_auth_me (bearer : PyJWT.token) : M UserProfile :=
  current_user <- get_current_user bearer ;; get_current_user_profile current_user.

Definition PUT_auth_me (bearer : PyJWT.token) (updates : list (string * string)) : M string :=
  current_user <- get_current_user bearer ;; update_user_profile updates current_user.

Definition POST_auth_change_password (bearer : PyJWT.token) (body : PasswordChange)
  : M string :=
  current_user <- get_current_user bearer ;; change_password body current_user.

(** Run a route in a world: the response sent and the world left behind. *)
Definition serve {A} (route : M A) (w : world) : response A * world :=
  let (o, w') := route w in (respond o, w').

(* ================================================================== *)
(** * Sample worlds *)
(* ================================================================== *)

Definition fresh_limiter : RateLimiter :=
  {| requests := fun _ => []; failed_attempts := fun _ => [] |}.

Definition empty_database : database := {| users := []; auth_sessions := [] |}.

(** A clock that starts at [t0] and advances by [step] at every reading. *)
Definition steady_clock (t0 step : Z) : nat -> Z := fun n => t0 + step * Z.of_nat n.

(** The process right after start-up: empty tables and caches, over a given
    environment, clock, identity provider and database content. *)
Definition boot (e : environment) (c : nat -> Z) (http : nat -> option jwks) (d : database)
  : world :=
  {| env := e; clock := c; clock_reads := 0;
     entropy := fun n => "rnd" ++ str_of_Z (Z.of_nat n); entropy_reads := 0;
     jwks_http := http; http_requests := 0;
     _jwks_cache := None; _jwks_cache_time := None;
     rate_limiter := fresh_limiter; db := d; txn := d;
     cursor_open := false; result_set := [];
     sql_log := []; audit_log := [] |}.

(** 2023-11-14T22:13:20Z, in microseconds. *)
Definition T0 : Z := 1700000000000000.

(** A provider that cannot be reached. *)
Definition unreachable : nat -> option jwks := fun _ => None.

(** An empty deployment with the default configuration, a clock ticking one
    millisecond per reading, and no identity provider in reach. *)
Definition world0 : world :=
  boot default_environment (steady_clock T0 1000) unreachable empty_database.

(** An active user, a disabled user, and a session of the first. *)
Definition alice : user_row :=
  {| user_id := "u1"; u_email := "alice@x.com";
     password_hash := Bcrypt "salt1" (Py.lit "OldPassw0rd!x");
     full_name := "Alice"; business_name := None;
     is_active := 1; is_verified := 1;
     created_at := T0 - days 30; updated_at := T0 - days 30;
     last_login_at := None |}.

Definition bob : user_row :=
  {| user_id := "u2"; u_email := "bob@x.com";
     password_hash := Bcrypt "salt2" (Py.lit "B0bsPassword!");
     full_name := "Bob"; business_name := Some "Bob Ltd";
     is_active := 0; is_verified := 1;
     created_at := T0 - days 30; updated_at := T0 - days 1;
     last_login_at := None |}.

(** The access token [create_access_token uid] issues at time [t] under the
    default configuration. *)
Definition access_token_at (uid : string) (t : Z) : PyJWT.token :=
  PyJWT.encode_hs256 uid (t + minutes 30) "access" (SECRET_KEY default_environment).

Definition alice_session : session_row :=
  {| session_id := "s1"; s_user_id := "u1";
     access_token_hash := hash_token (access_token_at "u1" (T0 - minutes 5));
     refresh_token_hash := hash_token (access_token_at "u1" (T0 - minutes 5));
     expires_at := T0 - minutes 5 + days 7; s_created_at := T0 - minutes 5;
     ip_address := "203.0.113.7" |}.

(** A deployment with those two users. *)
Definition world_users : world :=
  boot default_environment (steady_clock T0 1000) unreachable
       {| users := [alice; bob]; auth_sessions := [alice_session] |}.

(** Alice changes her password, giving the current one correctly. *)
Definition alice_change : PasswordChange :=
  {| current_password := Py.lit "OldPassw0rd!x"; new_password := Py.lit "NewPassw0rd!y" |}.

Definition login_request : Request :=
  {| client_host := "203.0.113.7"; url_path := "/auth/login" |}.

(** The same deployment after ten failed logins from one address, a minute
    ago. *)
Definition world_after_ten_failures : world :=
  set_failed_attempts "203.0.113.7" (repeat (T0 - seconds 60) 10) world_users.

(** A login for an email nobody registered, and one for Alice with a wrong
    password. *)
Definition unknown_login : UserLogin :=
  {| l_email := "nobody@x.com"; l_password := Py.lit "OldPassw0rd!x" |}.

Definition wrong_password_login : UserLogin :=
  {| l_email := "alice@x.com"; l_password := Py.lit "NotHerPassw0rd!" |}.

Definition alice_login : UserLogin :=
  {| l_email := "alice@x.com"; l_password := Py.lit "OldPassw0rd!x" |}.



(** An identity provider that publishes one RSA key. *)
Definition idp_key : jwk :=
  {| jwk_kid := Some "key-1"; jwk_kty := Some "RSA"; jwk_pair := 7%N |}.

Definition world_idp : world :=
  boot default_environment (steady_clock T0 1000)
       (fun _ => Some {| keys := [idp_key] |}) empty_database.

(** Tokens of that provider: one in order, one expired long ago, one whose
    signature is not the provider's. *)
Definition idp_claims (exp_s : Z) : PyJWT.claims :=
  {| PyJWT.sub := Some "ext-1"; PyJWT.exp := Some exp_s;
     PyJWT.type := None; PyJWT.email := Some "carol@x.com" |}.

Definition idp_header : PyJWT.header :=
  {| PyJWT.alg := Some "RS256"; PyJWT.kid := Some "key-1" |}.

Definition good_external_token : PyJWT.token :=
  PyJWT.Jwt idp_header (idp_claims 1700003600) (PyJWT.SignedWithPrivate 7).



(** The provider went away two hours after its key set was cached. *)
Definition world_stale_cache : world :=
  set_jwks_cache (Some {| keys := [idp_key] |}) (Some (T0 - seconds 7200)) world0.

(** A provider that publishes a symmetric ("oct") entry besides its RSA key. *)
Definition oct_key : jwk :=
  {| jwk_kid := Some "key-oct"; jwk_kty := Some "oct"; jwk_pair := 9%N |}.

Definition world_idp_oct : world :=
  boot default_environment (steady_clock T0 1000)
       (fun _ => Some {| keys := [idp_key; oct_key] |}) empty_database.

Definition header_of_kid (kid : string) : PyJWT.header :=
  {| PyJWT.alg := Some "RS256"; PyJWT.kid := Some kid |}.

(** Claims without a subject. *)
Definition anonymous_claims : PyJWT.claims :=
  {| PyJWT.sub := None; PyJWT.exp := Some 1700003600;
     PyJWT.type := None; PyJWT.email := Some "carol@x.com" |}.

(** Bob, whose account is disabled, logs in with his password. *)
Definition bob_login : UserLogin :=
  {| l_email := "bob@x.com"; l_password := Py.lit "B0bsPassword!" |}.

(** Somebody registers with Alice's email. *)
Definition duplicate_body : UserRegister :=
  {| r_email := "alice@x.com"; r_password := Py.lit "Abcdef1!2345";
     r_full_name := "Mallory"; r_business_name := None |}.

Definition summary_request : Request :=
  {| client_host := "203.0.113.7"; url_path := "/summary" |}.

(** Five logins from one address, a hundred seconds ago. *)
Definition world_after_five_logins : world :=
  set_requests "203.0.113.7" (repeat (T0 - seconds 100, "/auth/login") 5) world_users.

(** Ten failures, two hours ago. *)
Definition world_after_old_failures : world :=
  set_failed_attempts "203.0.113.7" (repeat (T0 - seconds 7200) 10) world_users.

(* ================================================================== *)
(** * Regular expressions, as [re.match] decides them *)
(* ================================================================== *)

Module Regex.

(** The fragment of [re] syntax that [validate_email] uses: character
    classes, concatenation, alternation and repetition. *)
Inductive t :=
| Empty
| Eps
| Class (p : Py.codepoint -> bool)
| Seq (a b : t)
| Alt (a b : t)
| Star (a : t).

(** [r+] and [r{2,}]. *)
Definition plus (r : t) : t := Seq r (Star r).
Definition at_least_two (r : t) : t := Seq r (Seq r (Star r)).

(** Does [r] match the empty string. *)
Fixpoint nullable (r : t) : bool :=
  match r with
  | Empty => false
  | Eps => true
  | Class _ => false
  | Seq a b => nullable a && nullable b
  | Alt a b => nullable a || nullable b
  | Star _ => true
  end.

(** What is left of [r] to match after reading [c]. *)
Fixpoint deriv (c : Py.codepoint) (r : t) : t :=
  match r with
  | Empty => Empty
  | Eps => Empty
  | Class p => if p c then Eps else Empty
  | Seq a b =>
      if nullable a then Alt (Seq (deriv c a) b) (deriv c b) else Seq (deriv c a) b
  | Alt a b => Alt (deriv c a) (deriv c b)
  | Star a => Seq (deriv c a) (Star a)
  end.

(** Does [r] match the whole of [s]. *)
Fixpoint fullmatch (r : t) (s : Py.str) : bool :=
  match s with
  | [] => nullable r
  | c :: s' => fullmatch (deriv c r) s'
  end.

(** The strings a regular expression denotes. *)
Inductive matches : t -> Py.str -> Prop :=
| MEps : matches Eps []
| MClass (p : Py.codepoint -> bool) (c : Py.codepoint) :
    p c = true -> matches (Class p) [c]
| MSeq (a b : t) (s1 s2 : Py.str) :
    matches a s1 -> matches b s2 -> matches (Seq a b) (s1 ++ s2)%list
| MAltL (a b : t) (s : Py.str) : matches a s -> matches (Alt a b) s
| MAltR (a b : t) (s : Py.str) : matches b s -> matches (Alt a b) s
| MStarNil (a : t) : matches (Star a) []
| MStarApp (a : t) (s1 s2 : Py.str) :
    matches a s1 -> matches (Star a) s2 -> matches (Star a) (s1 ++ s2)%list.

End Regex.

(** Code points of the characters the pattern names. *)
Definition AT_SIGN : Py.codepoint := 64%N.
Definition FULL_STOP : Py.codepoint := 46%N.
Definition LINE_FEED : Py.codepoint := 10%N.

(** [[a-zA-Z]]. *)
Definition is_letter (c : Py.codepoint) : bool :=
  Py.between 97%N 122%N c || Py.between 65%N 90%N c.

(** [[a-zA-Z0-9._%+-]]. *)
Definition is_local_char (c : Py.codepoint) : bool :=
  is_letter c || Py.between 48%N 57%N c || Py.char_in c (Py.lit "._%+-").

(** [[a-zA-Z0-9.-]]. *)
Definition is_domain_char (c : Py.codepoint) : bool :=
  is_letter c || Py.between 48%N 57%N c || Py.char_in c (Py.lit ".-").

(** The pattern [^[a-zA-Z0-9._%+-]+@[a-zA-Z0-9.-]+\.[a-zA-Z]{2,}$] of
    [validate_email].  [re.match] anchors the match at the start of the
    string, and [$] holds at the end of the string and also just before a
    line feed that ends it, so that the pattern, read as an expression for
    the whole string, ends in an optional line feed. *)
Definition EMAIL_PATTERN : Regex.t :=
  Regex.Seq (Regex.plus (Regex.Class is_local_char))
    (Regex.Seq (Regex.Class (N.eqb AT_SIGN))
       (Regex.Seq (Regex.plus (Regex.Class is_domain_char))
          (Regex.Seq (Regex.Class (N.eqb FULL_STOP))
             (Regex.Seq (Regex.at_least_two (Regex.Class is_letter))
                (Regex.Alt Regex.Eps (Regex.Class (N.eqb LINE_FEED))))))).

(** [validate_email(email)]: [re.match(pattern, email) is not None]. *)
Definition validate_email (email : Py.str) : bool :=
  Regex.fullmatch EMAIL_PATTERN email.

(* ================================================================== *)
(** * The debug endpoint *)
(* ================================================================== *)




(* ================================================================== *)
(** * Transactions: the table, deletion and the summary *)
(* ================================================================== *)

Module Ledger.

(** The column [type], which the table constrains to the two values
    ['income'] and ['expense']. *)
Inductive tx_type := income | expense.

Definition tx_type_eqb (a b : tx_type) : bool :=
  match a, b with
  | income, income | expense, expense => true
  | _, _ => false
  end.

(** A row of [transactions].  [t_user_id] is the 128-bit value of the UUID
    column, [t_amount] the value of the [DECIMAL(12, 2)] column in
    hundredths, [t_date] the day number of the [DATE] column, the two
    timestamps are microsecond counts. *)
Record transaction := {
  t_id : Z;
  t_user_id : N;
  t_type : tx_type;
  t_amount : Z;
  t_category : string;
  t_description : option string;
  t_date : Z;
  t_payment_method : option string;
  t_currency : option string;
  t_created_at : Z;
  t_updated_at : Z
}.

(** What the handlers leave to the database server: reading a string as a
    UUID ([None] when it is not the text of one), the wording of its error
    for such a string, and the order in which a [GROUP BY] returns its
    groups. *)
Record postgres := {
  parse_uuid : string -> option N;
  invalid_uuid_message : string -> string;
  expense_group_first : bool
}.

(** The process state of the earlier sections together with the
    [transactions] table: its committed content and the view of the
    connection in use.  Statements on this table are not entered in the
    [sql_log] of the core state. *)
Record state := {
  core : world;
  table : list transaction;
  view : list transaction
}.

(** Exceptions: those of the earlier sections, and the driver's
    [DataError] for a value the server cannot read. *)
Inductive error :=
| Core (e : exn)
| DataError (msg : string).

Definition error_str (e : error) : string :=
  match e with
  | Core e' => exn_str e'
  | DataError m => m
  end.

Inductive result (A : Type) :=
| Ok (a : A)
| Err (e : error).
Arguments Ok {A} a.
Arguments Err {A} e.

(** Handlers over the extended state. *)
Definition L (A : Type) : Type := state -> result A * state.

Definition lret {A} (a : A) : L A := fun st => (Ok a, st).

Definition lbind {A B} (m : L A) (f : A -> L B) : L B :=
  fun st =>
    match m st with
    | (Ok a, st') => f a st'
    | (Err e, st') => (Err e, st')
    end.

Definition lraise {A} (e : error) : L A := fun st => (Err e, st).

(** Run a dependency of the earlier sections on the core state. *)
Definition lift_core {A} (m : M A) : L A :=
  fun st =>
    match m (core st) with
    | (Return a, w') => (Ok a, {| core := w'; table := table st; view := view st |})
    | (Raise e, w') => (Err (Core e), {| core := w'; table := table st; view := view st |})
    end.

(** [with get_db_connection() as conn: with conn.cursor() as cursor: body]
    on the [transactions] table. *)
Definition with_connection {A} (body : L A) : L A :=
  fun st =>
    match body {| core := core st; table := table st; view := table st |} with
    | (r, st') => (r, {| core := core st'; table := table st'; view := table st' |})
    end.

(** [conn.commit()]. *)
Definition commit : L unit :=
  fun st => (Ok tt, {| core := core st; table := view st; view := view st |}).

(** Bind the caller's id to the UUID column: the server refuses a string
    that is not the text of a UUID. *)
Definition bind_user_id (pg : postgres) (uid : string) : L N :=
  match parse_uuid pg uid with
  | Some u => lret u
  | None => lraise (DataError (invalid_uuid_message pg uid))
  end.

(** The rows [WHERE id = %s AND user_id = %s] selects. *)
Definition is_target (transaction_id : Z) (u : N) (t : transaction) : bool :=
  (t_id t =? transaction_id) && N.eqb (t_user_id t) u.

(** [cursor.execute("DELETE FROM transactions WHERE id = %s AND user_id =
    %s", ...)], returning [cursor.rowcount]. *)
Definition execute_delete (pg : postgres) (transaction_id : Z) (uid : string) : L Z :=
  lbind (bind_user_id pg uid) (fun u =>
    fun st =>
      (Ok (Z.of_nat (List.length (filter (is_target transaction_id u) (view st)))),
       {| core := core st; table := table st;
          view := filter (fun t => negb (is_target transaction_id u t)) (view st) |})).

(** The two [except] clauses of [delete_transaction]: an [HTTPException]
    passes, anything else becomes a 500 with its text. *)
Definition reraise_http_else_500 {A} (body : L A) : L A :=
  fun st =>
    match body st with
    | (Ok a, st') => (Ok a, st')
    | (Err (Core (HTTPException sc d)), st') => (Err (Core (HTTPException sc d)), st')
    | (Err e, st') => (Err (Core (HTTPException 500 (DetailStr (error_str e)))), st')
    end.

(** The single clause [except Exception as e: raise HTTPException(500,
    str(e))] of [get_summary]. *)
Definition all_errors_500 {A} (body : L A) : L A :=
  fun st =>
    match body st with
    | (Ok a, st') => (Ok a, st')
    | (Err e, st') => (Err (Core (HTTPException 500 (DetailStr (error_str e)))), st')
    end.

(** [delete_transaction(transaction_id, current_user)]. *)
Definition delete_transaction (pg : postgres) (transaction_id : Z) (current_user : identity)
  : L string :=
  reraise_http_else_500
    (with_connection
       (lbind (execute_delete pg transaction_id (id_user_id current_user)) (fun rowcount =>
          if rowcount =? 0
          then lraise (Core (HTTPException 404 (DetailStr "Transaction not found")))
          else lbind commit (fun _ => lret "Transaction deleted successfully")))).

(** The optional [AND date >= %s] and [AND date <= %s] of both queries of
    [get_summary]. *)
Definition in_range (start_date end_date : option Z) (d : Z) : bool :=
  match start_date with Some s => s <=? d | None => true end
  && match end_date with Some e => d <=? e | None => true end.

(** The rows both queries range over. *)
Definition selected (u : N) (start_date end_date : option Z) (l : list transaction)
  : list transaction :=
  filter (fun t => N.eqb (t_user_id t) u && in_range start_date end_date (t_date t)) l.

Definition of_type (ty : tx_type) (l : list transaction) : list transaction :=
  filter (fun t => tx_type_eqb (t_type t) ty) l.

(** [SUM(amount)] over rows. *)
Definition sum_amount (l : list transaction) : Z :=
  fold_right (fun t acc => t_amount t + acc) 0 l.

(** One result row [{type, total}] per type that occurs. *)
Definition group (ty : tx_type) (l : list transaction) : list (tx_type * Z) :=
  match of_type ty l with
  | [] => []
  | rows => [(ty, sum_amount rows)]
  end.

(** [SELECT type, SUM(amount) as total ... GROUP BY type]. *)
Definition select_totals (pg : postgres) (uid : string) (start_date end_date : option Z)
  : L (list (tx_type * Z)) :=
  lbind (bind_user_id pg uid) (fun u =>
    fun st =>
      let rows := selected u start_date end_date (view st) in
      (Ok (if expense_group_first pg
           then (group expense rows ++ group income rows)%list
           else (group income rows ++ group expense rows)%list), st)).

(** [SELECT COUNT( * ) as count ...]. *)
Definition select_count (pg : postgres) (uid : string) (start_date end_date : option Z)
  : L Z :=
  lbind (bind_user_id pg uid) (fun u =>
    fun st =>
      (Ok (Z.of_nat (List.length (selected u start_date end_date (view st)))), st)).

(** The loop over [results], from [income = 0] and [expenses = 0]. *)
Definition read_totals (results : list (tx_type * Z)) : Z * Z :=
  fold_left (fun acc row =>
               match fst row with
               | income => (snd row, snd acc)
               | expense => (fst acc, snd row)
               end)
            results (0, 0).

(** The dictionary [get_summary] returns, amounts in hundredths. *)
Record Summary := {
  total_income : Z;
  total_expenses : Z;
  net_balance : Z;
  transaction_count : Z
}.

(** [get_summary(current_user, start_date, end_date)]. *)
Definition get_summary (pg : postgres) (current_user : identity)
    (start_date end_date : option Z) : L Summary :=
  all_errors_500
    (with_connection
       (lbind (select_totals pg (id_user_id current_user) start_date end_date)
          (fun results =>
             let (income_total, expenses_total) := read_totals results in
             lbind (select_count pg (id_user_id current_user) start_date end_date)
               (fun count =>
                  lret {| total_income := income_total;
                          total_expenses := expenses_total;
                          net_balance := income_total - expenses_total;
                          transaction_count := count |})))).

(** The routes: the generic limiter, then the external verifier, then the
    handler. *)
Definition DELETE_transaction (pg : postgres) (request : Request) (bearer : PyJWT.token)
    (transaction_id : Z) : L string :=
  lbind (lift_core (check_rate_limit request)) (fun _ =>
  lbind (lift_core (verify_supabase_token bearer)) (fun current_user =>
  delete_transaction pg transaction_id current_user)).

Definition GET_summary (pg : postgres) (request : Request) (bearer : PyJWT.token)
    (start_date end_date : option Z) : L Summary :=
  lbind (lift_core (check_rate_limit request)) (fun _ =>
  lbind (lift_core (verify_supabase_token bearer)) (fun current_user =>
  get_summary pg current_user start_date end_date)).

(** The response the framework sends. *)
Definition respond {A} (r : result A) : response A :=
  match r with
  | Ok a => Success a
  | Err (Core (HTTPException sc d)) => Failure sc d
  | Err _ => Failure 500 (DetailStr "Internal Server Error")
  end.

End Ledger.

(* ================================================================== *)
(** * Vocabulary of the statements *)
(* ================================================================== *)

(** The entries of [l] that [_clean_old_requests] keeps at time [t]. *)
Definition purge (t window : Z) (l : list (Z * string)) : list (Z * string) :=
  filter (fun te => within t window (fst te)) l.

(** The number a check computes as [recent_requests] at time [t]. *)
Definition recent (t window : Z) (l : list (Z * string)) : Z :=
  Z.of_nat (List.length (purge t window l)).

(** [n] consecutive requests of one client to one path: the outcomes in
    order and the world after the last one. *)
Fixpoint burst (n : nat) (request : Request) (w : world) : list (outcome bool) * world :=
  match n with
  | O => ([], w)
  | S n' =>
      let (o, w1) := check_rate_limit request w in
      let (os, w2) := burst n' request w1 in
      (o :: os, w2)
  end.

(** The expected outcome of the [i]-th request of a burst that starts with
    [k] live entries. *)
Definition burst_outcome (max_requests window : Z) (k i : nat) : outcome bool :=
  if Z.of_nat (k + i) <? max_requests then Return true
  else Raise (HTTPException 429 (rate_limit_detail window)).

Definition register_request : Request :=
  {| client_host := "203.0.113.7"; url_path := "/auth/register" |}.

Definition invalid_credentials : exn :=
  HTTPException 401 (DetailStr "Invalid email or password").

Definition too_many_failures : exn :=
  HTTPException 429 (DetailStr "Too many failed login attempts. Please try again later.").

(** The failed attempts of [ip] that the throttle keeps at time [t]. *)
Definition recent_failures (t : Z) (w : world) (ip : string) : list Z :=
  filter (within t 3600) (failed_attempts (rate_limiter w) ip).

(** The rows [SELECT * FROM users WHERE email = %s] returns. *)
Definition users_with_email (email : string) (d : database) : list user_row :=
  filter (fun u => String.eqb (u_email u) email) (users d).

(** The credential check of [login_user] fails on [d]: no user has the
    email, or the first one's hash does not verify the password. *)
Definition credentials_fail (body : UserLogin) (d : database) : Prop :=
  match users_with_email (l_email body) d with
  | [] => True
  | u :: _ => verify_password (l_password body) (password_hash u) = false
  end.

(** The session row [register_user] hands to the driver in world [w]. *)
Definition register_session_row (body : UserRegister) (request : Request) (w : world)
  : session_row :=
  let uid := entropy w (entropy_reads w) in
  let e := env w in
  {| session_id := entropy w (S (S (entropy_reads w)));
     s_user_id := uid;
     access_token_hash :=
       hash_token (PyJWT.encode_hs256 uid
                     (clock w (S (clock_reads w)) + minutes (ACCESS_TOKEN_EXPIRE_MINUTES e))
                     "access" (SECRET_KEY e));
     refresh_token_hash :=
       hash_token (PyJWT.encode_hs256 uid
                     (clock w (S (S (clock_reads w))) + days (REFRESH_TOKEN_EXPIRE_DAYS e))
                     "refresh" (SECRET_KEY e));
     expires_at := clock w (S (S (S (clock_reads w)))) + days (REFRESH_TOKEN_EXPIRE_DAYS e);
     s_created_at := clock w (clock_reads w) + utc_offset e;
     ip_address := client_host request |}.

(** The body of the specification's scenario. *)
Definition scenario_body : UserRegister :=
  {| r_email := "a@x.com"; r_password := Py.lit "Abcdef1!2345";
     r_full_name := "A"; r_business_name := None |}.


(** What evaluating [jwt.JWTError] raises. *)
Definition no_JWTError : exn := AttributeError "module 'jwt' has no attribute 'JWTError'".

(** The rows [SELECT * FROM users WHERE user_id = %s AND is_active = 1]
    returns. *)
Definition active_users_with_id (uid : option string) (d : database) : list user_row :=
  snd (run_sql (SelectActiveUserWhereId uid) d).

(** The profile [GET /auth/me] shows for a user row. *)
Definition profile_of (u : user_row) : UserProfile :=
  {| up_user_id := user_id u; up_email := u_email u; up_full_name := full_name u;
     up_business_name := business_name u;
     up_is_verified := negb (is_verified u =? 0);
     up_created_at := created_at u |}.

(** [token] carries an HS256 signature made with the secret of [w] over the
    claims [c]. *)
Definition validly_signed (token : PyJWT.token) (w : world) (c : PyJWT.claims) : Prop :=
  PyJWT.check_signature token (PyJWT.Secret (SECRET_KEY (env w))) [Some ALGORITHM] = Return c.

(** The claims [c] are not expired at time [now]. *)
Definition unexpired (c : PyJWT.claims) (now : Z) : Prop :=
  match PyJWT.exp c with
  | Some e => now < seconds e
  | None => True
  end.

(** A bearer string that is not a JWT at all. *)
Definition garbage_token : PyJWT.token := PyJWT.Malformed "not-a-jwt".

(** A well-formed access token signed with a secret that is not the
    server's. *)
Definition forged_token : PyJWT.token :=
  PyJWT.Jwt {| PyJWT.alg := Some "HS256"; PyJWT.kid := None |}
            {| PyJWT.sub := Some "rnd0"; PyJWT.exp := Some 4102444800;
               PyJWT.type := Some "access"; PyJWT.email := None |}
            (PyJWT.SignedWithSecret "guess").

(* ================================================================== *)
(** * Vocabulary of the further statements *)
(* ================================================================== *)

(** The cached key set of [w] is absent or at least an hour old at the next
    clock reading: [get_jwks] will go to the provider. *)
Definition jwks_cache_stale (w : world) : Prop :=
  match _jwks_cache w, truthy_time (_jwks_cache_time w) with
  | Some _, Some t => seconds 3600 <= clock w (clock_reads w) - t
  | _, _ => True
  end.


(** The token names an algorithm of the family of the published key: RS256
    for an RSA key, ES256 for an EC key. *)
Definition alg_fits_key (a : string) (k : jwk) : Prop :=
  (jwk_kty k = Some "RSA" /\ a = "RS256") \/ (jwk_kty k = Some "EC" /\ a = "ES256").


(** The exception it raises there for an entry that is neither RSA nor EC. *)
Definition unsupported_key_type (kty : option string) : exn :=
  HTTPException 401 (DetailStr ("Unsupported key type: " ++ str_of_option kty)).

(** [new] is [old] with at most its names and its update time changed. *)
Definition same_account (old new : user_row) : Prop :=
  user_id new = user_id old
  /\ u_email new = u_email old
  /\ password_hash new = password_hash old
  /\ is_active new = is_active old
  /\ is_verified new = is_verified old
  /\ created_at new = created_at old
  /\ last_login_at new = last_login_at old.

(** The pairs of a profile update that the handler keeps. *)
Definition allowed_updates (updates : list (string * string)) : list (string * string) :=
  filter (fun kv => existsb (String.eqb (fst kv)) allowed_fields) updates.

(** The session rows that do not belong to [uid]. *)
Definition sessions_of_others (uid : string) (l : list session_row) : list session_row :=
  filter (fun s => negb (String.eqb (s_user_id s) uid)) l.

(** The event type under which [login_user] audits an attempt with outcome
    [o]. *)
Definition login_audit_event {A} (o : outcome A) : string :=
  match o with
  | Raise (HTTPException 429 _) => "SUSPICIOUS_ACTIVITY"
  | Raise (HTTPException _ _) => "AUTH_FAILURE"
  | _ => "AUTH_SUCCESS"
  end.


(** [s] is [local@domain.tld] in the sense of [validate_email]. *)
Definition well_formed_address (s : Py.str) : Prop :=
  exists local_part domain tld,
    s = (local_part ++ [AT_SIGN] ++ domain ++ [FULL_STOP] ++ tld)%list
    /\ local_part <> [] /\ Forall (fun c => is_local_char c = true) local_part
    /\ domain <> [] /\ Forall (fun c => is_domain_char c = true) domain
    /\ (2 <= List.length tld)%nat /\ Forall (fun c => is_letter c = true) tld.

(* ================================================================== *)
(** * Vocabulary and samples for the transaction statements *)
(* ================================================================== *)

(** The amount of [t] if it is a row of user [u] of type [ty] dated within
    the optional bounds, and nothing otherwise. *)
Definition share (ty : Ledger.tx_type) (u : N) (start_date end_date : option Z)
    (t : Ledger.transaction) : Z :=
  if N.eqb (Ledger.t_user_id t) u
     && Ledger.tx_type_eqb (Ledger.t_type t) ty
     && match start_date with Some s => s <=? Ledger.t_date t | None => true end
     && match end_date with Some e => Ledger.t_date t <=? e | None => true end
  then Ledger.t_amount t
  else 0.

(** What user [u] received ([income]) or spent ([expense]) within the
    bounds, added up row by row. *)
Fixpoint total_of (ty : Ledger.tx_type) (u : N) (start_date end_date : option Z)
    (l : list Ledger.transaction) : Z :=
  match l with
  | [] => 0
  | t :: l' => share ty u start_date end_date t + total_of ty u start_date end_date l'
  end.

(** How many rows of user [u] are dated within the bounds. *)
Fixpoint rows_of (u : N) (start_date end_date : option Z) (l : list Ledger.transaction)
  : Z :=
  match l with
  | [] => 0
  | t :: l' =>
      (if N.eqb (Ledger.t_user_id t) u
          && match start_date with Some s => s <=? Ledger.t_date t | None => true end
          && match end_date with Some e => Ledger.t_date t <=? e | None => true end
       then 1 else 0)
      + rows_of u start_date end_date l'
  end.

(** The state a handler leaves when it changed nothing: the connection's
    view is the committed table again. *)
Definition settled (st : Ledger.state) : Ledger.state :=
  {| Ledger.core := Ledger.core st; Ledger.table := Ledger.table st;
     Ledger.view := Ledger.table st |}.

(** Two subjects whose text is a UUID, and a server that reads them. *)
Definition carol_uuid : string := "123e4567-e89b-12d3-a456-426614174000".
Definition dave_uuid : string := "9b2f1c3e-0000-4a1b-8c2d-5e6f7a8b9c0d".

Definition sample_postgres : Ledger.postgres :=
  {| Ledger.parse_uuid := fun s =>
       if String.eqb s carol_uuid then Some 1%N
       else if String.eqb s dave_uuid then Some 2%N
       else None;
     Ledger.invalid_uuid_message := fun s =>
       "invalid input syntax for type uuid: " ++ s;
     Ledger.expense_group_first := true |}.

Definition sample_row (id : Z) (u : N) (ty : Ledger.tx_type) (amount day : Z)
  : Ledger.transaction :=
  {| Ledger.t_id := id; Ledger.t_user_id := u; Ledger.t_type := ty;
     Ledger.t_amount := amount; Ledger.t_category := "general";
     Ledger.t_description := None; Ledger.t_date := day;
     Ledger.t_payment_method := None; Ledger.t_currency := Some "USD";
     Ledger.t_created_at := T0; Ledger.t_updated_at := T0 |}.

(** Carol has a salary and a rent payment, Dave one sale. *)
Definition sample_table : list Ledger.transaction :=
  [ sample_row 1 1 Ledger.income 250000 19670;
    sample_row 2 2 Ledger.income 99900 19671;
    sample_row 3 1 Ledger.expense 120050 19672 ].

Definition carol_claims : PyJWT.claims :=
  {| PyJWT.sub := Some carol_uuid; PyJWT.exp := Some 1700003600;
     PyJWT.type := None; PyJWT.email := Some "carol@x.com" |}.

Definition carol_token : PyJWT.token :=
  PyJWT.Jwt idp_header carol_claims (PyJWT.SignedWithPrivate 7).

Definition carol : identity :=
  {| id_user_id := carol_uuid; id_email := Some "carol@x.com" |}.

Definition sample_state : Ledger.state :=
  {| Ledger.core := world_idp; Ledger.table := sample_table;
     Ledger.view := sample_table |}.

Definition delete_request (id : string) : Request :=
  {| client_host := "198.51.100.4"; url_path := "/transactions/" ++ id |}.

(* ================================================================== *)
(** * Proof support *)
(* ================================================================== *)

Lemma monotone_le (c : nat -> Z) (Hc : monotone c) (n m : nat) :
  (n <= m)%nat -> c n <= c m.
Proof.
  induction 1 as [| m Hle IH]; [lia |].
  specialize (Hc m). lia.
Qed.

Lemma steady_clock_monotone (t0 step : Z) : 0 <= step -> monotone (steady_clock t0 step).
Proof. intros H n. unfold steady_clock. nia. Qed.

Lemma store_same {A} (ip : string) (v : A) (d : string -> A) : store ip v d ip = v.
Proof. unfold store. now rewrite String.eqb_refl. Qed.

Lemma store_other {A} (ip ip' : string) (v : A) (d : string -> A) :
  ip' <> ip -> store ip v d ip' = d ip'.
Proof.
  intros H. unfold store. destruct (String.eqb_spec ip' ip); [contradiction | reflexivity].
Qed.

Ltac run_monad :=
  cbv [bind ret raise get modify lift try_finally with_cursor with_db_connection
       time_time datetime_now datetime_utcnow read_clock log_event
       log_auth_failure log_auth_success log_suspicious_activity
       log_password_change conn_commit putconn rollback
       secrets_token_urlsafe hash_password refresh_lifetime
       RateLimiter_check_failed_attempts RateLimiter_record_failed_attempt
       cursor_execute cursor_fetchone];
  cbn [fst snd negb cursor_open set_cursor_open set_result_set set_txn set_db
       set_sql_log set_audit_log set_clock_reads set_entropy_reads set_rate_limiter
       set_failed_attempts set_requests set_jwks_cache set_http_requests
       env clock clock_reads entropy entropy_reads jwks_http http_requests
       _jwks_cache _jwks_cache_time rate_limiter db txn result_set sql_log audit_log
       requests failed_attempts uses_qmark run_sql].


(* ================================================================== *)
(** * Properties of the input validators *)
(* ================================================================== *)

Lemma char_in_In (c : Py.codepoint) (s : Py.str) :
  Py.char_in c s = true <-> In c s.
Proof.
  unfold Py.char_in. rewrite existsb_exists. split.
  - intros [x [Hx He]]. apply N.eqb_eq in He. now subst.
  - intros H. exists c. split; [assumption | apply N.eqb_refl].
Qed.

Lemma any_exists (p : Py.codepoint -> bool) (s : Py.str) :
  Py.any p s = true <-> exists c, In c s /\ p c = true.
Proof. unfold Py.any. apply existsb_exists. Qed.

Lemma has_special_exists (s : Py.str) :
  has_special s = true <-> exists c, In c s /\ In c SPECIAL_CHARACTERS.
Proof.
  unfold has_special. rewrite any_exists. split.
  - intros [c [Hc H]]. exists c. split; [assumption | now apply char_in_In].
  - intros [c [Hc H]]. exists c. split; [assumption | now apply char_in_In].
Qed.

(** C9. The password strength check passes exactly on the strings of length
    12 to 128 that contain an uppercase letter, a lowercase letter, a digit
    and a character of the fixed punctuation set; every other string gets
    [False] with one of three non-empty reason strings.  ["short1!"] and
    ["NoDigitsHere!!"] fail, ["ValidPass123!"] passes. *)
Theorem validate_password_strength_spec (ucd : Py.unicode_db) :
  (forall s, fst (validate_password_strength ucd s) = true <-> strong_password ucd s)
  /\ (forall s, fst (validate_password_strength ucd s) = false ->
        In (snd (validate_password_strength ucd s))
           [MSG_TOO_SHORT; MSG_TOO_LONG; MSG_COMPLEXITY]
        /\ snd (validate_password_strength ucd s) <> "")
  /\ validate_password_strength ucd (Py.lit "short1!") = (false, MSG_TOO_SHORT)
  /\ validate_password_strength ucd (Py.lit "NoDigitsHere!!") = (false, MSG_COMPLEXITY)
  /\ validate_password_strength ucd (Py.lit "ValidPass123!") = (true, MSG_STRONG).
Proof.
  split; [| split; [| repeat split; reflexivity]].
  - intros s. unfold validate_password_strength, strong_password,
      MIN_PASSWORD_LENGTH, MAX_PASSWORD_LENGTH.
    destruct (Z.ltb_spec (Z.of_nat (List.length s)) 12) as [Hlt | Hge]; cbn [fst].
    { split; [discriminate | intros [[H _] _]; lia]. }
    destruct (Z.of_nat (List.length s) >? 128) eqn:Hgt; cbn [fst].
    { apply Z.gtb_lt in Hgt. split; [discriminate | intros [[_ H] _]; lia]. }
    assert (Hle : Z.of_nat (List.length s) <= 128).
    { destruct (Z.gtb_spec (Z.of_nat (List.length s)) 128); [discriminate | lia]. }
    destruct (has_upper ucd s && has_lower ucd s && has_digit ucd s && has_special s)
      eqn:Hall; cbn [negb fst].
    + repeat rewrite andb_true_iff in Hall.
      destruct Hall as [[[Hu Hl] Hd] Hs].
      split; [intros _ | reflexivity].
      split; [lia |].
      repeat split.
      * now apply any_exists.
      * now apply any_exists.
      * now apply any_exists.
      * now apply has_special_exists.
    + split; [discriminate |].
      intros [_ [Hu [Hl [Hd Hs]]]].
      apply any_exists in Hu, Hl, Hd. apply has_special_exists in Hs.
      unfold has_upper, has_lower, has_digit in Hall.
      rewrite Hu, Hl, Hd, Hs in Hall. discriminate.
  - intros s. unfold validate_password_strength.
    destruct (Z.of_nat (List.length s) <? MIN_PASSWORD_LENGTH); cbn [fst snd].
    { intros _. split; [now left | discriminate]. }
    destruct (Z.of_nat (List.length s) >? MAX_PASSWORD_LENGTH); cbn [fst snd].
    { intros _. split; [right; now left | discriminate]. }
    destruct (negb _); cbn [fst snd].
    + intros _. split; [right; right; now left | discriminate].
    + discriminate.
Qed.

(* ================================================================== *)
(** * Properties of the rate limiter *)
(* ================================================================== *)

(** Every class admits at least one request. *)
Lemma limits_positive (k : limit_key) : 0 < l_requests (limits k) /\ 0 < l_window (limits k).
Proof. destruct k; cbn; lia. Qed.

(** The method, computed: two clock readings [t1] (purge) and [t2] (count
    and stamp). *)
Lemma RateLimiter_check_rate_limit_eq (ip endpoint : string) (w : world) :
  let window := l_window (limits (classify endpoint)) in
  let max_requests := l_requests (limits (classify endpoint)) in
  let t1 := clock w (clock_reads w) in
  let t2 := clock w (S (clock_reads w)) in
  let kept := purge t1 window (requests (rate_limiter w) ip) in
  let w1 := set_clock_reads (S (S (clock_reads w))) (set_requests ip kept w) in
  RateLimiter_check_rate_limit ip endpoint w =
    if recent t2 window kept >=? max_requests
    then (Return (false, max_requests, window), w1)
    else (Return (true, max_requests - recent t2 window kept - 1, window),
          set_requests ip (kept ++ [(t2, endpoint)]) w1).
Proof.
  cbv zeta. unfold RateLimiter_check_rate_limit, RateLimiter__clean_old_requests,
    time_time, read_clock, bind, modify, get, ret. cbn.
  rewrite store_same. fold (purge (clock w (clock_reads w))
    (l_window (limits (classify endpoint))) (requests (rate_limiter w) ip)).
  unfold recent, purge at 1 3.
  destruct (_ >=? _); cbn; [reflexivity |].
  unfold set_requests; cbn. rewrite store_same. reflexivity.
Qed.

(** The dependency, computed from the method. *)
Lemma check_rate_limit_eq (request : Request) (w : world) :
  let ip := client_host request in
  let endpoint := url_path request in
  let window := l_window (limits (classify endpoint)) in
  let max_requests := l_requests (limits (classify endpoint)) in
  let t1 := clock w (clock_reads w) in
  let t2 := clock w (S (clock_reads w)) in
  let kept := purge t1 window (requests (rate_limiter w) ip) in
  let w1 := set_clock_reads (S (S (clock_reads w))) (set_requests ip kept w) in
  check_rate_limit request w =
    if recent t2 window kept >=? max_requests
    then (Raise (HTTPException 429 (rate_limit_detail window)), w1)
    else (Return true, set_requests ip (kept ++ [(t2, endpoint)]) w1).
Proof.
  cbv zeta. unfold check_rate_limit, bind.
  rewrite RateLimiter_check_rate_limit_eq.
  destruct (_ >=? _); reflexivity.
Qed.

Lemma purge_all (t window : Z) (l : list (Z * string)) :
  (forall te, In te l -> t - fst te < seconds window) -> purge t window l = l.
Proof.
  intros H. unfold purge. induction l as [| a l IH]; [reflexivity |].
  cbn. unfold within at 1.
  destruct (Z.ltb_spec (t - fst a) (seconds window)) as [_ | Hge].
  - f_equal. apply IH. intros te Hin. apply H. now right.
  - specialize (H a (or_introl eq_refl)). lia.
Qed.

Lemma purge_none (t window : Z) (l : list (Z * string)) :
  (forall te, In te l -> seconds window <= t - fst te) -> purge t window l = [].
Proof.
  intros H. unfold purge. induction l as [| a l IH]; [reflexivity |].
  cbn. unfold within at 1.
  destruct (Z.ltb_spec (t - fst a) (seconds window)) as [Hlt | _].
  - specialize (H a (or_introl eq_refl)). lia.
  - apply IH. intros te Hin. apply H. now right.
Qed.

Lemma within_true (t window s : Z) : within t window s = true <-> t - s < seconds window.
Proof. unfold within. apply Z.ltb_lt. Qed.

Lemma within_false (t window s : Z) : within t window s = false <-> seconds window <= t - s.
Proof. unfold within. apply Z.ltb_ge. Qed.

(** Purging at [t1] and then at a later [t2] is purging at [t2]. *)
Lemma purge_purge (t1 t2 window : Z) (l : list (Z * string)) :
  t1 <= t2 -> purge t2 window (purge t1 window l) = purge t2 window l.
Proof.
  intros Hle. unfold purge. induction l as [| a l IH]; [reflexivity |].
  cbn [filter].
  destruct (within t1 window (fst a)) eqn:H1.
  - cbn [filter]. now rewrite IH.
  - rewrite IH. destruct (within t2 window (fst a)) eqn:H2; [| reflexivity].
    apply within_true in H2. apply within_false in H1. lia.
Qed.

Lemma burst_outcomes (request : Request) (start : Z) (n : nat) :
  forall (w : world) (k : nat),
    let ip := client_host request in
    let window := l_window (limits (classify (url_path request))) in
    let max_requests := l_requests (limits (classify (url_path request))) in
    List.length (requests (rate_limiter w) ip) = k ->
    (forall te, In te (requests (rate_limiter w) ip) -> start <= fst te) ->
    (forall j, (clock_reads w <= j < clock_reads w + 2 * n)%nat ->
               start <= clock w j < start + seconds window) ->
    fst (burst n request w) = map (burst_outcome max_requests window k) (seq 0 n).
Proof.
  induction n as [| n IH]; intros w k; cbv zeta; intros Hlen Hstamps Hclock;
    [reflexivity |].
  cbn [burst]. rewrite check_rate_limit_eq. cbv zeta.
  set (ip := client_host request) in *.
  set (window := l_window (limits (classify (url_path request)))) in *.
  set (max_requests := l_requests (limits (classify (url_path request)))) in *.
  assert (H1 : start <= clock w (clock_reads w) < start + seconds window)
    by (apply Hclock; lia).
  assert (H2 : start <= clock w (S (clock_reads w)) < start + seconds window)
    by (apply Hclock; lia).
  rewrite (purge_all (clock w (clock_reads w)) window (requests (rate_limiter w) ip)).
  2:{ intros te Hin. specialize (Hstamps te Hin). lia. }
  unfold recent.
  rewrite (purge_all (clock w (S (clock_reads w))) window (requests (rate_limiter w) ip)).
  2:{ intros te Hin. specialize (Hstamps te Hin). lia. }
  rewrite Hlen. cbn [seq map]. unfold burst_outcome at 1. rewrite Nat.add_0_r.
  rewrite <- seq_shift, map_map.
  destruct (Z.geb_spec (Z.of_nat k) max_requests) as [Hge | Hlt].
  - destruct (Z.ltb_spec (Z.of_nat k) max_requests); [lia |].
    match goal with |- context [burst n request ?w1] =>
      specialize (IH w1 k); destruct (burst n request w1) as [os w2] eqn:Hb end.
    cbn [fst] in *. f_equal.
    fold ip window max_requests in IH. rewrite IH.
    + apply map_ext. intros i. unfold burst_outcome.
      destruct (Z.ltb_spec (Z.of_nat (k + i)) max_requests);
        destruct (Z.ltb_spec (Z.of_nat (k + S i)) max_requests); try reflexivity; lia.
    + cbn. now rewrite store_same.
    + cbn. rewrite store_same. exact Hstamps.
    + cbn. intros j Hj. apply Hclock. lia.
  - destruct (Z.ltb_spec (Z.of_nat k) max_requests); [| lia].
    match goal with |- context [burst n request ?w1] =>
      specialize (IH w1 (S k)); destruct (burst n request w1) as [os w2] eqn:Hb end.
    cbn [fst] in *. f_equal.
    fold ip window max_requests in IH. rewrite IH.
    + apply map_ext. intros i. unfold burst_outcome.
      replace (S k + i)%nat with (k + S i)%nat by lia. reflexivity.
    + cbn. rewrite store_same. rewrite length_app. cbn. lia.
    + cbn. rewrite store_same. intros te Hin. apply in_app_or in Hin.
      destruct Hin as [Hin | [<- | []]]; [now apply Hstamps | cbn; lia].
    + cbn. intros j Hj. apply Hclock. lia.
Qed.

Lemma map_burst_outcome_full (max_requests window : Z) (n : nat) :
  n = Z.to_nat max_requests -> 0 <= max_requests ->
  map (burst_outcome max_requests window 0) (seq 0 (S n)) =
  (repeat (Return true) n ++ [Raise (HTTPException 429 (rate_limit_detail window))])%list.
Proof.
  intros Hn Hpos. rewrite seq_S, map_app. cbn [map Nat.add]. f_equal.
  - rewrite (map_ext_in _ (fun _ => Return true)).
    + now rewrite map_const, length_seq.
    + intros i Hi. apply in_seq in Hi. unfold burst_outcome. cbn [Nat.add].
      destruct (Z.ltb_spec (Z.of_nat i) max_requests); [reflexivity | lia].
  - unfold burst_outcome. cbn [Nat.add].
    destruct (Z.ltb_spec (Z.of_nat n) max_requests); [lia | reflexivity].
Qed.

(** C6. The generic throttle.  On each check the limiter purges the
    entries of the calling IP that are a window or more old, whatever their
    path (first clock reading [t1]); it counts what is left of that IP and
    still inside the window at the second reading [t2], whatever its path;
    when the count has reached the class maximum it answers 429 with
    [retry_after] the class window and records nothing; otherwise it admits
    the request and appends [(t2, path)].  The tables of other IPs and the
    failed-login table are untouched.  Hence, for a fresh client whose
    [max + 1] requests to one path all fall within one window, the first
    [max] are admitted and the next is rejected; and a client all of whose
    recorded requests are a window old is admitted again. *)
Theorem rate_limit_sliding_window :
  (forall (w : world) (request : Request),
     let ip := client_host request in
     let endpoint := url_path request in
     let window := l_window (limits (classify endpoint)) in
     let max_requests := l_requests (limits (classify endpoint)) in
     let t1 := clock w (clock_reads w) in
     let t2 := clock w (S (clock_reads w)) in
     let kept := purge t1 window (requests (rate_limiter w) ip) in
     let o := fst (check_rate_limit request w) in
     let w' := snd (check_rate_limit request w) in
     (forall ip', ip' <> ip ->
        requests (rate_limiter w') ip' = requests (rate_limiter w) ip')
     /\ failed_attempts (rate_limiter w') = failed_attempts (rate_limiter w)
     /\ (max_requests <= recent t2 window kept ->
           respond o = Failure 429
                         (DetailRateLimit "Rate limit exceeded"
                            ("Too many requests. Please try again in "
                               ++ str_of_Z window ++ " seconds.") window)
           /\ requests (rate_limiter w') ip = kept)
     /\ (recent t2 window kept < max_requests ->
           o = Return true
           /\ requests (rate_limiter w') ip = (kept ++ [(t2, endpoint)])%list)
     /\ (t1 <= t2 ->
           recent t2 window kept = recent t2 window (requests (rate_limiter w) ip)))
  /\ (forall (w : world) (request : Request) (n : nat),
        let window := l_window (limits (classify (url_path request))) in
        let max_requests := l_requests (limits (classify (url_path request))) in
        monotone (clock w) ->
        requests (rate_limiter w) (client_host request) = [] ->
        n = Z.to_nat max_requests ->
        clock w (clock_reads w + 2 * n + 1) < clock w (clock_reads w) + seconds window ->
        fst (burst (S n) request w) =
          (repeat (Return true) n
             ++ [Raise (HTTPException 429 (rate_limit_detail window))])%list)
  /\ (forall (w : world) (request : Request),
        let ip := client_host request in
        let window := l_window (limits (classify (url_path request))) in
        (forall te, In te (requests (rate_limiter w) ip) ->
                    seconds window <= clock w (clock_reads w) - fst te) ->
        fst (check_rate_limit request w) = Return true
        /\ requests (rate_limiter (snd (check_rate_limit request w))) ip =
             [(clock w (S (clock_reads w)), url_path request)]).
Proof.
  split; [| split].
  - intros w request. cbv zeta. rewrite check_rate_limit_eq. cbv zeta.
    set (ip := client_host request).
    set (window := l_window (limits (classify (url_path request)))).
    set (max_requests := l_requests (limits (classify (url_path request)))).
    set (kept := purge _ window (requests (rate_limiter w) ip)).
    destruct (Z.geb_spec (recent (clock w (S (clock_reads w))) window kept) max_requests)
      as [Hge | Hlt]; cbn [fst snd].
    + split; [intros ip' Hne; cbn; now apply store_other |].
      split; [reflexivity |].
      split; [intros _; split; [reflexivity | cbn; apply store_same] |].
      split; [intros H; lia |].
      intros Hle. unfold recent, kept. now rewrite purge_purge.
    + split; [intros ip' Hne; cbn; rewrite store_other by assumption;
              now apply store_other |].
      split; [reflexivity |].
      split; [intros H; lia |].
      split; [intros _; split; [reflexivity | cbn; apply store_same] |].
      intros Hle. unfold recent, kept. now rewrite purge_purge.
  - intros w request n. cbv zeta. intros Hmono Hempty Hn Hlast.
    rewrite (burst_outcomes request (clock w (clock_reads w)) (S n) w 0).
    + apply map_burst_outcome_full; [assumption |].
      pose proof (limits_positive (classify (url_path request))). lia.
    + now rewrite Hempty.
    + rewrite Hempty. intros te [].
    + intros j Hj. split.
      * apply monotone_le; [assumption | lia].
      * apply Z.le_lt_trans with (clock w (clock_reads w + 2 * n + 1)); [| assumption].
        apply monotone_le; [assumption | lia].
  - intros w request. cbv zeta. intros Hold.
    rewrite check_rate_limit_eq. cbv zeta.
    rewrite purge_none by assumption.
    unfold recent, purge. cbn [filter List.length Z.of_nat].
    pose proof (limits_positive (classify (url_path request))) as [Hpos _].
    destruct (Z.geb_spec 0 (l_requests (limits (classify (url_path request)))));
      [lia |].
    cbn [fst snd]. split; [reflexivity | cbn; apply store_same].
Qed.

(** The register class admits three requests per hour: of four requests in
    a row from one fresh client the fourth is rejected. *)
Lemma rate_limit_sliding_window_witness :
  fst (burst 4 register_request world0) =
    [Return true; Return true; Return true;
     Raise (HTTPException 429 (rate_limit_detail 3600))].
Proof.
  apply (proj1 (proj2 rate_limit_sliding_window) world0 register_request 3%nat).
  - intros k. change (steady_clock T0 1000 k <= steady_clock T0 1000 (S k)).
    unfold steady_clock. lia.
  - reflexivity.
  - reflexivity.
  - vm_compute. reflexivity.
Defined.

(* ================================================================== *)
(** * Properties of the login flow *)
(* ================================================================== *)

(** The handler [login_user], case by case: its outcome and what it leaves
    in the failed-attempt table. *)
Lemma login_user_cases (body : UserLogin) (request : Request) (w : world) :
  let ip := client_host request in
  let kept := recent_failures (clock w (clock_reads w)) w ip in
  let o := fst (login_user body request w) in
  let w' := snd (login_user body request w) in
  db w' = db w
  /\ requests (rate_limiter w') = requests (rate_limiter w)
  /\ (forall ip', ip' <> ip ->
        failed_attempts (rate_limiter w') ip' = failed_attempts (rate_limiter w) ip')
  /\ if Z.of_nat (List.length kept) <? 10
     then match users_with_email (l_email body) (db w) with
          | [] => o = Raise invalid_credentials
                  /\ failed_attempts (rate_limiter w') ip
                     = (kept ++ [clock w (S (clock_reads w))])%list
          | u :: _ =>
              if verify_password (l_password body) (password_hash u)
              then (if is_active u =? 0
                    then o = Raise (HTTPException 403 (DetailStr "Account has been disabled"))
                    else o = Raise (InterfaceError "cursor already closed"))
                   /\ failed_attempts (rate_limiter w') ip = kept
              else o = Raise invalid_credentials
                   /\ failed_attempts (rate_limiter w') ip
                      = (kept ++ [clock w (S (clock_reads w))])%list
          end
     else o = Raise too_many_failures
          /\ failed_attempts (rate_limiter w') ip = kept
          /\ sql_log w' = sql_log w.
Proof.
  cbv zeta. unfold recent_failures, users_with_email, login_user.
  run_monad. rewrite store_same.
  destruct (Z.of_nat _ <? 10) eqn:Hok; run_monad.
  - destruct (filter (fun u => String.eqb (u_email u) (l_email body)) (users (db w)))
      as [| u rest] eqn:Hsel; run_monad.
    + rewrite !store_same.
      repeat split; try reflexivity.
      intros ip' Hne. now rewrite !store_other by assumption.
    + destruct (verify_password (l_password body) (password_hash u)); run_monad.
      * destruct (is_active u =? 0); run_monad; rewrite ?store_same;
          (repeat split; try reflexivity;
           intros ip' Hne; now rewrite !store_other by assumption).
      * rewrite !store_same.
        repeat split; try reflexivity.
        intros ip' Hne. now rewrite !store_other by assumption.
  - rewrite ?store_same. repeat split; try reflexivity.
    intros ip' Hne. now rewrite !store_other by assumption.
Qed.

(** The handler [register_user], case by case. *)
Lemma register_user_cases (body : UserRegister) (request : Request) (w : world) :
  let o := fst (register_user body request w) in
  let w' := snd (register_user body request w) in
  db w' = db w
  /\ rate_limiter w' = rate_limiter w
  /\ match users_with_email (r_email body) (db w) with
     | [] => o = Raise (InterfaceError "cursor already closed")
             /\ last (sql_log w') (Refused (SelectEmailWhereEmail ""))
                = Refused (InsertSession Qmark (register_session_row body request w))
     | _ :: _ => o = Raise (HTTPException 400 (DetailStr "Email already registered"))
     end.
Proof.
  cbv zeta. unfold users_with_email, register_user, create_access_token,
    create_refresh_token, register_session_row.
  run_monad.
  destruct (filter (fun u => String.eqb (u_email u) (r_email body)) (users (db w)))
    as [| u rest]; run_monad.
  - repeat split; try reflexivity.
    now rewrite last_last.
  - repeat split; reflexivity.
Qed.

Lemma register_user_raises (body : UserRegister) (request : Request) (w : world) :
  exists e, fst (register_user body request w) = Raise e.
Proof.
  pose proof (register_user_cases body request w) as H. cbv zeta in H.
  destruct H as [_ [_ H]].
  destruct (users_with_email (r_email body) (db w)).
  - destruct H as [H _]. eauto.
  - eauto.
Qed.


(** Neither route ever changes the committed database. *)
Lemma POST_auth_register_keeps_db (body : UserRegister) (request : Request) (w : world) :
  db (snd (serve (POST_auth_register request body) w)) = db w.
Proof.
  unfold serve, POST_auth_register, bind. rewrite check_rate_limit_eq. cbv zeta.
  destruct (_ >=? _); [reflexivity |].
  match goal with |- context [register_user body request ?w1] =>
    pose proof (register_user_cases body request w1) as [Hdb _];
    destruct (register_user body request w1) as [o w'] end.
  cbn [fst snd] in *. rewrite Hdb. reflexivity.
Qed.


(** Registering an email that is in the table is refused with 400, once the
    generic limiter has admitted the request. *)
Lemma register_duplicate_answers_400 (body : UserRegister) (request : Request) (w : world) :
  fst (check_rate_limit request w) = Return true ->
  users_with_email (r_email body) (db w) <> [] ->
  fst (serve (POST_auth_register request body) w)
  = Failure 400 (DetailStr "Email already registered").
Proof.
  unfold serve, POST_auth_register, bind. rewrite check_rate_limit_eq. cbv zeta.
  destruct (_ >=? _); cbn [fst]; [discriminate |].
  intros _ Hdup.
  match goal with |- context [register_user body request ?w1] =>
    pose proof (register_user_cases body request w1) as [_ [_ H]];
    destruct (register_user body request w1) as [o w'] end.
  cbn [fst snd db set_requests set_clock_reads set_rate_limiter] in *.
  destruct (users_with_email (r_email body) (db w)); [contradiction |].
  subst o. reflexivity.
Qed.

Lemma recent_failures_length (t : Z) (w : world) (ip : string) :
  (List.length (recent_failures t w ip) <= List.length (failed_attempts (rate_limiter w) ip))%nat.
Proof. unfold recent_failures. apply filter_length_le. Qed.

(** C7. The failed-login throttle.  When the table of the calling IP holds
    ten failed attempts less than an hour old at the moment [login_user]
    looks, the handler answers 429 without executing any statement, so no
    user is looked up and no password verified; the route answers 429
    whether its generic limiter admits the request or not.  The table of an
    IP gets longer only for the caller of a login whose credential check
    failed (answered 401); registration never touches it. *)
Theorem failed_login_throttle :
  (forall (body : UserLogin) (request : Request) (w : world),
     10 <= Z.of_nat (List.length
                       (recent_failures (clock w (clock_reads w)) w (client_host request))) ->
     fst (serve (login_user body request) w)
       = Failure 429 (DetailStr "Too many failed login attempts. Please try again later.")
     /\ sql_log (snd (serve (login_user body request) w)) = sql_log w
     /\ db (snd (serve (login_user body request) w)) = db w)
  /\ (forall (body : UserLogin) (request : Request) (w : world),
        10 <= Z.of_nat (List.length
                          (recent_failures (clock w (S (S (clock_reads w)))) w
                             (client_host request))) ->
        status_of (fst (serve (POST_auth_login request body) w)) = 429
        /\ sql_log (snd (serve (POST_auth_login request body) w)) = sql_log w
        /\ db (snd (serve (POST_auth_login request body) w)) = db w)
  /\ (forall (body : UserLogin) (request : Request) (w : world) (ip' : string),
        let w' := snd (serve (POST_auth_login request body) w) in
        (List.length (failed_attempts (rate_limiter w) ip')
         < List.length (failed_attempts (rate_limiter w') ip'))%nat ->
        ip' = client_host request
        /\ fst (serve (POST_auth_login request body) w)
           = Failure 401 (DetailStr "Invalid email or password")
        /\ credentials_fail body (db w))
  /\ (forall (body : UserRegister) (request : Request) (w : world),
        failed_attempts (rate_limiter (snd (serve (POST_auth_register request body) w)))
        = failed_attempts (rate_limiter w)).
Proof.
  split; [| split; [| split]].
  - intros body request w Hten.
    pose proof (login_user_cases body request w) as H. cbv zeta in H.
    unfold serve. destruct (login_user body request w) as [o w'].
    cbn [fst snd] in *. destruct H as [Hdb [_ [_ H]]].
    destruct (Z.ltb_spec
                (Z.of_nat (List.length
                   (recent_failures (clock w (clock_reads w)) w (client_host request)))) 10);
      [lia |].
    destruct H as [-> [_ Hlog]]. repeat split; assumption.
  - intros body request w Hten. unfold serve, POST_auth_login, bind.
    rewrite check_rate_limit_eq. cbv zeta.
    destruct (_ >=? _); [cbn; repeat split; reflexivity |].
    match goal with |- context [login_user body request ?w1] =>
      pose proof (login_user_cases body request w1) as H; cbv zeta in H;
      destruct (login_user body request w1) as [o w'] end.
    cbn [fst snd] in *. destruct H as [Hdb [_ [_ H]]].
    change (recent_failures _ _ _)
      with (recent_failures (clock w (S (S (clock_reads w)))) w (client_host request)) in H.
    destruct (Z.ltb_spec
                (Z.of_nat (List.length
                   (recent_failures (clock w (S (S (clock_reads w)))) w
                      (client_host request)))) 10);
      [lia |].
    destruct H as [-> [_ Hlog]]. repeat split; assumption.
  - intros body request w ip'. cbv zeta. unfold serve, POST_auth_login, bind.
    rewrite check_rate_limit_eq. cbv zeta.
    destruct (_ >=? _); [cbn; intros H; lia |].
    match goal with |- context [login_user body request ?w1] =>
      pose proof (login_user_cases body request w1) as H; cbv zeta in H;
      pose proof (recent_failures_length (clock w1 (clock_reads w1)) w1 (client_host request))
        as Hlen;
      destruct (login_user body request w1) as [o w'] end.
    cbn [fst snd] in *. destruct H as [Hdb [_ [Hother H]]].
    change (recent_failures _ _ _)
      with (recent_failures (clock w (S (S (clock_reads w)))) w (client_host request))
      in H, Hlen.
    cbn in Hother, Hlen. intros Hgrow.
    destruct (string_dec ip' (client_host request)) as [-> | Hne].
    2:{ rewrite (Hother ip' Hne) in Hgrow. lia. }
    split; [reflexivity |].
    destruct (Z.of_nat _ <? 10).
    2:{ destruct H as [_ [Hfa _]]. rewrite Hfa in Hgrow. lia. }
    unfold credentials_fail. cbn [db set_requests set_clock_reads set_rate_limiter] in H.
    destruct (users_with_email (l_email body) (db w)) as [| u rest].
    + destruct H as [-> _]. split; [reflexivity | exact I].
    + destruct (verify_password (l_password body) (password_hash u)).
      * destruct H as [_ Hfa]. rewrite Hfa in Hgrow. lia.
      * destruct H as [-> _]. split; reflexivity.
  - intros body request w. unfold serve, POST_auth_register, bind.
    rewrite check_rate_limit_eq. cbv zeta.
    destruct (_ >=? _); [reflexivity |].
    match goal with |- context [register_user body request ?w1] =>
      pose proof (register_user_cases body request w1) as [_ [Hrl _]];
      destruct (register_user body request w1) as [o w'] end.
    cbn [fst snd] in *. rewrite Hrl. reflexivity.
Qed.

(** Ten failures a minute ago: the next login from that address gets 429
    and Alice's row is not even read; and a failed login is what makes the
    table grow. *)
Lemma failed_login_throttle_witness :
  (status_of (fst (serve (POST_auth_login login_request alice_login)
                     world_after_ten_failures)) = 429
   /\ sql_log (snd (serve (POST_auth_login login_request alice_login)
                      world_after_ten_failures)) = [])
  /\ fst (serve (POST_auth_login login_request unknown_login) world_users)
     = Failure 401 (DetailStr "Invalid email or password").
Proof.
  split.
  - destruct (proj1 (proj2 failed_login_throttle) alice_login login_request
                world_after_ten_failures) as [H1 [H2 _]].
    + vm_compute. intros H. discriminate H.
    + split; [exact H1 | exact H2].
  - apply (proj1 (proj2 (proj2 failed_login_throttle)) unknown_login login_request
             world_users "203.0.113.7").
    vm_compute. reflexivity.
Defined.

(** C2 (as the code behaves).  [POST /auth/register] never answers with a
    token pair, and never changes the database: for an email not yet
    present the handler stops at the session insert, which it sends through
    a cursor that is already closed (and with [?] placeholders), and the
    user row inserted before is rolled back.  In the scenario of the
    specification the password passes the strength check, the first
    registration is answered 500, no user is stored, and the second
    registration is answered 500 again, not 400. *)
Theorem register_scenario_fails :
  (forall (body : UserRegister) (request : Request) (w : world),
     (forall t, fst (serve (POST_auth_register request body) w) <> Success t)
     /\ db (snd (serve (POST_auth_register request body) w)) = db w)
  /\ (forall ucd, fst (validate_password_strength ucd (r_password scenario_body)) = true)
  /\ (let w1 := snd (serve (POST_auth_register register_request scenario_body) world0) in
      fst (serve (POST_auth_register register_request scenario_body) world0)
        = Failure 500 (DetailStr "Internal Server Error")
      /\ users (db w1) = []
      /\ fst (serve (POST_auth_register register_request scenario_body) w1)
        = Failure 500 (DetailStr "Internal Server Error")).
Proof.
  split; [| split].
  - intros body request w. unfold serve, POST_auth_register, bind.
    rewrite check_rate_limit_eq. cbv zeta.
    destruct (_ >=? _).
    + cbn. split; [intros t; discriminate | reflexivity].
    + match goal with |- context [register_user body request ?w1] =>
        pose proof (register_user_raises body request w1) as [e He];
        pose proof (register_user_cases body request w1) as [Hdb _];
        destruct (register_user body request w1) as [o w2] end.
      cbn [fst snd] in *. subst o. split.
      * intros t. destruct e; discriminate.
      * rewrite Hdb. reflexivity.
  - intros ucd. reflexivity.
  - vm_compute. repeat split; reflexivity.
Qed.

(* ================================================================== *)
(** * Properties of the local token service *)
(* ================================================================== *)

(** [verify_token], case by case on the two stages of [jwt.decode]. *)
Lemma verify_token_cases (token : PyJWT.token) (token_type : string) (w : world) :
  verify_token token token_type w =
  match PyJWT.check_signature token (PyJWT.Secret (SECRET_KEY (env w))) [Some ALGORITHM] with
  | Raise _ => (Raise no_JWTError, w)
  | Return c =>
      let w1 := set_clock_reads (S (clock_reads w)) w in
      match PyJWT.validate_claims c (clock w (clock_reads w)) with
      | Raise _ => (Return None, w1)
      | Return c' =>
          (Return (if opt_string_eqb (PyJWT.type c') (Some token_type)
                   then Some c' else None), w1)
      end
  end.
Proof.
  unfold verify_token, try_except, jwt_decode. run_monad.
  destruct (PyJWT.check_signature token _ _) as [c | e] eqn:Hsig.
  - unfold PyJWT.validate_claims. destruct (PyJWT.exp c) as [e |].
    + destruct (seconds e <=? clock w (clock_reads w)); [reflexivity |].
      destruct (opt_string_eqb _ _); reflexivity.
    + destruct (opt_string_eqb _ _); reflexivity.
  - assert (He : isinstance e CExpiredSignatureError = false).
    { unfold PyJWT.check_signature in Hsig.
      destruct token as [raw | h c sg]; [now inversion Hsig |].
      destruct (PyJWT.alg h); [| now inversion Hsig].
      destruct (negb _); [now inversion Hsig |].
      destruct (PyJWT.signature_ok _ _ _); [discriminate | now inversion Hsig]. }
    cbn [dispatch clause_class clause_body]. 
    change (PyJWT.getattr "ExpiredSignatureError") with (Return CExpiredSignatureError).
    cbv beta iota. rewrite He. reflexivity.
Qed.

(** C3 (as the code behaves).  [verify_token] returns the payload exactly
    when the signature verifies under the server secret with HS256, the
    token is not expired and its [type] equals the expected purpose; it
    returns [None] for an expired token and for a purpose mismatch.  For
    every token that [jwt.decode] rejects before looking at the expiry
    (malformed, algorithm not allowed, invalid signature) it does not return
    at all: the clause [except jwt.JWTError] names an attribute the [jwt]
    package does not have, and evaluating it raises [AttributeError]. *)
Theorem verify_token_raises_on_invalid_tokens :
  (forall (token : PyJWT.token) (token_type : string) (w : world),
     let o := fst (verify_token token token_type w) in
     match PyJWT.check_signature token (PyJWT.Secret (SECRET_KEY (env w)))
             [Some ALGORITHM] with
     | Raise _ => o = Raise no_JWTError
     | Return c =>
         match PyJWT.validate_claims c (clock w (clock_reads w)) with
         | Raise _ => o = Return None
         | Return c' =>
             o = Return (if opt_string_eqb (PyJWT.type c') (Some token_type)
                         then Some c' else None)
         end
     end)
  /\ fst (verify_token garbage_token "access" world0) = Raise no_JWTError
  /\ fst (verify_token forged_token "access" world0) = Raise no_JWTError.
Proof.
  split; [| split; reflexivity].
  intros token token_type w. cbv zeta. rewrite verify_token_cases.
  destruct (PyJWT.check_signature _ _ _) as [c | e]; [| reflexivity].
  cbv zeta. destruct (PyJWT.validate_claims _ _); reflexivity.
Qed.

Lemma validate_claims_unexpired (c : PyJWT.claims) (now : Z) :
  unexpired c now -> PyJWT.validate_claims c now = Return c.
Proof.
  unfold unexpired, PyJWT.validate_claims. destruct (PyJWT.exp c) as [e |]; [| reflexivity].
  intros H. destruct (Z.leb_spec (seconds e) now); [lia | reflexivity].
Qed.

(** The dependency [get_current_user] on a token that [jwt.decode]
    accepts. *)
Lemma get_current_user_decoded (token : PyJWT.token) (w : world) (c : PyJWT.claims) :
  validly_signed token w c ->
  unexpired c (clock w (clock_reads w)) ->
  let o := fst (get_current_user token w) in
  let w' := snd (get_current_user token w) in
  db w' = db w
  /\ rate_limiter w' = rate_limiter w
  /\ o = if opt_string_eqb (PyJWT.type c) (Some "access")
         then match active_users_with_id (PyJWT.sub c) (db w) with
              | [] => Raise (HTTPException 401 (DetailStr "User not found or inactive"))
              | u :: _ => Return u
              end
         else Raise (HTTPException 401 (DetailStr "Invalid or expired token")).
Proof.
  unfold validly_signed. intros Hsig Hexp. cbv zeta.
  unfold get_current_user, bind.
  rewrite verify_token_cases, Hsig. cbv zeta.
  rewrite (validate_claims_unexpired _ _ Hexp).
  destruct (opt_string_eqb (PyJWT.type c) (Some "access")).
  2:{ repeat split; reflexivity. }
  unfold active_users_with_id. run_monad.
  destruct (PyJWT.sub c) as [uid |]; run_monad.
  - destruct (filter _ (users (db w))); run_monad; repeat split; reflexivity.
  - repeat split; reflexivity.
Qed.

(* ================================================================== *)
(** * Properties of the local-session dependency *)
(* ================================================================== *)

Lemma bind_raise {A B} (m : M A) (f : A -> M B) (w : world) (e : exn) :
  fst (m w) = Raise e ->
  fst (bind m f w) = Raise e /\ snd (bind m f w) = snd (m w).
Proof.
  unfold bind. destruct (m w) as [[a | e'] w']; cbn [fst snd]; intros H.
  - discriminate.
  - inversion H. now split.
Qed.

Lemma bind_return {A B} (m : M A) (f : A -> M B) (w : world) (a : A) :
  fst (m w) = Return a -> bind m f w = f a (snd (m w)).
Proof.
  unfold bind. destruct (m w) as [[a' | e'] w']; cbn [fst snd]; intros H.
  - now inversion H.
  - discriminate.
Qed.

Lemma no_active_user (uid : option string) (d : database) :
  (forall u, In u (users d) -> Some (user_id u) = uid -> is_active u <> 1) ->
  active_users_with_id uid d = [].
Proof.
  intros H. unfold active_users_with_id. destruct uid as [uid |]; [| reflexivity].
  cbn [run_sql snd].
  destruct (filter _ (users d)) as [| u rest] eqn:Hf; [reflexivity |].
  assert (Hin : In u (u :: rest)) by now left.
  rewrite <- Hf in Hin. apply filter_In in Hin. destruct Hin as [Hin Hb].
  apply andb_true_iff in Hb. destruct Hb as [Hid Hact].
  apply String.eqb_eq in Hid. apply Z.eqb_eq in Hact.
  exfalso. apply (H u Hin); [now rewrite Hid | assumption].
Qed.

(** A token that decodes but whose subject has no active row is turned
    away by the dependency. *)
Lemma get_current_user_rejects (token : PyJWT.token) (w : world) (c : PyJWT.claims) :
  validly_signed token w c ->
  unexpired c (clock w (clock_reads w)) ->
  (forall u, In u (users (db w)) -> Some (user_id u) = PyJWT.sub c -> is_active u <> 1) ->
  exists d, fst (get_current_user token w) = Raise (HTTPException 401 (DetailStr d))
            /\ db (snd (get_current_user token w)) = db w.
Proof.
  intros Hsig Hexp Hnone.
  pose proof (get_current_user_decoded token w c Hsig Hexp) as H. cbv zeta in H.
  destruct H as [Hdb [_ Ho]].
  rewrite (no_active_user _ _ Hnone) in Ho.
  destruct (opt_string_eqb _ _); eauto.
Qed.

(** C10. Each endpoint behind [get_current_user] (logout, get profile,
    update profile, change password) answers 401 to a bearer token that is
    validly signed and unexpired when no row of [users] with the token's
    subject has [is_active = 1] (no such user, or the flag unset); the
    handler body does not run and the database is left as it was. *)
Theorem local_session_requires_active_user
    (token : PyJWT.token) (w : world) (c : PyJWT.claims)
    (updates : list (string * string)) (body : PasswordChange) :
  validly_signed token w c ->
  unexpired c (clock w (clock_reads w)) ->
  (forall u, In u (users (db w)) -> Some (user_id u) = PyJWT.sub c -> is_active u <> 1) ->
  (status_of (fst (serve (POST_auth_logout token) w)) = 401
   /\ db (snd (serve (POST_auth_logout token) w)) = db w)
  /\ (status_of (fst (serve (GET_auth_me token) w)) = 401
      /\ db (snd (serve (GET_auth_me token) w)) = db w)
  /\ (status_of (fst (serve (PUT_auth_me token updates) w)) = 401
      /\ db (snd (serve (PUT_auth_me token updates) w)) = db w)
  /\ (status_of (fst (serve (POST_auth_change_password token body) w)) = 401
      /\ db (snd (serve (POST_auth_change_password token body) w)) = db w).
Proof.
  intros Hsig Hexp Hnone.
  destruct (get_current_user_rejects token w c Hsig Hexp Hnone) as [d [Ho Hdb]].
  assert (Hroute : forall (A : Type) (handler : user_row -> M A),
             status_of (fst (serve (bind (get_current_user token) handler) w)) = 401
             /\ db (snd (serve (bind (get_current_user token) handler) w)) = db w).
  { intros A handler.
    destruct (bind_raise (get_current_user token) handler w _ Ho) as [Hf Hs].
    unfold serve.
    destruct (bind (get_current_user token) handler w) as [o w'].
    cbn [fst snd] in *. subst o. rewrite Hs. split; [reflexivity | assumption]. }
  repeat split; apply Hroute.
Qed.

(** Bob's account is disabled: his token, good for another half hour, gets
    401 on every endpoint. *)
Lemma local_session_requires_active_user_witness :
  status_of (fst (serve (GET_auth_me (access_token_at "u2" T0)) world_users)) = 401
  /\ status_of (fst (serve (POST_auth_change_password (access_token_at "u2" T0)
                              {| current_password := Py.lit "B0bsPassword!";
                                 new_password := Py.lit "An0therPassw0rd!" |})
                           world_users)) = 401.
Proof.
  pose proof (local_session_requires_active_user
                (access_token_at "u2" T0) world_users
                {| PyJWT.sub := Some "u2"; PyJWT.exp := Some 1700001800;
                   PyJWT.type := Some "access"; PyJWT.email := None |}
                []
                {| current_password := Py.lit "B0bsPassword!";
                   new_password := Py.lit "An0therPassw0rd!" |}) as H.
  assert (H1 : validly_signed (access_token_at "u2" T0) world_users
                 {| PyJWT.sub := Some "u2"; PyJWT.exp := Some 1700001800;
                    PyJWT.type := Some "access"; PyJWT.email := None |})
    by (vm_compute; reflexivity).
  assert (H2 : unexpired {| PyJWT.sub := Some "u2"; PyJWT.exp := Some 1700001800;
                            PyJWT.type := Some "access"; PyJWT.email := None |}
                 (clock world_users (clock_reads world_users)))
    by (vm_compute; reflexivity).
  assert (H3 : forall u, In u (users (db world_users)) ->
                 Some (user_id u) = Some "u2" -> is_active u <> 1).
  { intros u [<- | [<- | []]] Hid; [discriminate Hid | cbn; lia]. }
  destruct (H H1 H2 H3) as [_ [[Hme _] [_ [Hpw _]]]].
  split; assumption.
Defined.

Lemma issued_token_validly_signed (uid : string) (t : Z) (ty : string) (w : world) :
  validly_signed (PyJWT.encode_hs256 uid t ty (SECRET_KEY (env w))) w
    {| PyJWT.sub := Some uid; PyJWT.exp := Some (t / US_PER_SECOND);
       PyJWT.type := Some ty; PyJWT.email := None |}.
Proof.
  unfold validly_signed, PyJWT.encode_hs256, PyJWT.check_signature. cbn.
  now rewrite String.eqb_refl.
Qed.




(* ================================================================== *)
(** * Properties of the external identity verifier *)
(* ================================================================== *)

Lemma isinstance_Exception (e : exn) : isinstance e CException = true.
Proof. destruct e; reflexivity. Qed.

(** The two [except] clauses of [verify_supabase_token] turn whatever the
    body raises into a 401. *)
Lemma verify_supabase_token_handlers (body : M identity) (w : world) :
  try_except body
    [ {| clause_class := PyJWT.getattr "ExpiredSignatureError";
         clause_body := fun _ =>
           raise (HTTPException HTTP_401_UNAUTHORIZED (DetailStr "Token has expired")) |};
      {| clause_class := Return CException;
         clause_body := fun e =>
           raise (HTTPException HTTP_401_UNAUTHORIZED
                    (DetailStr ("Invalid token: " ++ exn_str e))) |} ] w
  = match body w with
    | (Return a, w') => (Return a, w')
    | (Raise e, w') =>
        (Raise (HTTPException 401
                  (DetailStr (if isinstance e CExpiredSignatureError
                              then "Token has expired"
                              else "Invalid token: " ++ exn_str e))), w')
    end.
Proof.
  unfold try_except. destruct (body w) as [[a | e] w']; [reflexivity |].
  cbn [dispatch clause_class clause_body].
  change (PyJWT.getattr "ExpiredSignatureError") with (Return CExpiredSignatureError).
  cbv beta iota. destruct (isinstance e CExpiredSignatureError); [reflexivity |].
  rewrite isinstance_Exception. reflexivity.
Qed.


(** C4 (as the code behaves).  With nothing cached and the provider out of
    reach, every token is answered 401, never 5xx.  For a token whose
    header parses, the [HTTPException(500)] that the function raises for
    the missing key set is caught by its own [except Exception] clause and
    re-raised as 401 with the text of the caught exception. *)
Theorem jwks_unavailable_answers_401 (token : PyJWT.token) (w : world) :
  _jwks_cache w = None ->
  jwks_http w (http_requests w) = None ->
  status_of (fst (serve (verify_supabase_token token) w)) = 401
  /\ (forall h, PyJWT.get_unverified_header token = Return h ->
        fst (serve (verify_supabase_token token) w)
        = Failure 401 (DetailStr "Invalid token: 500: Unable to fetch JWKS")).
Proof.
  intros Hcache Hfetch.
  unfold serve, verify_supabase_token. rewrite verify_supabase_token_handlers.
  unfold get_jwks, http_get_jwks. run_monad.
  destruct (PyJWT.get_unverified_header token) as [h0 | e0] eqn:Hheader.
  - rewrite Hcache. run_monad. rewrite Hfetch. cbn [fst].
    split; [reflexivity | intros h _; reflexivity].
  - cbn [fst]. split; [reflexivity | intros h Hh; discriminate Hh].
Qed.

(** At start-up with the provider unreachable. *)
Lemma jwks_unavailable_answers_401_witness :
  fst (serve (verify_supabase_token good_external_token) world0)
  = Failure 401 (DetailStr "Invalid token: 500: Unable to fetch JWKS").
Proof.
  apply (proj2 (jwks_unavailable_answers_401 good_external_token world0
                  eq_refl eq_refl) idp_header).
  reflexivity.
Defined.


(* ================================================================== *)
(** * What failure responses disclose *)
(* ================================================================== *)




(* ================================================================== *)
(** * Session rows *)
(* ================================================================== *)


(* ================================================================== *)
(** * Issued tokens: round trip, purpose, expiry *)
(* ================================================================== *)

Lemma floor_second_le (x : Z) : seconds (x / US_PER_SECOND) <= x.
Proof.
  unfold seconds, US_PER_SECOND.
  pose proof (Z.mul_div_le x 1000000 ltac:(lia)). lia.
Qed.

Lemma floor_second_gt (x : Z) : x - seconds 1 < seconds (x / US_PER_SECOND).
Proof.
  unfold seconds, US_PER_SECOND.
  pose proof (Z.mul_succ_div_gt x 1000000 ltac:(lia)). lia.
Qed.

(** [verify_token] on a token made by [jwt.encode] with the server's own
    secret: only the expiry and the purpose decide. *)
Lemma verify_issued_token (uid : string) (expire : Z) (ty expected : string) (w : world) :
  fst (verify_token (PyJWT.encode_hs256 uid expire ty (SECRET_KEY (env w))) expected w)
  = Return (if seconds (expire / US_PER_SECOND) <=? clock w (clock_reads w)
            then None
            else if String.eqb ty expected
                 then Some {| PyJWT.sub := Some uid;
                              PyJWT.exp := Some (expire / US_PER_SECOND);
                              PyJWT.type := Some ty; PyJWT.email := None |}
                 else None).
Proof.
  rewrite verify_token_cases.
  pose proof (issued_token_validly_signed uid expire ty w) as Hsig.
  unfold validly_signed in Hsig. rewrite Hsig. cbv zeta.
  unfold PyJWT.validate_claims. cbn [PyJWT.exp].
  destruct (seconds (expire / US_PER_SECOND) <=? clock w (clock_reads w)); reflexivity.
Qed.

Lemma create_access_token_eq (uid : string) (w : world) :
  fst (create_access_token uid w)
  = Return (PyJWT.encode_hs256 uid
              (clock w (clock_reads w) + minutes (ACCESS_TOKEN_EXPIRE_MINUTES (env w)))
              "access" (SECRET_KEY (env w))).
Proof. reflexivity. Qed.

Lemma create_refresh_token_eq (uid : string) (w : world) :
  fst (create_refresh_token uid w)
  = Return (PyJWT.encode_hs256 uid
              (clock w (clock_reads w) + days (REFRESH_TOKEN_EXPIRE_DAYS (env w)))
              "refresh" (SECRET_KEY (env w))).
Proof. reflexivity. Qed.

(** X1. An access token verifies for the purpose "access" at any moment up
    to one second before issue time plus [ACCESS_TOKEN_EXPIRE_MINUTES], and
    the payload names the user it was issued to; presented as a refresh
    token it is refused. *)
Theorem access_token_round_trip
    (w0 w : world) (uid : string) (token : PyJWT.token) :
  fst (create_access_token uid w0) = Return token ->
  env w = env w0 ->
  clock w (clock_reads w)
    <= clock w0 (clock_reads w0) + minutes (ACCESS_TOKEN_EXPIRE_MINUTES (env w0)) - seconds 1 ->
  (exists c, fst (verify_token token "access" w) = Return (Some c)
             /\ PyJWT.sub c = Some uid /\ PyJWT.type c = Some "access")
  /\ fst (verify_token token "refresh" w) = Return None.
Proof.
  intros Hissue Henv Hnow. rewrite create_access_token_eq in Hissue.
  inversion Hissue as [Htok]. clear Hissue. rewrite <- Henv.
  rewrite !verify_issued_token. rewrite Henv.
  set (expire := clock w0 (clock_reads w0) + minutes (ACCESS_TOKEN_EXPIRE_MINUTES (env w0))) in *.
  pose proof (floor_second_gt expire).
  destruct (Z.leb_spec (seconds (expire / US_PER_SECOND)) (clock w (clock_reads w))); [lia |].
  split; [| reflexivity]. eexists. split; [reflexivity | split; reflexivity].
Qed.

Lemma access_token_round_trip_witness :
  (exists c, fst (verify_token (access_token_at "u1" T0) "access"
                    (snd (create_access_token "u1" world_users))) = Return (Some c)
             /\ PyJWT.sub c = Some "u1" /\ PyJWT.type c = Some "access")
  /\ fst (verify_token (access_token_at "u1" T0) "refresh"
            (snd (create_access_token "u1" world_users))) = Return None.
Proof.
  apply (access_token_round_trip world_users (snd (create_access_token "u1" world_users))).
  - reflexivity.
  - reflexivity.
  - vm_compute. intros H. discriminate H.
Defined.

(** X2. A refresh token verifies for the purpose "refresh" up to one second
    before issue time plus [REFRESH_TOKEN_EXPIRE_DAYS], and is refused when
    presented as an access token. *)
Theorem refresh_token_round_trip
    (w0 w : world) (uid : string) (token : PyJWT.token) :
  fst (create_refresh_token uid w0) = Return token ->
  env w = env w0 ->
  clock w (clock_reads w)
    <= clock w0 (clock_reads w0) + days (REFRESH_TOKEN_EXPIRE_DAYS (env w0)) - seconds 1 ->
  (exists c, fst (verify_token token "refresh" w) = Return (Some c)
             /\ PyJWT.sub c = Some uid /\ PyJWT.type c = Some "refresh")
  /\ fst (verify_token token "access" w) = Return None.
Proof.
  intros Hissue Henv Hnow. rewrite create_refresh_token_eq in Hissue.
  inversion Hissue as [Htok]. clear Hissue. rewrite <- Henv.
  rewrite !verify_issued_token. rewrite Henv.
  set (expire := clock w0 (clock_reads w0) + days (REFRESH_TOKEN_EXPIRE_DAYS (env w0))) in *.
  pose proof (floor_second_gt expire).
  destruct (Z.leb_spec (seconds (expire / US_PER_SECOND)) (clock w (clock_reads w))); [lia |].
  split; [| reflexivity]. eexists. split; [reflexivity | split; reflexivity].
Qed.

Lemma refresh_token_round_trip_witness :
  (exists c, fst (verify_token
                    (PyJWT.encode_hs256 "u1" (T0 + days 7) "refresh"
                       (SECRET_KEY default_environment))
                    "refresh" (snd (create_refresh_token "u1" world_users)))
             = Return (Some c)
             /\ PyJWT.sub c = Some "u1" /\ PyJWT.type c = Some "refresh")
  /\ fst (verify_token
            (PyJWT.encode_hs256 "u1" (T0 + days 7) "refresh"
               (SECRET_KEY default_environment))
            "access" (snd (create_refresh_token "u1" world_users))) = Return None.
Proof.
  apply (refresh_token_round_trip world_users (snd (create_refresh_token "u1" world_users))).
  - reflexivity.
  - reflexivity.
  - vm_compute. intros H. discriminate H.
Defined.

(** X3. Expiry is enforced whatever purpose is expected: from issue time
    plus the lifetime on, an access token and a refresh token are both
    refused. *)
Theorem issued_tokens_expire
    (w0 w : world) (uid expected : string) (token : PyJWT.token) :
  env w = env w0 ->
  (fst (create_access_token uid w0) = Return token
   /\ clock w0 (clock_reads w0) + minutes (ACCESS_TOKEN_EXPIRE_MINUTES (env w0))
      <= clock w (clock_reads w))
  \/ (fst (create_refresh_token uid w0) = Return token
      /\ clock w0 (clock_reads w0) + days (REFRESH_TOKEN_EXPIRE_DAYS (env w0))
         <= clock w (clock_reads w)) ->
  fst (verify_token token expected w) = Return None.
Proof.
  intros Henv [[Hissue Hnow] | [Hissue Hnow]].
  - rewrite create_access_token_eq in Hissue. inversion Hissue as [Htok]. clear Hissue.
    rewrite <- Henv. rewrite verify_issued_token. rewrite Henv.
    set (expire := clock w0 (clock_reads w0) + minutes (ACCESS_TOKEN_EXPIRE_MINUTES (env w0))) in *.
    pose proof (floor_second_le expire).
    destruct (Z.leb_spec (seconds (expire / US_PER_SECOND)) (clock w (clock_reads w)));
      [reflexivity | lia].
  - rewrite create_refresh_token_eq in Hissue. inversion Hissue as [Htok]. clear Hissue.
    rewrite <- Henv. rewrite verify_issued_token. rewrite Henv.
    set (expire := clock w0 (clock_reads w0) + days (REFRESH_TOKEN_EXPIRE_DAYS (env w0))) in *.
    pose proof (floor_second_le expire).
    destruct (Z.leb_spec (seconds (expire / US_PER_SECOND)) (clock w (clock_reads w)));
      [reflexivity | lia].
Qed.

(** Alice's access token of [T0], presented half an hour later. *)
Lemma issued_tokens_expire_witness :
  fst (verify_token (access_token_at "u1" T0) "access"
         (boot default_environment (steady_clock (T0 + minutes 30) 1000) unreachable
               (db world_users))) = Return None.
Proof.
  apply (issued_tokens_expire world_users
           (boot default_environment (steady_clock (T0 + minutes 30) 1000) unreachable
                 (db world_users)) "u1").
  - reflexivity.
  - left. split; [reflexivity |]. vm_compute. intros H. discriminate H.
Defined.

(* ================================================================== *)
(** * The local-session dependency on every token *)
(* ================================================================== *)

(** X4. [GET /auth/me], case by case, for every bearer token.  A token that
    [jwt.decode] rejects for another reason than expiry is answered 500; an
    expired token and a token of another purpose are answered 401 "Invalid
    or expired token"; a good token whose subject has no active row is
    answered 401 "User not found or inactive"; otherwise the answer is the
    profile of the first active row with that id.  The request never
    changes the database, the rate limiter or the audit log. *)
Theorem GET_auth_me_cases (token : PyJWT.token) (w : world) :
  let r := fst (serve (GET_auth_me token) w) in
  let w' := snd (serve (GET_auth_me token) w) in
  (db w' = db w /\ rate_limiter w' = rate_limiter w /\ audit_log w' = audit_log w)
  /\ match PyJWT.check_signature token (PyJWT.Secret (SECRET_KEY (env w)))
             [Some ALGORITHM] with
     | Raise _ => r = Failure 500 (DetailStr "Internal Server Error")
     | Return c =>
         match PyJWT.validate_claims c (clock w (clock_reads w)) with
         | Raise _ => r = Failure 401 (DetailStr "Invalid or expired token")
         | Return c' =>
             if opt_string_eqb (PyJWT.type c') (Some "access")
             then match active_users_with_id (PyJWT.sub c') (db w) with
                  | [] => r = Failure 401 (DetailStr "User not found or inactive")
                  | u :: _ => r = Success (profile_of u)
                  end
             else r = Failure 401 (DetailStr "Invalid or expired token")
         end
     end.
Proof.
  cbv zeta. unfold serve, GET_auth_me, get_current_user, bind.
  rewrite verify_token_cases.
  destruct (PyJWT.check_signature _ _ _) as [c | e].
  2:{ cbn. repeat split; reflexivity. }
  cbv zeta. destruct (PyJWT.validate_claims _ _) as [c' | e].
  2:{ cbn. repeat split; reflexivity. }
  destruct (opt_string_eqb (PyJWT.type c') (Some "access")).
  2:{ cbn. repeat split; reflexivity. }
  unfold active_users_with_id, get_current_user_profile, profile_of. run_monad.
  destruct (PyJWT.sub c') as [uid |]; run_monad.
  - destruct (filter _ (users (db w))); run_monad; cbn; repeat split; reflexivity.
  - cbn. repeat split; reflexivity.
Qed.

(** X5. A refresh token opens none of the endpoints behind
    [get_current_user]: the dependency raises 401 "Invalid or expired
    token" for it at any time, so in particular [POST /auth/logout] deletes
    nothing. *)
Theorem refresh_token_is_no_session_token
    (w0 w : world) (uid : string) (token : PyJWT.token)
    (updates : list (string * string)) (body : PasswordChange) :
  fst (create_refresh_token uid w0) = Return token ->
  env w = env w0 ->
  fst (get_current_user token w)
    = Raise (HTTPException 401 (DetailStr "Invalid or expired token"))
  /\ fst (serve (GET_auth_me token) w) = Failure 401 (DetailStr "Invalid or expired token")
  /\ fst (serve (POST_auth_logout token) w) = Failure 401 (DetailStr "Invalid or expired token")
  /\ fst (serve (PUT_auth_me token updates) w)
     = Failure 401 (DetailStr "Invalid or expired token")
  /\ fst (serve (POST_auth_change_password token body) w)
     = Failure 401 (DetailStr "Invalid or expired token")
  /\ db (snd (serve (POST_auth_logout token) w)) = db w.
Proof.
  intros Hissue Henv. rewrite create_refresh_token_eq in Hissue.
  inversion Hissue as [Htok]. clear Hissue. rewrite Htok.
  assert (Hdep : fst (get_current_user token w)
                 = Raise (HTTPException 401 (DetailStr "Invalid or expired token"))
                 /\ db (snd (get_current_user token w)) = db w).
  { subst token. rewrite <- Henv. unfold get_current_user, bind.
    pose proof (verify_issued_token uid
                  (clock w0 (clock_reads w0) + days (REFRESH_TOKEN_EXPIRE_DAYS (env w)))
                  "refresh" "access" w) as Hv.
    pose proof (verify_token_cases
                  (PyJWT.encode_hs256 uid
                     (clock w0 (clock_reads w0) + days (REFRESH_TOKEN_EXPIRE_DAYS (env w)))
                     "refresh" (SECRET_KEY (env w))) "access" w) as Hw.
    destruct (verify_token _ "access" w) as [o w1]. cbn [fst] in Hv. subst o.
    change (String.eqb "refresh" "access") with false.
    assert (Hdb : db w1 = db w).
    { revert Hw. destruct (PyJWT.check_signature _ _ _); [| intros Hw; now inversion Hw].
      cbv zeta. destruct (PyJWT.validate_claims _ _); intros Hw; now inversion Hw. }
    destruct (_ <=? _); cbn; split; auto. }
  destruct Hdep as [Hdep Hdb].
  assert (Hroute : forall (A : Type) (handler : user_row -> M A),
             fst (serve (bind (get_current_user token) handler) w)
               = Failure 401 (DetailStr "Invalid or expired token")
             /\ db (snd (serve (bind (get_current_user token) handler) w)) = db w).
  { intros A handler.
    destruct (bind_raise (get_current_user token) handler w _ Hdep) as [Hf Hs].
    unfold serve. destruct (bind (get_current_user token) handler w) as [o w'].
    cbn [fst snd] in *. subst o. rewrite Hs. split; [reflexivity | assumption]. }
  split; [exact Hdep |].
  split; [apply Hroute |]. split; [apply Hroute |]. split; [apply Hroute |].
  split; apply Hroute.
Qed.

Lemma refresh_token_is_no_session_token_witness :
  fst (serve (GET_auth_me (PyJWT.encode_hs256 "u1" (T0 + days 7) "refresh"
                             (SECRET_KEY default_environment)))
         (snd (create_refresh_token "u1" world_users)))
  = Failure 401 (DetailStr "Invalid or expired token").
Proof.
  apply (refresh_token_is_no_session_token world_users
           (snd (create_refresh_token "u1" world_users)) "u1" _ [] alice_change).
  - reflexivity.
  - reflexivity.
Defined.

(* ================================================================== *)
(** * The key-set cache *)
(* ================================================================== *)


(** X7. When the cache is absent or an hour old and the request to the
    provider fails, [get_jwks] returns [None] and leaves the cache
    untouched: a stale key set is kept but is not served. *)
Theorem get_jwks_failed_refresh_serves_nothing (w : world) :
  jwks_cache_stale w ->
  jwks_http w (http_requests w) = None ->
  fst (get_jwks w) = Return None
  /\ http_requests (snd (get_jwks w)) = S (http_requests w)
  /\ _jwks_cache (snd (get_jwks w)) = _jwks_cache w
  /\ _jwks_cache_time (snd (get_jwks w)) = _jwks_cache_time w.
Proof.
  unfold jwks_cache_stale. intros Hstale Hfetch.
  unfold get_jwks, http_get_jwks. run_monad.
  destruct (_jwks_cache w) as [doc |] eqn:Hc;
    destruct (truthy_time (_jwks_cache_time w)) as [t |];
    run_monad; try (rewrite Hfetch; run_monad; rewrite ?Hc; repeat split; reflexivity).
  destruct (Z.ltb_spec (clock w (clock_reads w) - t) (seconds 3600)); [lia |].
  run_monad. rewrite Hfetch. run_monad. rewrite Hc. repeat split; reflexivity.
Qed.



Lemma get_jwks_failed_refresh_serves_nothing_witness :
  fst (get_jwks world_stale_cache) = Return None
  /\ _jwks_cache (snd (get_jwks world_stale_cache)) = Some {| keys := [idp_key] |}.
Proof.
  destruct (get_jwks_failed_refresh_serves_nothing world_stale_cache) as [H1 [_ [H3 _]]].
  - vm_compute. intros H. discriminate H.
  - reflexivity.
  - split; [exact H1 | exact H3].
Defined.


(* ================================================================== *)
(** * The external verifier, outcome by outcome *)
(* ================================================================== *)

Ltac run_verifier Hjwks :=
  unfold serve, verify_supabase_token;
  rewrite verify_supabase_token_handlers;
  unfold jwt_decode; run_monad; cbn [PyJWT.get_unverified_header];
  run_monad; rewrite Hjwks; run_monad.

(** X9. A token signed by a key of the key set, under the algorithm of that
    key's family named in its own header, with a subject: it is accepted
    with its subject and email claims if it is unexpired when checked, and
    answered 401 "Token has expired" otherwise. *)
Theorem external_token_accepted_until_expiry
    (w w1 : world) (h : PyJWT.header) (c : PyJWT.claims) (doc : jwks) (k : jwk)
    (a s : string) :
  get_jwks w = (Return (Some doc), w1) ->
  find_key (PyJWT.kid h) (keys doc) = Some k ->
  PyJWT.alg h = Some a ->
  alg_fits_key a k ->
  PyJWT.sub c = Some s ->
  fst (serve (verify_supabase_token (PyJWT.Jwt h c (PyJWT.SignedWithPrivate (jwk_pair k)))) w)
  = match PyJWT.validate_claims c (clock w1 (clock_reads w1)) with
    | Return _ => Success {| id_user_id := s; id_email := PyJWT.email c |}
    | Raise _ => Failure 401 (DetailStr "Token has expired")
    end.
Proof.
  intros Hjwks Hkey Halg Hfit Hsub.
  run_verifier Hjwks. rewrite Hkey.
  assert (Hsig : forall kty,
             PyJWT.check_signature (PyJWT.Jwt h c (PyJWT.SignedWithPrivate (jwk_pair k)))
               (PyJWT.PublicKey kty (jwk_pair k)) [PyJWT.alg h] = Return c).
  { intros kty. unfold PyJWT.check_signature. rewrite Halg.
    cbn [PyJWT.mem existsb]. rewrite String.eqb_refl. cbn [orb negb].
    unfold PyJWT.signature_ok. rewrite N.eqb_refl.
    destruct Hfit as [[_ ->] | [_ ->]]; reflexivity. }
  destruct Hfit as [[Hkty _] | [Hkty _]]; rewrite Hkty; cbn [opt_string_eqb];
    [ change (String.eqb "RSA" "RSA") with true
    | change (String.eqb "EC" "RSA") with false;
      change (String.eqb "EC" "EC") with true ];
    run_monad; rewrite Hsig; run_monad;
    unfold PyJWT.validate_claims;
    (destruct (PyJWT.exp c) as [e |];
     [destruct (seconds e <=? clock w1 (clock_reads w1)) |]);
    run_monad; rewrite ?Hsub; reflexivity.
Qed.

Lemma external_token_accepted_until_expiry_witness :
  fst (serve (verify_supabase_token good_external_token) world_idp)
  = Success {| id_user_id := "ext-1"; id_email := Some "carol@x.com" |}.
Proof.
  apply (external_token_accepted_until_expiry world_idp (snd (get_jwks world_idp))
           idp_header (idp_claims 1700003600) {| keys := [idp_key] |} idp_key
           "RS256" "ext-1").
  - reflexivity.
  - reflexivity.
  - reflexivity.
  - left. split; reflexivity.
  - reflexivity.
Defined.


(** X11. An entry of the key set whose key type is neither "RSA" nor "EC"
    verifies nothing: a token naming it is answered 401 even when properly
    signed, with the text of the unsupported-key-type exception. *)
Theorem external_token_unsupported_key_type
    (w w1 : world) (h : PyJWT.header) (c : PyJWT.claims) (sg : PyJWT.signature)
    (doc : jwks) (k : jwk) :
  get_jwks w = (Return (Some doc), w1) ->
  find_key (PyJWT.kid h) (keys doc) = Some k ->
  jwk_kty k <> Some "RSA" ->
  jwk_kty k <> Some "EC" ->
  fst (serve (verify_supabase_token (PyJWT.Jwt h c sg)) w)
  = Failure 401 (DetailStr ("Invalid token: " ++ exn_str (unsupported_key_type (jwk_kty k)))).
Proof.
  intros Hjwks Hkey Hrsa Hec. run_verifier Hjwks. rewrite Hkey.
  assert (H1 : opt_string_eqb (jwk_kty k) (Some "RSA") = false).
  { destruct (jwk_kty k) as [t |]; [| reflexivity]. cbn.
    destruct (String.eqb_spec t "RSA"); [subst; contradiction | reflexivity]. }
  assert (H2 : opt_string_eqb (jwk_kty k) (Some "EC") = false).
  { destruct (jwk_kty k) as [t |]; [| reflexivity]. cbn.
    destruct (String.eqb_spec t "EC"); [subst; contradiction | reflexivity]. }
  rewrite H1, H2. reflexivity.
Qed.

(** X12. A properly signed, unexpired token without a subject claim is
    answered 401 with the text of the [KeyError]. *)
Theorem external_token_without_subject
    (w w1 : world) (h : PyJWT.header) (c : PyJWT.claims) (doc : jwks) (k : jwk)
    (a : string) :
  get_jwks w = (Return (Some doc), w1) ->
  find_key (PyJWT.kid h) (keys doc) = Some k ->
  PyJWT.alg h = Some a ->
  alg_fits_key a k ->
  unexpired c (clock w1 (clock_reads w1)) ->
  PyJWT.sub c = None ->
  fst (serve (verify_supabase_token (PyJWT.Jwt h c (PyJWT.SignedWithPrivate (jwk_pair k)))) w)
  = Failure 401 (DetailStr "Invalid token: 'sub'").
Proof.
  intros Hjwks Hkey Halg Hfit Hexp Hsub.
  run_verifier Hjwks. rewrite Hkey.
  assert (Hsig : forall kty,
             PyJWT.check_signature (PyJWT.Jwt h c (PyJWT.SignedWithPrivate (jwk_pair k)))
               (PyJWT.PublicKey kty (jwk_pair k)) [PyJWT.alg h] = Return c).
  { intros kty. unfold PyJWT.check_signature. rewrite Halg.
    cbn [PyJWT.mem existsb]. rewrite String.eqb_refl. cbn [orb negb].
    unfold PyJWT.signature_ok. rewrite N.eqb_refl.
    destruct Hfit as [[_ ->] | [_ ->]]; reflexivity. }
  destruct Hfit as [[Hkty _] | [Hkty _]]; rewrite Hkty; cbn [opt_string_eqb];
    [ change (String.eqb "RSA" "RSA") with true
    | change (String.eqb "EC" "RSA") with false;
      change (String.eqb "EC" "EC") with true ];
    run_monad; rewrite Hsig; run_monad;
    rewrite (validate_claims_unexpired _ _ Hexp); run_monad; rewrite Hsub; reflexivity.
Qed.


Lemma external_token_unsupported_key_type_witness :
  fst (serve (verify_supabase_token
                (PyJWT.Jwt (header_of_kid "key-oct") (idp_claims 1700003600)
                           (PyJWT.SignedWithPrivate 9))) world_idp_oct)
  = Failure 401 (DetailStr ("Invalid token: " ++ exn_str (unsupported_key_type (Some "oct")))).
Proof.
  apply (external_token_unsupported_key_type world_idp_oct (snd (get_jwks world_idp_oct))
           (header_of_kid "key-oct") (idp_claims 1700003600) (PyJWT.SignedWithPrivate 9)
           {| keys := [idp_key; oct_key] |} oct_key).
  - reflexivity.
  - reflexivity.
  - discriminate.
  - discriminate.
Defined.

Lemma external_token_without_subject_witness :
  fst (serve (verify_supabase_token
                (PyJWT.Jwt idp_header anonymous_claims (PyJWT.SignedWithPrivate 7)))
         world_idp)
  = Failure 401 (DetailStr "Invalid token: 'sub'").
Proof.
  apply (external_token_without_subject world_idp (snd (get_jwks world_idp))
           idp_header anonymous_claims {| keys := [idp_key] |} idp_key "RS256").
  - reflexivity.
  - reflexivity.
  - reflexivity.
  - left. split; reflexivity.
  - vm_compute. reflexivity.
  - reflexivity.
Defined.

(* ================================================================== *)
(** * The session endpoints *)
(* ================================================================== *)

(** The dependency is read-only, whatever the token. *)
Lemma get_current_user_frame (token : PyJWT.token) (w : world) :
  db (snd (get_current_user token w)) = db w
  /\ rate_limiter (snd (get_current_user token w)) = rate_limiter w
  /\ audit_log (snd (get_current_user token w)) = audit_log w.
Proof.
  unfold get_current_user, bind. rewrite verify_token_cases.
  destruct (PyJWT.check_signature _ _ _) as [c | e]; [| repeat split; reflexivity].
  cbv zeta. destruct (PyJWT.validate_claims _ _) as [c' | e]; [| repeat split; reflexivity].
  destruct (opt_string_eqb _ _); [| repeat split; reflexivity].
  run_monad. destruct (PyJWT.sub c') as [uid |]; run_monad.
  - destruct (filter _ (users (db w))); run_monad; repeat split; reflexivity.
  - repeat split; reflexivity.
Qed.

(** A route behind the dependency either stops at the dependency, with the
    world the dependency leaves, or runs its handler there. *)
Lemma protected_route_cases {A} (token : PyJWT.token) (handler : user_row -> M A)
    (w : world) :
  (exists e, fst (get_current_user token w) = Raise e
             /\ bind (get_current_user token) handler w
                = (Raise e, snd (get_current_user token w)))
  \/ (exists u, fst (get_current_user token w) = Return u
                /\ bind (get_current_user token) handler w
                   = handler u (snd (get_current_user token w))).
Proof.
  unfold bind. destruct (get_current_user token w) as [[u | e] w1]; cbn [fst snd].
  - right. exists u. split; reflexivity.
  - left. exists e. split; reflexivity.
Qed.

(** What [logout_user] does for a caller. *)
Lemma logout_user_effect (u : user_row) (w : world) :
  fst (logout_user u w) = Return "Successfully logged out"
  /\ users (db (snd (logout_user u w))) = users (db w)
  /\ auth_sessions (db (snd (logout_user u w)))
     = sessions_of_others (user_id u) (auth_sessions (db w)).
Proof.
  unfold logout_user, sessions_of_others. run_monad. repeat split; reflexivity.
Qed.

(** X13. Logging out with a good access token answers "Successfully logged
    out", deletes every session row of the caller and no other row, and
    leaves the users table alone. *)
Theorem logout_deletes_exactly_the_callers_sessions
    (token : PyJWT.token) (w : world) (c : PyJWT.claims) (u : user_row)
    (rest : list user_row) :
  validly_signed token w c ->
  unexpired c (clock w (clock_reads w)) ->
  PyJWT.type c = Some "access" ->
  active_users_with_id (PyJWT.sub c) (db w) = u :: rest ->
  let w' := snd (serve (POST_auth_logout token) w) in
  fst (serve (POST_auth_logout token) w) = Success "Successfully logged out"
  /\ users (db w') = users (db w)
  /\ auth_sessions (db w') = sessions_of_others (user_id u) (auth_sessions (db w))
  /\ (forall s, In s (auth_sessions (db w')) -> s_user_id s <> user_id u).
Proof.
  intros Hsig Hexp Hty Hrow. cbv zeta.
  pose proof (get_current_user_decoded token w c Hsig Hexp) as H. cbv zeta in H.
  destruct H as [Hdb [_ Ho]]. rewrite Hty, Hrow in Ho.
  change (opt_string_eqb (Some "access") (Some "access")) with true in Ho. cbv iota in Ho.
  unfold serve, POST_auth_logout. rewrite (bind_return _ _ _ _ Ho).
  pose proof (logout_user_effect u (snd (get_current_user token w))) as [H1 [H2 H3]].
  destruct (logout_user u (snd (get_current_user token w))) as [o w'].
  cbn [fst snd] in *. subst o. rewrite Hdb in H2, H3.
  split; [reflexivity |]. split; [assumption |]. split; [assumption |].
  intros s Hin. rewrite H3 in Hin. unfold sessions_of_others in Hin.
  apply filter_In in Hin. destruct Hin as [_ Hne].
  apply negb_true_iff in Hne. now apply String.eqb_neq in Hne.
Qed.

Lemma logout_deletes_exactly_the_callers_sessions_witness :
  fst (serve (POST_auth_logout (access_token_at "u1" T0)) world_users)
    = Success "Successfully logged out"
  /\ auth_sessions (db (snd (serve (POST_auth_logout (access_token_at "u1" T0))
                               world_users)))
     = sessions_of_others "u1" [alice_session].
Proof.
  destruct (logout_deletes_exactly_the_callers_sessions
              (access_token_at "u1" T0) world_users
              {| PyJWT.sub := Some "u1"; PyJWT.exp := Some 1700001800;
                 PyJWT.type := Some "access"; PyJWT.email := None |}
              alice []) as [H1 [_ [H3 _]]].
  - vm_compute. reflexivity.
  - vm_compute. reflexivity.
  - reflexivity.
  - reflexivity.
  - split; [exact H1 | exact H3].
Defined.

Lemma set_profile_fields_same_account (kvs : list (string * string)) (r : user_row) :
  same_account r (fold_left (fun u kv => set_profile_field kv u) kvs r).
Proof.
  revert r. induction kvs as [| kv kvs IH]; intros r; cbn [fold_left].
  - repeat split; reflexivity.
  - destruct (IH (set_profile_field kv r)) as [H1 [H2 [H3 [H4 [H5 [H6 H7]]]]]].
    destruct kv as [k v]. cbn in H1, H2, H3, H4, H5, H6, H7.
    repeat split; assumption.
Qed.

(** What [update_user_profile] does for a caller. *)
Lemma update_user_profile_effect
    (updates : list (string * string)) (u : user_row) (w : world) :
  match allowed_updates updates with
  | [] => update_user_profile updates u w
          = (Raise (HTTPException 400 (DetailStr "No valid fields to update")), w)
  | _ :: _ =>
      fst (update_user_profile updates u w) = Return "Profile updated successfully"
      /\ db (snd (update_user_profile updates u w))
         = fst (run_sql (UpdateProfile (allowed_updates updates)
                           (clock w (clock_reads w) + utc_offset (env w)) (user_id u))
                  (db w))
  end.
Proof.
  unfold update_user_profile, allowed_updates.
  destruct (filter _ updates) as [| kv kvs]; [reflexivity |].
  run_monad. split; reflexivity.
Qed.

Lemma update_user_profile_rows
    (updates : list (string * string)) (u : user_row) (w : world) :
  auth_sessions (db (snd (update_user_profile updates u w))) = auth_sessions (db w)
  /\ Forall2 (fun old new => same_account old new
                             /\ (user_id old <> user_id u -> new = old))
       (users (db w)) (users (db (snd (update_user_profile updates u w)))).
Proof.
  assert (Hrefl : forall l : list user_row,
             Forall2 (fun old new => same_account old new
                                     /\ (user_id old <> user_id u -> new = old)) l l).
  { induction l; constructor; [| assumption].
    split; [repeat split; reflexivity | reflexivity]. }
  pose proof (update_user_profile_effect updates u w) as H.
  destruct (allowed_updates updates) as [| kv kvs].
  - rewrite H. cbn [snd]. split; [reflexivity | apply Hrefl].
  - destruct H as [_ Hdb]. rewrite Hdb. cbn [run_sql fst users auth_sessions].
    split; [reflexivity |].
    unfold update_where_id. induction (users (db w)) as [| r l IH]; cbn [map];
      constructor; [| assumption].
    destruct (String.eqb_spec (user_id r) (user_id u)) as [Heq | Hne].
    + split; [| intros Hc; contradiction].
      destruct (set_profile_fields_same_account (kv :: kvs) r)
        as [H1 [H2 [H3 [H4 [H5 [H6 H7]]]]]].
      repeat split; assumption.
    + split; [repeat split; reflexivity | reflexivity].
Qed.

(** X14. A profile update can change names and the update time, nothing
    else: whatever the token and the submitted map, every row of [users]
    keeps its id, email, password hash, active and verified flags and
    creation time, and the session table is untouched; rows of other users
    than the caller are left exactly as they were. *)
Theorem profile_update_changes_only_names :
  (forall (token : PyJWT.token) (updates : list (string * string)) (w : world),
     let w' := snd (serve (PUT_auth_me token updates) w) in
     auth_sessions (db w') = auth_sessions (db w)
     /\ Forall2 same_account (users (db w)) (users (db w')))
  /\ (forall (updates : list (string * string)) (u : user_row) (w : world),
        Forall2 (fun old new => same_account old new
                                /\ (user_id old <> user_id u -> new = old))
          (users (db w)) (users (db (snd (update_user_profile updates u w))))).
Proof.
  split.
  - intros token updates w. cbv zeta. unfold serve, PUT_auth_me.
    pose proof (get_current_user_frame token w) as [Hdb _].
    destruct (protected_route_cases token
                (fun current_user => update_user_profile updates current_user) w)
      as [[e [_ Hr]] | [u [_ Hr]]]; rewrite Hr.
    + cbn [snd]. rewrite Hdb. split; [reflexivity |].
      induction (users (db w)); constructor; [repeat split; reflexivity | assumption].
    + pose proof (update_user_profile_rows updates u (snd (get_current_user token w)))
        as [Hs Hu].
      destruct (update_user_profile updates u (snd (get_current_user token w))) as [o w'].
      cbn [fst snd] in *. rewrite Hdb in Hs, Hu. split; [assumption |].
      eapply Forall2_impl; [| exact Hu]. intros a b [H _]. exact H.
  - intros updates u w. apply update_user_profile_rows.
Qed.

(** X15. Unknown keys of a profile update are dropped: the request has the
    effect of the request without them.  It succeeds as soon as one allowed
    key ([full_name], [business_name]) is present, and is refused with 400
    "No valid fields to update", before any statement is executed, when
    none is. *)
Theorem profile_update_drops_unknown_keys
    (updates : list (string * string)) (u : user_row) (w : world) :
  update_user_profile updates u w = update_user_profile (allowed_updates updates) u w
  /\ (allowed_updates updates = [] ->
      update_user_profile updates u w
      = (Raise (HTTPException 400 (DetailStr "No valid fields to update")), w))
  /\ (allowed_updates updates <> [] ->
      fst (update_user_profile updates u w) = Return "Profile updated successfully").
Proof.
  split; [| split].
  - unfold update_user_profile.
    assert (Hidem : filter (fun kv => existsb (String.eqb (fst kv)) allowed_fields)
                      (allowed_updates updates) = allowed_updates updates).
    { unfold allowed_updates. induction updates as [| kv l IH]; [reflexivity |].
      cbn [filter]. destruct (existsb _ allowed_fields) eqn:Hkv; [| exact IH].
      cbn [filter]. rewrite Hkv. now rewrite IH. }
    rewrite Hidem. reflexivity.
  - intros Hnone. pose proof (update_user_profile_effect updates u w) as H.
    rewrite Hnone in H. exact H.
  - intros Hsome. pose proof (update_user_profile_effect updates u w) as H.
    destruct (allowed_updates updates); [contradiction | apply H].
Qed.

Lemma profile_update_drops_unknown_keys_witness :
  fst (update_user_profile [("is_active", "1"); ("email", "eve@x.com")] bob world_users)
    = Raise (HTTPException 400 (DetailStr "No valid fields to update"))
  /\ fst (update_user_profile [("is_active", "1"); ("full_name", "Robert")] bob world_users)
     = Return "Profile updated successfully".
Proof.
  split.
  - rewrite (proj1 (proj2 (profile_update_drops_unknown_keys
                             [("is_active", "1"); ("email", "eve@x.com")] bob world_users))
               eq_refl).
    reflexivity.
  - apply (proj2 (proj2 (profile_update_drops_unknown_keys
                           [("is_active", "1"); ("full_name", "Robert")] bob world_users))).
    discriminate.
Defined.

(** What [change_password] does for a caller. *)
Lemma change_password_effect (body : PasswordChange) (u : user_row) (w : world) :
  db (snd (change_password body u w)) = db w
  /\ audit_log (snd (change_password body u w)) = audit_log w
  /\ fst (change_password body u w)
     = if verify_password (current_password body) (password_hash u)
       then Raise (InterfaceError "cursor already closed")
       else Raise (HTTPException 400 (DetailStr "Current password is incorrect")).
Proof.
  unfold change_password. run_monad.
  destruct (verify_password (current_password body) (password_hash u)); run_monad;
    repeat split; reflexivity.
Qed.

(** X16. [POST /auth/change-password] changes nothing: whatever the token
    and the body, the database (password hashes, session rows) and the
    audit log are as before and the answer is never a success.  A wrong
    current password is answered 400 "Current password is incorrect"; a
    right one is answered 500, because the update and the delete are sent
    through the cursor after its block has ended. *)
Theorem change_password_changes_nothing :
  (forall (token : PyJWT.token) (body : PasswordChange) (w : world),
     let w' := snd (serve (POST_auth_change_password token body) w) in
     db w' = db w /\ audit_log w' = audit_log w
     /\ forall m, fst (serve (POST_auth_change_password token body) w) <> Success m)
  /\ (forall (body : PasswordChange) (u : user_row) (w : world),
        fst (serve (change_password body u) w)
        = if verify_password (current_password body) (password_hash u)
          then Failure 500 (DetailStr "Internal Server Error")
          else Failure 400 (DetailStr "Current password is incorrect")).
Proof.
  split.
  - intros token body w. cbv zeta. unfold serve, POST_auth_change_password.
    pose proof (get_current_user_frame token w) as [Hdb [_ Haudit]].
    destruct (protected_route_cases token
                (fun current_user => change_password body current_user) w)
      as [[e [_ Hr]] | [u [_ Hr]]]; rewrite Hr.
    + cbn [fst snd]. split; [assumption |]. split; [assumption |].
      intros m. destruct e; discriminate.
    + pose proof (change_password_effect body u (snd (get_current_user token w)))
        as [H1 [H2 H3]].
      destruct (change_password body u (snd (get_current_user token w))) as [o w'].
      cbn [fst snd] in *. rewrite Hdb in H1. rewrite Haudit in H2.
      split; [assumption |]. split; [assumption |].
      intros m. subst o. destruct (verify_password _ _); discriminate.
  - intros body u w. unfold serve.
    pose proof (change_password_effect body u w) as [_ [_ H]].
    destruct (change_password body u w) as [o w']. cbn [fst] in *. subst o.
    destruct (verify_password _ _); reflexivity.
Qed.

(** The audit record of a login attempt. *)
Lemma login_user_audit (body : UserLogin) (request : Request) (w : world) :
  exists entry,
    audit_log (snd (login_user body request w)) = (audit_log w ++ [entry])%list
    /\ a_event_type entry = login_audit_event (fst (login_user body request w))
    /\ a_ip_address entry = client_host request
    /\ (a_event_type entry = "AUTH_SUCCESS"
        /\ (exists u rest, users_with_email (l_email body) (db w) = u :: rest
                           /\ a_user_id entry = Some (user_id u))
        \/ a_event_type entry <> "AUTH_SUCCESS" /\ a_user_id entry = None).
Proof.
  unfold users_with_email, login_user. run_monad. rewrite ?store_same.
  destruct (Z.of_nat _ <? 10); run_monad.
  - destruct (filter (fun u => String.eqb (u_email u) (l_email body)) (users (db w)))
      as [| u rest]; run_monad.
    + eexists. split; [reflexivity |]. cbn. split; [reflexivity |].
      split; [reflexivity |]. right. split; [discriminate | reflexivity].
    + destruct (verify_password (l_password body) (password_hash u)); run_monad.
      * destruct (is_active u =? 0); run_monad.
        -- eexists. split; [reflexivity |]. cbn. split; [reflexivity |].
           split; [reflexivity |]. right. split; [discriminate | reflexivity].
        -- eexists. split; [reflexivity |]. cbn. split; [reflexivity |].
           split; [reflexivity |]. left. split; [reflexivity |].
           exists u, rest. split; reflexivity.
      * eexists. split; [reflexivity |]. cbn. split; [reflexivity |].
        split; [reflexivity |]. right. split; [discriminate | reflexivity].
  - eexists. split; [reflexivity |]. cbn. split; [reflexivity |].
    split; [reflexivity |]. right. split; [discriminate | reflexivity].
Qed.

(** X17. Every login attempt that reaches the handler leaves exactly one
    audit record, stamped with the caller's address and typed by the
    outcome: SUSPICIOUS_ACTIVITY for a throttled attempt (429),
    AUTH_FAILURE for bad credentials (401) and for a disabled account
    (403), AUTH_SUCCESS once the credentials of an active account have
    checked out.  Only the AUTH_SUCCESS record carries a user id. *)
Theorem login_audits_every_attempt (body : UserLogin) (request : Request) (w : world) :
  exists entry,
    audit_log (snd (login_user body request w)) = (audit_log w ++ [entry])%list
    /\ a_event_type entry = login_audit_event (fst (login_user body request w))
    /\ a_ip_address entry = client_host request
    /\ (a_event_type entry = "AUTH_SUCCESS"
        /\ (exists u rest, users_with_email (l_email body) (db w) = u :: rest
                           /\ a_user_id entry = Some (user_id u))
        \/ a_event_type entry <> "AUTH_SUCCESS" /\ a_user_id entry = None).
Proof. apply login_user_audit. Qed.

(** X18. A login with the right password of an active account, from an
    address that is not throttled, does not return tokens: the credentials
    check out and AUTH_SUCCESS is audited, then the last-login update is
    sent through the closed cursor and the request is answered 500.  No
    failed attempt is recorded and nothing is stored. *)
Theorem login_with_valid_credentials_fails
    (body : UserLogin) (request : Request) (w : world) (u : user_row)
    (rest : list user_row) :
  Z.of_nat (List.length (recent_failures (clock w (clock_reads w)) w (client_host request)))
    < 10 ->
  users_with_email (l_email body) (db w) = u :: rest ->
  verify_password (l_password body) (password_hash u) = true ->
  is_active u <> 0 ->
  let w' := snd (serve (login_user body request) w) in
  fst (serve (login_user body request) w) = Failure 500 (DetailStr "Internal Server Error")
  /\ db w' = db w
  /\ failed_attempts (rate_limiter w') (client_host request)
     = recent_failures (clock w (clock_reads w)) w (client_host request)
  /\ exists entry, audit_log w' = (audit_log w ++ [entry])%list
                   /\ a_event_type entry = "AUTH_SUCCESS"
                   /\ a_user_id entry = Some (user_id u).
Proof.
  intros Hok Hrow Hpw Hact. cbv zeta.
  pose proof (login_user_cases body request w) as H. cbv zeta in H.
  pose proof (login_user_audit body request w) as [entry [Hlog [Hty [_ Hid]]]].
  unfold serve. destruct (login_user body request w) as [o w'].
  cbn [fst snd] in *. destruct H as [Hdb [_ [_ H]]].
  destruct (Z.ltb_spec
              (Z.of_nat (List.length
                 (recent_failures (clock w (clock_reads w)) w (client_host request)))) 10);
    [| lia].
  rewrite Hrow, Hpw in H.
  destruct (Z.eqb_spec (is_active u) 0); [contradiction |].
  destruct H as [-> Hfa]. cbn in Hty.
  split; [reflexivity |]. split; [assumption |]. split; [assumption |].
  exists entry. split; [assumption |]. split; [assumption |].
  destruct Hid as [[_ [u' [rest' [Hrow' Hid]]]] | [Hne _]]; [| contradiction].
  rewrite Hrow in Hrow'. inversion Hrow'. subst. assumption.
Qed.

Lemma login_with_valid_credentials_fails_witness :
  fst (serve (login_user alice_login login_request) world_users)
  = Failure 500 (DetailStr "Internal Server Error")
  /\ db (snd (serve (login_user alice_login login_request) world_users)) = db world_users.
Proof.
  destruct (login_with_valid_credentials_fails alice_login login_request world_users
              alice []) as [H1 [H2 _]].
  - vm_compute. reflexivity.
  - reflexivity.
  - reflexivity.
  - discriminate.
  - split; [exact H1 | exact H2].
Defined.

(** X19. A disabled account is revealed only to who knows its password: the
    right password is answered 403 "Account has been disabled" and is not
    counted as a failed attempt; a wrong password is answered the generic
    401 and is counted. *)
Theorem login_to_disabled_account
    (body : UserLogin) (request : Request) (w : world) (u : user_row)
    (rest : list user_row) :
  Z.of_nat (List.length (recent_failures (clock w (clock_reads w)) w (client_host request)))
    < 10 ->
  users_with_email (l_email body) (db w) = u :: rest ->
  is_active u = 0 ->
  let w' := snd (serve (login_user body request) w) in
  let kept := recent_failures (clock w (clock_reads w)) w (client_host request) in
  if verify_password (l_password body) (password_hash u)
  then fst (serve (login_user body request) w)
         = Failure 403 (DetailStr "Account has been disabled")
       /\ failed_attempts (rate_limiter w') (client_host request) = kept
  else fst (serve (login_user body request) w)
         = Failure 401 (DetailStr "Invalid email or password")
       /\ failed_attempts (rate_limiter w') (client_host request)
          = (kept ++ [clock w (S (clock_reads w))])%list.
Proof.
  intros Hok Hrow Hact. cbv zeta.
  pose proof (login_user_cases body request w) as H. cbv zeta in H.
  unfold serve. destruct (login_user body request w) as [o w'].
  cbn [fst snd] in *. destruct H as [_ [_ [_ H]]].
  destruct (Z.ltb_spec
              (Z.of_nat (List.length
                 (recent_failures (clock w (clock_reads w)) w (client_host request)))) 10);
    [| lia].
  rewrite Hrow in H. destruct (verify_password _ _).
  - rewrite Hact in H. cbn in H. destruct H as [-> Hfa]. split; [reflexivity | assumption].
  - destruct H as [-> Hfa]. split; [reflexivity | assumption].
Qed.

Lemma login_to_disabled_account_witness :
  fst (serve (login_user bob_login login_request) world_users)
  = Failure 403 (DetailStr "Account has been disabled")
  /\ failed_attempts (rate_limiter (snd (serve (login_user bob_login login_request)
                                           world_users))) "203.0.113.7" = [].
Proof.
  pose proof (login_to_disabled_account bob_login login_request world_users bob []) as H.
  cbv zeta in H.
  assert (H1 : Z.of_nat (List.length
                  (recent_failures (clock world_users (clock_reads world_users))
                     world_users (client_host login_request))) < 10)
    by (vm_compute; reflexivity).
  specialize (H H1 eq_refl eq_refl).
  change (verify_password (l_password bob_login) (password_hash bob)) with true in H.
  exact H.
Defined.

(* ================================================================== *)
(** * Registration of a known email; windows of the generic throttle *)
(* ================================================================== *)

(** X20. Registering an email that is already in [users] is refused with
    400 "Email already registered" once the generic limiter has admitted
    the request, and stores nothing. *)
Theorem duplicate_registration_refused
    (body : UserRegister) (request : Request) (w : world) :
  fst (check_rate_limit request w) = Return true ->
  users_with_email (r_email body) (db w) <> [] ->
  fst (serve (POST_auth_register request body) w)
    = Failure 400 (DetailStr "Email already registered")
  /\ db (snd (serve (POST_auth_register request body) w)) = db w.
Proof.
  intros Hadmit Hdup. split.
  - now apply register_duplicate_answers_400.
  - apply POST_auth_register_keeps_db.
Qed.

Lemma duplicate_registration_refused_witness :
  fst (serve (POST_auth_register register_request duplicate_body) world_users)
  = Failure 400 (DetailStr "Email already registered").
Proof.
  apply (duplicate_registration_refused duplicate_body register_request world_users).
  - reflexivity.
  - discriminate.
Defined.

Lemma recent_le_length (t window : Z) (l : list (Z * string)) :
  recent t window l <= Z.of_nat (List.length l).
Proof.
  unfold recent, purge. pose proof (filter_length_le (fun te => within t window (fst te)) l).
  lia.
Qed.

Lemma limits_at_least_two (k : limit_key) : 2 <= l_requests (limits k).
Proof. destruct k; cbn; lia. Qed.

(** X21. The purge uses the window of the request being checked, whatever
    the class of the entries it drops.  Hence a client all of whose
    recorded requests are at least as old as the window of the path it
    asks for now is admitted there and is left with that single entry, so
    that its next request is admitted on any path, also on one whose own,
    longer window still covers the earlier requests. *)
Theorem short_window_request_clears_longer_windows
    (w : world) (r1 r2 : Request) :
  client_host r2 = client_host r1 ->
  (forall te, In te (requests (rate_limiter w) (client_host r1)) ->
              seconds (l_window (limits (classify (url_path r1))))
              <= clock w (clock_reads w) - fst te) ->
  let w1 := snd (check_rate_limit r1 w) in
  fst (check_rate_limit r1 w) = Return true
  /\ requests (rate_limiter w1) (client_host r1)
     = [(clock w (S (clock_reads w)), url_path r1)]
  /\ fst (check_rate_limit r2 w1) = Return true.
Proof.
  intros Hip Hold. cbv zeta.
  rewrite check_rate_limit_eq. cbv zeta.
  rewrite purge_none by assumption.
  change (recent _ _ []) with 0.
  pose proof (limits_at_least_two (classify (url_path r1))) as Hmax1.
  destruct (Z.geb_spec 0 (l_requests (limits (classify (url_path r1))))); [lia |].
  cbn [fst snd]. split; [reflexivity |].
  split; [cbn; apply store_same |].
  rewrite check_rate_limit_eq. cbv zeta. rewrite Hip.
  cbn [requests rate_limiter set_requests set_clock_reads set_rate_limiter
       clock clock_reads].
  rewrite !store_same. cbn [app].
  pose proof (limits_at_least_two (classify (url_path r2))) as Hmax2.
  match goal with |- context [recent ?t ?win (purge ?t1 ?win ?l)] =>
    pose proof (recent_le_length t win (purge t1 win l)) as Hc;
    pose proof (filter_length_le (fun te => within t1 win (fst te)) l) as Hl;
    destruct (Z.geb_spec (recent t win (purge t1 win l))
                (l_requests (limits (classify (url_path r2))))) as [Hge | Hlt]
  end.
  - unfold purge in Hc at 2. cbn [List.length] in Hl. lia.
  - reflexivity.
Qed.

(** Five logins a hundred seconds ago fill the login class (5 per 300 s);
    one request to [/summary] (window 60 s) and the sixth login is
    admitted. *)
Lemma short_window_request_clears_longer_windows_witness :
  fst (check_rate_limit login_request world_after_five_logins)
    = Raise (HTTPException 429 (rate_limit_detail 300))
  /\ fst (check_rate_limit login_request
            (snd (check_rate_limit summary_request world_after_five_logins)))
     = Return true.
Proof.
  split.
  - vm_compute. reflexivity.
  - apply (short_window_request_clears_longer_windows world_after_five_logins
             summary_request login_request).
    + reflexivity.
    + intros te Hin. apply repeat_spec in Hin. subst te. vm_compute. discriminate.
Defined.

(* ================================================================== *)
(** * Lock-out after repeated failures *)
(* ================================================================== *)






(* ================================================================== *)
(** * The email pattern *)
(* ================================================================== *)

Module RegexFacts.
Import Regex.

Lemma nullable_spec (r : t) : nullable r = true <-> matches r [].
Proof.
  induction r as [| | p | a IHa b IHb | a IHa b IHb | a IHa]; cbn [nullable].
  - split; [discriminate | intros H; inversion H].
  - split; [intros _; constructor | reflexivity].
  - split; [discriminate | intros H; inversion H].
  - rewrite andb_true_iff, IHa, IHb. split.
    + intros [Ha Hb]. change (@nil Py.codepoint) with (@nil Py.codepoint ++ [])%list.
      now constructor.
    + intros H. inversion H as [| | a' b' s1 s2 H1 H2 | | | |]. subst.
      destruct s1; [| discriminate]. destruct s2; [| discriminate]. now split.
  - rewrite orb_true_iff, IHa, IHb. split.
    + intros [H | H]; [now apply MAltL | now apply MAltR].
    + intros H. inversion H; subst; [now left | now right].
  - split; [intros _; constructor | reflexivity].
Qed.

Lemma matches_class (p : Py.codepoint -> bool) (s : Py.str) :
  matches (Class p) s <-> exists c, s = [c] /\ p c = true.
Proof.
  split.
  - intros H. inversion H. subst. eauto.
  - intros [c [-> Hp]]. now constructor.
Qed.

Lemma matches_seq (a b : t) (s : Py.str) :
  matches (Seq a b) s <-> exists s1 s2, s = (s1 ++ s2)%list /\ matches a s1 /\ matches b s2.
Proof.
  split.
  - intros H. inversion H. subst. eauto.
  - intros [s1 [s2 [-> [H1 H2]]]]. now constructor.
Qed.

Lemma star_cons (a : t) (c : Py.codepoint) (s : Py.str) :
  matches (Star a) (c :: s) ->
  exists s1 s2, s = (s1 ++ s2)%list /\ matches a (c :: s1) /\ matches (Star a) s2.
Proof.
  intros H. remember (Star a) as r eqn:Hr. remember (c :: s) as cs eqn:Hcs.
  revert c s Hcs.
  induction H as [| p0 c0 Hp0 | | | | | a' s1 s2 H1 _ H2 IH2]; intros x y Hxy;
    try discriminate.
  inversion Hr. subst a'. destruct s1 as [| c1 s1].
  - cbn in Hxy. apply (IH2 eq_refl x y Hxy).
  - cbn in Hxy. inversion Hxy. subst. exists s1, s2. repeat split; assumption.
Qed.

Lemma deriv_spec (r : t) : forall (c : Py.codepoint) (s : Py.str),
  matches (deriv c r) s <-> matches r (c :: s).
Proof.
  induction r as [| | p | a IHa b IHb | a IHa b IHb | a IHa]; intros c s; cbn [deriv].
  - split; intros H; inversion H.
  - split; intros H; inversion H.
  - destruct (p c) eqn:Hp; split; intros H.
    + inversion H. subst. now constructor.
    + inversion H. subst. constructor.
    + inversion H.
    + inversion H. subst. congruence.
  - assert (Hseq : matches (Seq (deriv c a) b) s
                   -> matches (Seq a b) (c :: s)).
    { intros H. apply matches_seq in H. destruct H as [s1 [s2 [-> [H1 H2]]]].
      apply IHa in H1. change (c :: s1 ++ s2)%list with ((c :: s1) ++ s2)%list.
      now constructor. }
    destruct (nullable a) eqn:Hn; split; intros H.
    + inversion H as [| | | a' b' s0 Hl | a' b' s0 Hr | |]; subst; [now apply Hseq |].
      apply nullable_spec in Hn. apply IHb in Hr.
      change (c :: s) with ([] ++ c :: s)%list. now constructor.
    + apply matches_seq in H. destruct H as [s1 [s2 [Heq [H1 H2]]]].
      destruct s1 as [| c1 s1].
      * cbn in Heq. subst s2. apply MAltR. now apply IHb.
      * cbn in Heq. inversion Heq. subst. apply MAltL.
        constructor; [now apply IHa | assumption].
    + now apply Hseq.
    + apply matches_seq in H. destruct H as [s1 [s2 [Heq [H1 H2]]]].
      destruct s1 as [| c1 s1].
      * apply nullable_spec in H1. congruence.
      * cbn in Heq. inversion Heq. subst. constructor; [now apply IHa | assumption].
  - split; intros H.
    + inversion H; subst; [apply MAltL; now apply IHa | apply MAltR; now apply IHb].
    + inversion H; subst; [apply MAltL; now apply IHa | apply MAltR; now apply IHb].
  - split; intros H.
    + apply matches_seq in H. destruct H as [s1 [s2 [-> [H1 H2]]]].
      apply IHa in H1. change (c :: s1 ++ s2)%list with ((c :: s1) ++ s2)%list.
      now constructor.
    + apply star_cons in H. destruct H as [s1 [s2 [-> [H1 H2]]]].
      constructor; [now apply IHa | assumption].
Qed.

(** The matcher decides the denotation. *)
Lemma fullmatch_spec (s : Py.str) : forall r : t, fullmatch r s = true <-> matches r s.
Proof.
  induction s as [| c s IH]; intros r; cbn [fullmatch].
  - apply nullable_spec.
  - rewrite IH. apply deriv_spec.
Qed.

Lemma matches_star_class (p : Py.codepoint -> bool) (s : Py.str) :
  matches (Star (Class p)) s <-> Forall (fun c => p c = true) s.
Proof.
  split.
  - intros H. remember (Star (Class p)) as r eqn:Hr.
    induction H as [| | | | | | a s1 s2 H1 _ H2 IH2]; try discriminate.
    + constructor.
    + inversion Hr. subst a. inversion H1. subst. constructor; [assumption | now apply IH2].
  - induction 1 as [| c l Hc Hl IH]; [constructor |].
    change (c :: l) with ([c] ++ l)%list. constructor; [now constructor | assumption].
Qed.

Lemma matches_plus_class (p : Py.codepoint -> bool) (s : Py.str) :
  matches (plus (Class p)) s <-> s <> [] /\ Forall (fun c => p c = true) s.
Proof.
  unfold plus. rewrite matches_seq. split.
  - intros [s1 [s2 [-> [H1 H2]]]]. apply matches_class in H1. destruct H1 as [c [-> Hc]].
    apply matches_star_class in H2. split; [discriminate | now constructor].
  - intros [Hne Hall]. destruct s as [| c l]; [contradiction |].
    inversion Hall. subst. exists [c], l. split; [reflexivity |].
    split; [now constructor | now apply matches_star_class].
Qed.

Lemma matches_at_least_two_class (p : Py.codepoint -> bool) (s : Py.str) :
  matches (at_least_two (Class p)) s
  <-> (2 <= List.length s)%nat /\ Forall (fun c => p c = true) s.
Proof.
  unfold at_least_two. rewrite matches_seq. split.
  - intros [s1 [s2 [-> [H1 H2]]]]. apply matches_class in H1. destruct H1 as [c [-> Hc]].
    apply (matches_plus_class p) in H2. destruct H2 as [Hne Hall].
    split; [| now constructor]. destruct s2; [contradiction | cbn; lia].
  - intros [Hlen Hall]. destruct s as [| c l]; [cbn in Hlen; lia |].
    inversion Hall. subst. exists [c], l. split; [reflexivity |].
    split; [now constructor |]. apply (matches_plus_class p).
    split; [| assumption]. destruct l; [cbn in Hlen; lia | discriminate].
Qed.

End RegexFacts.

(** X23. [validate_email] accepts exactly the strings of the form
    local@domain.tld, with a non-empty local part over [a-zA-Z0-9._%+-], a
    non-empty domain over [a-zA-Z0-9.-] and at least two letters after the
    last dot, and the same strings followed by one line feed. *)
Theorem validate_email_spec (s : Py.str) :
  validate_email s = true
  <-> well_formed_address s
      \/ exists s', s = (s' ++ [LINE_FEED])%list /\ well_formed_address s'.
Proof.
  unfold validate_email, EMAIL_PATTERN. rewrite RegexFacts.fullmatch_spec.
  rewrite RegexFacts.matches_seq. split.
  - intros [l [r1 [-> [Hl H1]]]].
    apply RegexFacts.matches_plus_class in Hl. destruct Hl as [Hlne Hlall].
    apply RegexFacts.matches_seq in H1. destruct H1 as [a [r2 [-> [Ha H2]]]].
    apply RegexFacts.matches_class in Ha. destruct Ha as [c [-> Hc]].
    apply N.eqb_eq in Hc. subst c.
    apply RegexFacts.matches_seq in H2. destruct H2 as [d [r3 [-> [Hd H3]]]].
    apply RegexFacts.matches_plus_class in Hd. destruct Hd as [Hdne Hdall].
    apply RegexFacts.matches_seq in H3. destruct H3 as [dot [r4 [-> [Hdot H4]]]].
    apply RegexFacts.matches_class in Hdot. destruct Hdot as [c [-> Hc]].
    apply N.eqb_eq in Hc. subst c.
    apply RegexFacts.matches_seq in H4. destruct H4 as [tld [e [-> [Ht He]]]].
    apply RegexFacts.matches_at_least_two_class in Ht. destruct Ht as [Htlen Htall].
    assert (Hwf : well_formed_address (l ++ [AT_SIGN] ++ d ++ [FULL_STOP] ++ tld)%list).
    { exists l, d, tld. repeat split; assumption. }
    inversion He as [| | | a' b' s0 He' | a' b' s0 He' | |]; subst.
    + inversion He'. subst. left. now rewrite app_nil_r.
    + apply RegexFacts.matches_class in He'. destruct He' as [c [-> Hc]].
      apply N.eqb_eq in Hc. subst c. right.
      exists (l ++ [AT_SIGN] ++ d ++ [FULL_STOP] ++ tld)%list.
      split; [| assumption]. now rewrite <- !app_assoc.
  - assert (Hmain : forall l d tld e,
               l <> [] -> Forall (fun c => is_local_char c = true) l ->
               d <> [] -> Forall (fun c => is_domain_char c = true) d ->
               (2 <= List.length tld)%nat -> Forall (fun c => is_letter c = true) tld ->
               Regex.matches (Regex.Alt Regex.Eps (Regex.Class (N.eqb LINE_FEED))) e ->
               exists s1 s2,
                 ((l ++ [AT_SIGN] ++ d ++ [FULL_STOP] ++ tld) ++ e)%list = (s1 ++ s2)%list
                 /\ Regex.matches (Regex.plus (Regex.Class is_local_char)) s1
                 /\ Regex.matches
                      (Regex.Seq (Regex.Class (N.eqb AT_SIGN))
                         (Regex.Seq (Regex.plus (Regex.Class is_domain_char))
                            (Regex.Seq (Regex.Class (N.eqb FULL_STOP))
                               (Regex.Seq (Regex.at_least_two (Regex.Class is_letter))
                                  (Regex.Alt Regex.Eps
                                     (Regex.Class (N.eqb LINE_FEED))))))) s2).
    { intros l d tld e Hl1 Hl2 Hd1 Hd2 Ht1 Ht2 He.
      exists l, ([AT_SIGN] ++ d ++ [FULL_STOP] ++ tld ++ e)%list.
      split; [now rewrite <- !app_assoc |].
      split; [now apply RegexFacts.matches_plus_class |].
      constructor; [constructor; apply N.eqb_refl |].
      constructor; [now apply RegexFacts.matches_plus_class |].
      constructor; [constructor; apply N.eqb_refl |].
      constructor; [now apply RegexFacts.matches_at_least_two_class | assumption]. }
    intros [[l [d [tld [-> [Hl1 [Hl2 [Hd1 [Hd2 [Ht1 Ht2]]]]]]]]]
           | [s' [-> [l [d [tld [-> [Hl1 [Hl2 [Hd1 [Hd2 [Ht1 Ht2]]]]]]]]]]]].
    + rewrite <- (app_nil_r (l ++ [AT_SIGN] ++ d ++ [FULL_STOP] ++ tld)%list).
      apply Hmain; try assumption. apply Regex.MAltL. constructor.
    + apply Hmain; try assumption. apply Regex.MAltR. constructor. apply N.eqb_refl.
Qed.

(* ================================================================== *)
(** * Further properties of the validators, the throttle and the debug
      endpoint *)
(* ================================================================== *)

Lemma count_at_sign_none (p : Py.codepoint -> bool) (l : Py.str) :
  p AT_SIGN = false -> Forall (fun c => p c = true) l -> count_occ N.eq_dec l AT_SIGN = 0%nat.
Proof.
  intros Hp Hall. induction Hall as [| c l Hc _ IH]; [reflexivity |].
  cbn [count_occ]. destruct (N.eq_dec c AT_SIGN) as [-> | _]; [congruence | exact IH].
Qed.

Lemma well_formed_address_one_at (s : Py.str) :
  well_formed_address s -> count_occ N.eq_dec s AT_SIGN = 1%nat.
Proof.
  intros [l [d [tld [-> [_ [Hl [_ [Hd [_ Ht]]]]]]]]].
  rewrite !count_occ_app.
  pose proof (count_at_sign_none is_local_char l eq_refl Hl) as E1.
  pose proof (count_at_sign_none is_domain_char d eq_refl Hd) as E2.
  pose proof (count_at_sign_none is_letter tld eq_refl Ht) as E3.
  cbn [count_occ].
  destruct (N.eq_dec AT_SIGN AT_SIGN) as [_ | Hne]; [| contradiction].
  destruct (N.eq_dec FULL_STOP AT_SIGN) as [Heq | _]; [discriminate Heq |].
  unfold Py.codepoint in *. lia.
Qed.

(** X24. An address that [validate_email] accepts contains exactly one
    [@]. *)
Theorem valid_email_has_one_at_sign (s : Py.str) :
  validate_email s = true -> count_occ N.eq_dec s AT_SIGN = 1%nat.
Proof.
  intros H. apply validate_email_spec in H. destruct H as [H | [s' [-> H]]].
  - now apply well_formed_address_one_at.
  - rewrite count_occ_app. pose proof (well_formed_address_one_at s' H) as E.
    cbn [count_occ]. destruct (N.eq_dec LINE_FEED AT_SIGN) as [Heq | _]; [discriminate Heq |].
    unfold Py.codepoint in *. lia.
Qed.

Lemma valid_email_has_one_at_sign_witness :
  count_occ N.eq_dec (Py.lit "a.b+c@sub.x-y.org") AT_SIGN = 1%nat.
Proof.
  apply (valid_email_has_one_at_sign (Py.lit "a.b+c@sub.x-y.org")).
  vm_compute. reflexivity.
Defined.


(** X26. The lock-out ends by itself: once every recorded failure of an
    address is an hour old, the throttle lets the next login through to the
    credential check and forgets the old failures. *)
Theorem failed_attempts_expire (body : UserLogin) (request : Request) (w : world) :
  (forall ts, In ts (failed_attempts (rate_limiter w) (client_host request)) ->
              seconds 3600 <= clock w (clock_reads w) - ts) ->
  let w' := snd (serve (login_user body request) w) in
  status_of (fst (serve (login_user body request) w)) <> 429
  /\ (List.length (failed_attempts (rate_limiter w') (client_host request)) <= 1)%nat
  /\ fst (RateLimiter_check_failed_attempts (client_host request) 10 3600 w) = Return true.
Proof.
  intros Hold. cbv zeta.
  assert (Hkept : recent_failures (clock w (clock_reads w)) w (client_host request) = []).
  { unfold recent_failures.
    induction (failed_attempts (rate_limiter w) (client_host request)) as [| a l IH];
      [reflexivity |].
    cbn [filter]. rewrite (proj2 (within_false _ 3600 a)) by (apply Hold; now left).
    apply IH. intros ts Hin. apply Hold. now right. }
  pose proof (login_user_cases body request w) as H. cbv zeta in H.
  unfold serve. destruct (login_user body request w) as [o w'].
  cbn [fst snd] in *. destruct H as [_ [_ [_ H]]]. rewrite Hkept in H. cbn in H.
  split; [| split].
  - destruct (users_with_email _ _) as [| u rest].
    + destruct H as [-> _]. cbn. discriminate.
    + destruct (verify_password _ _).
      * destruct (is_active u =? 0); destruct H as [-> _]; cbn; discriminate.
      * destruct H as [-> _]. cbn. discriminate.
  - destruct (users_with_email _ _) as [| u rest].
    + destruct H as [_ ->]. cbn. lia.
    + destruct (verify_password _ _).
      * destruct H as [_ ->]. cbn. lia.
      * destruct H as [_ ->]. cbn. lia.
  - unfold RateLimiter_check_failed_attempts. run_monad. rewrite store_same.
    unfold recent_failures in Hkept. rewrite Hkept. reflexivity.
Qed.

Lemma failed_attempts_expire_witness :
  status_of (fst (serve (login_user wrong_password_login login_request)
                    world_after_old_failures)) <> 429
  /\ (List.length (failed_attempts
                     (rate_limiter (snd (serve (login_user wrong_password_login login_request)
                                           world_after_old_failures)))
                     "203.0.113.7") <= 1)%nat.
Proof.
  destruct (failed_attempts_expire wrong_password_login login_request
              world_after_old_failures) as [H1 [H2 _]].
  - intros ts Hin. apply repeat_spec in Hin. subst ts. vm_compute. discriminate.
  - split; [exact H1 | exact H2].
Defined.

(* ================================================================== *)
(** * Transactions: deletion and the summary *)
(* ================================================================== *)

Lemma rowcount_zero {A} (f : A -> bool) (l : list A) :
  (Z.of_nat (List.length (filter f l)) =? 0) = negb (existsb f l).
Proof.
  induction l as [| a l IH]; [reflexivity |].
  cbn [filter existsb]. destruct (f a); cbn [orb negb].
  - cbn [List.length]. apply Z.eqb_neq. lia.
  - exact IH.
Qed.

(** What [delete_transaction] answers and leaves behind. *)
Lemma delete_transaction_effect (pg : Ledger.postgres) (transaction_id : Z)
    (current_user : identity) (st : Ledger.state) :
  Ledger.delete_transaction pg transaction_id current_user st
  = match Ledger.parse_uuid pg (id_user_id current_user) with
    | None =>
        (Ledger.Err (Ledger.Core (HTTPException 500
           (DetailStr (Ledger.invalid_uuid_message pg (id_user_id current_user))))),
         settled st)
    | Some u =>
        if existsb (Ledger.is_target transaction_id u) (Ledger.table st)
        then (Ledger.Ok "Transaction deleted successfully",
              {| Ledger.core := Ledger.core st;
                 Ledger.table :=
                   filter (fun t => negb (Ledger.is_target transaction_id u t))
                          (Ledger.table st);
                 Ledger.view :=
                   filter (fun t => negb (Ledger.is_target transaction_id u t))
                          (Ledger.table st) |})
        else (Ledger.Err (Ledger.Core
                (HTTPException 404 (DetailStr "Transaction not found"))),
              settled st)
    end.
Proof.
  unfold Ledger.delete_transaction, Ledger.reraise_http_else_500,
    Ledger.with_connection, Ledger.execute_delete, Ledger.bind_user_id, settled.
  destruct (Ledger.parse_uuid pg (id_user_id current_user)) as [u |].
  - cbv [Ledger.lbind Ledger.lret Ledger.lraise Ledger.commit].
    cbn [Ledger.core Ledger.table Ledger.view].
    rewrite rowcount_zero.
    destruct (existsb (Ledger.is_target transaction_id u) (Ledger.table st)) eqn:Hex;
      cbn [negb Ledger.core Ledger.table Ledger.view].
    + reflexivity.
    + reflexivity.
  - reflexivity.
Qed.

(** X27. [delete_transaction] answers in one of three ways.  When the
    server does not read the caller's id as a UUID, a 500 carrying the
    server's message; when the table has no row with the requested id that
    belongs to the caller, a 404 "Transaction not found"; in both cases the
    table stays as it was.  Otherwise the confirmation message, and the
    table loses exactly the rows with that id and that owner. *)
Theorem delete_transaction_cases (pg : Ledger.postgres) (transaction_id : Z)
    (current_user : identity) (st : Ledger.state) :
  let (r, st') := Ledger.delete_transaction pg transaction_id current_user st in
  match Ledger.parse_uuid pg (id_user_id current_user) with
  | None =>
      Ledger.respond r
      = Failure 500
          (DetailStr (Ledger.invalid_uuid_message pg (id_user_id current_user)))
      /\ Ledger.table st' = Ledger.table st
  | Some u =>
      if existsb (fun t => (Ledger.t_id t =? transaction_id)
                           && N.eqb (Ledger.t_user_id t) u) (Ledger.table st)
      then Ledger.respond r = Success "Transaction deleted successfully"
           /\ Ledger.table st'
              = filter (fun t => negb ((Ledger.t_id t =? transaction_id)
                                       && N.eqb (Ledger.t_user_id t) u))
                       (Ledger.table st)
      else Ledger.respond r = Failure 404 (DetailStr "Transaction not found")
           /\ Ledger.table st' = Ledger.table st
  end.
Proof.
  rewrite delete_transaction_effect.
  destruct (Ledger.parse_uuid pg (id_user_id current_user)) as [u |].
  - change (fun t => (Ledger.t_id t =? transaction_id) && N.eqb (Ledger.t_user_id t) u)
      with (Ledger.is_target transaction_id u).
    destruct (existsb (Ledger.is_target transaction_id u) (Ledger.table st));
      repeat split.
  - repeat split.
Qed.

(** X28. Whatever [DELETE /transactions/{id}] answers, a row that was in
    the table before the request and is not in it afterwards has the
    requested id and belongs to the caller the token was verified as: the
    request passed the limiter, the verifier returned an identity whose id
    the server reads as the row's owner, and the answer was the
    confirmation. *)
Theorem DELETE_transaction_removes_only_the_callers_row
    (pg : Ledger.postgres) (request : Request) (bearer : PyJWT.token)
    (transaction_id : Z) (st st' : Ledger.state) (r : Ledger.result string)
    (t : Ledger.transaction) :
  Ledger.DELETE_transaction pg request bearer transaction_id st = (r, st') ->
  In t (Ledger.table st) ->
  ~ In t (Ledger.table st') ->
  exists (b : bool) (w1 w2 : world) (current_user : identity),
    check_rate_limit request (Ledger.core st) = (Return b, w1)
    /\ verify_supabase_token bearer w1 = (Return current_user, w2)
    /\ Ledger.parse_uuid pg (id_user_id current_user) = Some (Ledger.t_user_id t)
    /\ Ledger.t_id t = transaction_id
    /\ r = Ledger.Ok "Transaction deleted successfully".
Proof.
  unfold Ledger.DELETE_transaction, Ledger.lbind, Ledger.lift_core.
  intros Hrun Hin Hout.
  destruct (check_rate_limit request (Ledger.core st)) as [[b | e] w1] eqn:Hlimit.
  2:{ inversion Hrun; subst. cbn [Ledger.table] in Hout. contradiction. }
  cbn [Ledger.core Ledger.table Ledger.view] in Hrun.
  destruct (verify_supabase_token bearer w1) as [[current_user | e] w2] eqn:Hverify.
  2:{ inversion Hrun; subst. cbn [Ledger.table] in Hout. contradiction. }
  rewrite delete_transaction_effect in Hrun.
  cbn [Ledger.core Ledger.table Ledger.view] in Hrun.
  destruct (Ledger.parse_uuid pg (id_user_id current_user)) as [u |] eqn:Hu.
  2:{ inversion Hrun; subst. cbn [settled Ledger.table] in Hout. contradiction. }
  destruct (existsb (Ledger.is_target transaction_id u) (Ledger.table st)).
  2:{ inversion Hrun; subst. cbn [settled Ledger.table] in Hout. contradiction. }
  inversion Hrun; subst. cbn [Ledger.table] in Hout.
  destruct (Ledger.is_target transaction_id u t) eqn:Ht.
  - unfold Ledger.is_target in Ht. apply andb_prop in Ht. destruct Ht as [Hid Hown].
    apply Z.eqb_eq in Hid. apply N.eqb_eq in Hown. subst u.
    exists b, w1, w2, current_user. repeat split; assumption.
  - exfalso. apply Hout. apply filter_In. split; [exact Hin |]. rewrite Ht. reflexivity.
Qed.

Lemma DELETE_transaction_removes_only_the_callers_row_witness :
  exists (b : bool) (w1 w2 : world) (current_user : identity),
    check_rate_limit (delete_request "1") world_idp = (Return b, w1)
    /\ verify_supabase_token carol_token w1 = (Return current_user, w2)
    /\ Ledger.parse_uuid sample_postgres (id_user_id current_user) = Some 1%N
    /\ 1 = 1
    /\ fst (Ledger.DELETE_transaction sample_postgres (delete_request "1") carol_token 1
              sample_state)
       = Ledger.Ok "Transaction deleted successfully".
Proof.
  apply (DELETE_transaction_removes_only_the_callers_row sample_postgres
           (delete_request "1") carol_token 1 sample_state
           (snd (Ledger.DELETE_transaction sample_postgres (delete_request "1")
                   carol_token 1 sample_state))
           (fst (Ledger.DELETE_transaction sample_postgres (delete_request "1")
                   carol_token 1 sample_state))
           (sample_row 1 1 Ledger.income 250000 19670)).
  - apply surjective_pairing.
  - left. reflexivity.
  - vm_compute. intros [H | [H | H]]; [discriminate H | discriminate H | exact H].
Defined.

Lemma read_totals_groups (pg : Ledger.postgres) (rows : list Ledger.transaction) :
  Ledger.read_totals
    (if Ledger.expense_group_first pg
     then (Ledger.group Ledger.expense rows ++ Ledger.group Ledger.income rows)%list
     else (Ledger.group Ledger.income rows ++ Ledger.group Ledger.expense rows)%list)
  = (Ledger.sum_amount (Ledger.of_type Ledger.income rows),
     Ledger.sum_amount (Ledger.of_type Ledger.expense rows)).
Proof.
  unfold Ledger.group.
  destruct (Ledger.expense_group_first pg);
    destruct (Ledger.of_type Ledger.income rows) as [| i li];
    destruct (Ledger.of_type Ledger.expense rows) as [| e le];
    reflexivity.
Qed.

Lemma sum_amount_total_of (ty : Ledger.tx_type) (u : N) (start_date end_date : option Z)
    (l : list Ledger.transaction) :
  Ledger.sum_amount (Ledger.of_type ty (Ledger.selected u start_date end_date l))
  = total_of ty u start_date end_date l.
Proof.
  induction l as [| t l IH]; [reflexivity |].
  unfold Ledger.selected, Ledger.of_type in *. cbn [filter total_of].
  unfold share at 1. unfold Ledger.in_range.
  destruct (N.eqb (Ledger.t_user_id t) u); cbn [andb]; [| exact IH].
  destruct (match start_date with Some s => s <=? Ledger.t_date t | None => true end);
    cbn [andb].
  2:{ rewrite Bool.andb_false_r. exact IH. }
  destruct (match end_date with Some e => Ledger.t_date t <=? e | None => true end);
    cbn [andb filter].
  2:{ rewrite Bool.andb_false_r. exact IH. }
  rewrite Bool.andb_true_r.
  destruct (Ledger.tx_type_eqb (Ledger.t_type t) ty); cbn [Ledger.sum_amount fold_right].
  - f_equal. exact IH.
  - exact IH.
Qed.

Lemma count_rows_of (u : N) (start_date end_date : option Z)
    (l : list Ledger.transaction) :
  Z.of_nat (List.length (Ledger.selected u start_date end_date l))
  = rows_of u start_date end_date l.
Proof.
  induction l as [| t l IH]; [reflexivity |].
  unfold Ledger.selected, Ledger.in_range in *. cbn [filter rows_of].
  rewrite <- Bool.andb_assoc.
  destruct (N.eqb (Ledger.t_user_id t) u
            && (match start_date with Some s => s <=? Ledger.t_date t | None => true end
                && match end_date with Some e => Ledger.t_date t <=? e | None => true end)).
  - cbn [List.length]. rewrite Nat2Z.inj_succ, IH. lia.
  - rewrite IH. lia.
Qed.

(** What [get_summary] answers for a caller whose id the server reads. *)
Lemma get_summary_effect (pg : Ledger.postgres) (current_user : identity)
    (start_date end_date : option Z) (st : Ledger.state) (u : N) :
  Ledger.parse_uuid pg (id_user_id current_user) = Some u ->
  Ledger.get_summary pg current_user start_date end_date st
  = (Ledger.Ok
       {| Ledger.total_income :=
            total_of Ledger.income u start_date end_date (Ledger.table st);
          Ledger.total_expenses :=
            total_of Ledger.expense u start_date end_date (Ledger.table st);
          Ledger.net_balance :=
            total_of Ledger.income u start_date end_date (Ledger.table st)
            - total_of Ledger.expense u start_date end_date (Ledger.table st);
          Ledger.transaction_count :=
            rows_of u start_date end_date (Ledger.table st) |},
     settled st).
Proof.
  intros Hu.
  unfold Ledger.get_summary, Ledger.all_errors_500, Ledger.with_connection,
    Ledger.select_totals, Ledger.select_count, Ledger.bind_user_id, settled.
  rewrite Hu.
  cbv [Ledger.lbind Ledger.lret]. cbn [Ledger.core Ledger.table Ledger.view].
  rewrite read_totals_groups.
  cbv [Ledger.lbind Ledger.lret]. cbn [Ledger.core Ledger.table Ledger.view].
  rewrite !sum_amount_total_of, count_rows_of. reflexivity.
Qed.

(** X29. For a caller whose id the server reads as the UUID [u],
    [get_summary] answers with: as income, the amounts of [u]'s income rows
    dated within the given bounds added up; as expenses, the same for
    [u]'s expense rows; as balance, their difference; as count, the number
    of [u]'s rows within the bounds.  This holds in whichever order the
    server returns the two groups and when a group is missing; rows of
    other users contribute nothing, and the table is left as it was. *)
Theorem get_summary_totals (pg : Ledger.postgres) (current_user : identity)
    (start_date end_date : option Z) (st : Ledger.state) (u : N) :
  Ledger.parse_uuid pg (id_user_id current_user) = Some u ->
  let (r, st') := Ledger.get_summary pg current_user start_date end_date st in
  r = Ledger.Ok
        {| Ledger.total_income :=
             total_of Ledger.income u start_date end_date (Ledger.table st);
           Ledger.total_expenses :=
             total_of Ledger.expense u start_date end_date (Ledger.table st);
           Ledger.net_balance :=
             total_of Ledger.income u start_date end_date (Ledger.table st)
             - total_of Ledger.expense u start_date end_date (Ledger.table st);
           Ledger.transaction_count :=
             rows_of u start_date end_date (Ledger.table st) |}
  /\ Ledger.table st' = Ledger.table st.
Proof.
  intros Hu. rewrite (get_summary_effect pg current_user start_date end_date st u Hu).
  split; reflexivity.
Qed.

Lemma get_summary_totals_witness :
  let (r, st') :=
    Ledger.get_summary sample_postgres carol (Some 19670) None sample_state in
  r = Ledger.Ok {| Ledger.total_income := 250000; Ledger.total_expenses := 120050;
                   Ledger.net_balance := 129950; Ledger.transaction_count := 2 |}
  /\ Ledger.table st' = sample_table.
Proof.
  apply (get_summary_totals sample_postgres carol (Some 19670) None sample_state 1%N).
  reflexivity.
Defined.

Lemma total_of_inverted (ty : Ledger.tx_type) (u : N) (s e : Z)
    (l : list Ledger.transaction) :
  e < s -> total_of ty u (Some s) (Some e) l = 0.
Proof.
  intros Hse. induction l as [| t l IH]; [reflexivity |].
  cbn [total_of]. rewrite IH. unfold share.
  destruct (s <=? Ledger.t_date t) eqn:H1; destruct (Ledger.t_date t <=? e) eqn:H2;
    rewrite ?Bool.andb_false_r; cbn [andb]; try reflexivity.
  apply Z.leb_le in H1. apply Z.leb_le in H2. lia.
Qed.

Lemma rows_of_inverted (u : N) (s e : Z) (l : list Ledger.transaction) :
  e < s -> rows_of u (Some s) (Some e) l = 0.
Proof.
  intros Hse. induction l as [| t l IH]; [reflexivity |].
  cbn [rows_of]. rewrite IH.
  destruct (s <=? Ledger.t_date t) eqn:H1; destruct (Ledger.t_date t <=? e) eqn:H2;
    rewrite ?Bool.andb_false_r; cbn [andb]; try reflexivity.
  apply Z.leb_le in H1. apply Z.leb_le in H2. lia.
Qed.

(** X30. A start date after the end date is not refused: for a caller
    whose id the server reads, [get_summary] answers with a summary of
    zero income, zero expenses, zero balance and zero transactions,
    whatever the table holds. *)
Theorem get_summary_inverted_range (pg : Ledger.postgres) (current_user : identity)
    (s e : Z) (st : Ledger.state) (u : N) :
  Ledger.parse_uuid pg (id_user_id current_user) = Some u ->
  e < s ->
  Ledger.respond (fst (Ledger.get_summary pg current_user (Some s) (Some e) st))
  = Success {| Ledger.total_income := 0; Ledger.total_expenses := 0;
               Ledger.net_balance := 0; Ledger.transaction_count := 0 |}.
Proof.
  intros Hu Hse. rewrite (get_summary_effect pg current_user (Some s) (Some e) st u Hu).
  cbn [fst Ledger.respond].
  rewrite !total_of_inverted, rows_of_inverted by exact Hse. reflexivity.
Qed.

Lemma get_summary_inverted_range_witness :
  Ledger.respond
    (fst (Ledger.get_summary sample_postgres carol (Some 19672) (Some 19670) sample_state))
  = Success {| Ledger.total_income := 0; Ledger.total_expenses := 0;
               Ledger.net_balance := 0; Ledger.transaction_count := 0 |}.
Proof.
  apply (get_summary_inverted_range sample_postgres carol 19672 19670 sample_state 1%N).
  - reflexivity.
  - lia.
Defined.
